(** * Aluminum host-transfer backend: requests, stream pool, facade and
      collective states

    A shallow embedding of
    - [include/aluminum/ht_impl.hpp]: [HostTransferBackend], [Test], [Wait];
    - [src/cuda/cuda.cpp]: the pool of internal streams and its life
      ([init], [finalize], [replace_internal_streams]);
    - the host-transfer gather and barrier state classes.

    The CUDA runtime, MPI and the progress engine are external: the model
    keeps the ordered list of calls issued to them ([trace]) and the queue of
    states handed to the progress engine.  The status every CUDA call
    returns is supplied by the runtime, here a function of the calls issued
    so far and of the call itself. *)

From Stdlib Require Import String ZArith List Bool Lia Permutation
  DecimalString.
Import ListNotations.
Local Open Scope Z_scope.

(** ** Machine integers *)

(** [size_t] is 64 bits wide; unsigned arithmetic wraps. *)
Definition size_t_modulus : Z := 2 ^ 64.
Definition size_t_wrap (z : Z) : Z := z mod size_t_modulus.
Definition size_t_mul (a b : Z) : Z := size_t_wrap (a * b).
Definition size_t_succ (a : Z) : Z := size_t_wrap (a + 1).

(** Conversion of a [size_t] to the [int] an MPI count is. *)
Definition int_of_size_t (z : Z) : Z := (z + 2 ^ 31) mod 2 ^ 32 - 2 ^ 31.

(** ** Handles, pointers and runtime calls *)

Inductive cudaStream_t := Stream (id : Z).
Inductive cudaEvent_t := Event (id : Z).
(** The cache-line sized word a [gpu_wait] member polls. *)
Inductive SyncFlag := Flag (id : Z).
Inductive MPI_Comm := Comm (id : Z).

(** A [T*] or [const T*]: a byte address. *)
Definition ptr := Z.

Definition cudaError_t := Z.
Definition cudaSuccess : cudaError_t := 0.

Inductive cudaMemcpyKind := cudaMemcpyHostToDevice | cudaMemcpyDeviceToHost.

(** The send buffer of a transport call. *)
Inductive mpi_buf := MPI_IN_PLACE | mpi_ptr (p : ptr).

(** Calls into the CUDA runtime, the event and sync-flag members of a
    state, and MPI.  The two [Synchronize] entry points are the CUDA calls
    that make the host wait for the device. *)
Inductive Call :=
| cudaMemcpyAsync (dst src : ptr) (bytes : Z) (kind : cudaMemcpyKind)
                  (stream : cudaStream_t)
| cudaEventRecord (ev : cudaEvent_t) (stream : cudaStream_t)
| cudaStreamWaitEvent (stream : cudaStream_t) (ev : cudaEvent_t) (flags : Z)
| cudaEventQuery (ev : cudaEvent_t)
| cudaEventSynchronize (ev : cudaEvent_t)
| cudaStreamSynchronize (stream : cudaStream_t)
| event_record (ev : cudaEvent_t) (stream : cudaStream_t)
| gpu_wait_wait (flag : SyncFlag) (stream : cudaStream_t)
| MPI_Igather (sendbuf : mpi_buf) (sendcount : Z) (recvbuf : ptr)
              (recvcount : Z) (root : Z) (comm : MPI_Comm)
| MPI_Ibarrier (comm : MPI_Comm).

(** Whether the host thread waits for the device inside the call. *)
Definition blocks_host (c : Call) : bool :=
  match c with
  | cudaEventSynchronize _ | cudaStreamSynchronize _ => true
  | _ => false
  end.

(** The stream a call puts work on, if any. *)
Definition stream_of (c : Call) : option cudaStream_t :=
  match c with
  | cudaMemcpyAsync _ _ _ _ s => Some s
  | cudaEventRecord _ s => Some s
  | cudaStreamWaitEvent s _ _ => Some s
  | event_record _ s => Some s
  | gpu_wait_wait _ s => Some s
  | _ => None
  end.

Definition is_memcpy (c : Call) : bool :=
  match c with cudaMemcpyAsync _ _ _ _ _ => true | _ => false end.

Definition is_cudaEventRecord (c : Call) : bool :=
  match c with cudaEventRecord _ _ => true | _ => false end.

Definition is_cudaStreamWaitEvent (c : Call) : bool :=
  match c with cudaStreamWaitEvent _ _ _ => true | _ => false end.

Definition stream_eqb (a b : cudaStream_t) : bool :=
  match a, b with Stream x, Stream y => x =? y end.

(** ** Communicator, request, state objects *)

(** [HostTransferCommunicator]: what [rank()], [size()], [get_comm()] and
    [get_stream()] return. *)
Record comm_type := {
  rank : Z;
  size : Z;
  get_comm : MPI_Comm;
  get_stream : cudaStream_t
}.

(** [struct HostTransferRequest]. *)
Record HostTransferRequest := {
  op_event : cudaEvent_t;
  orig_stream : cudaStream_t
}.

(** [req_type] is a [std::shared_ptr<HostTransferRequest>], modelled by its
    pointee; [None] is the empty pointer.  Shared ownership (the reference
    count, and the return of the event to the pool when the last owner lets
    go of the request) is outside the model. *)
Definition req_type := option HostTransferRequest.
Definition null_req : req_type := None.

Inductive StateClass :=
| AllreduceAlState | SendAlState | RecvAlState | SendRecvAlState
| AllgatherAlState | AlltoallAlState | BcastAlState | GatherAlState
| ReduceAlState | ReduceScatterAlState | ScatterAlState | BarrierAlState.

(** The base classes a state derives from. *)
Inductive BaseClass :=
| HostTransferCollectiveSignalAtEndState
| HostTransferCollectiveSignalNonRootEarlyState.

(** The base subobject of a state.  [is_root] is the constructor argument
    of the non-root-early base; the signal-at-end base has none and holds
    [true] here. *)
Record BaseState := {
  base_class : BaseClass;
  is_root : bool;
  base_stream : cudaStream_t;
  start_event : cudaEvent_t;
  end_event : cudaEvent_t;
  gpu_wait : SyncFlag
}.

(** A state whose end-side event concerns it: every signal-at-end state,
    and the root of a non-root-early one. *)
Definition signals_at_end (b : BaseState) : bool :=
  match base_class b with
  | HostTransferCollectiveSignalAtEndState => true
  | HostTransferCollectiveSignalNonRootEarlyState => is_root b
  end.

(** [class GatherAlState<T>]. *)
Record GatherState := {
  g_base : BaseState;
  g_host_mem : ptr;
  g_count : Z;
  g_root : Z;
  g_comm : MPI_Comm
}.

(** [class BarrierAlState] of the host-transfer backend. *)
Record BarrierState := {
  bar_base : BaseState;
  bar_comm : MPI_Comm
}.

(** A state of one of the classes the sources do not contain. *)
Record StagedState := {
  s_class : StateClass;
  s_base : BaseState;
  s_host_mem : ptr;
  s_send_count : Z;
  s_recv_count : Z;
  s_comm : MPI_Comm
}.

(** What an [AlState*] points to. *)
Inductive AlState :=
| St_Gather (g : GatherState)
| St_Barrier (b : BarrierState)
| St_Staged (s : StagedState).

Definition base_of (st : AlState) : BaseState :=
  match st with
  | St_Gather g => g_base g
  | St_Barrier b => bar_base b
  | St_Staged s => s_base s
  end.

Definition class_of (st : AlState) : StateClass :=
  match st with
  | St_Gather _ => GatherAlState
  | St_Barrier _ => BarrierAlState
  | St_Staged s => s_class s
  end.

(** ** Process state *)

Record World := {
  (** [cudaStream_t internal_streams[num_internal_streams]] *)
  internal_streams : list cudaStream_t;
  (** [static size_t cur_stream] of [get_internal_stream] *)
  cur_stream : Z;
  (** free events of [event_pool] *)
  event_pool : list cudaEvent_t;
  (** [HostTransferBackend::sync_event] *)
  sync_event : cudaEvent_t;
  (** next unused identifier for events and flags the runtime creates *)
  next_handle : Z;
  (** next unused address of pinned host memory *)
  pinned_brk : ptr;
  (** state objects created with [new], oldest first *)
  state_heap : list AlState;
  (** states handed to the progress engine, oldest first *)
  progress_queue : list AlState;
  (** the caller's variable a [req_type&] parameter is bound to *)
  req : req_type;
  (** calls issued so far, oldest first *)
  trace : list Call
}.

Definition set_cur_stream (n : Z) (w : World) : World :=
  {| internal_streams := internal_streams w; cur_stream := n;
     event_pool := event_pool w; sync_event := sync_event w;
     next_handle := next_handle w; pinned_brk := pinned_brk w;
     state_heap := state_heap w; progress_queue := progress_queue w;
     req := req w; trace := trace w |}.

Definition set_event_pool (p : list cudaEvent_t) (w : World) : World :=
  {| internal_streams := internal_streams w; cur_stream := cur_stream w;
     event_pool := p; sync_event := sync_event w;
     next_handle := next_handle w; pinned_brk := pinned_brk w;
     state_heap := state_heap w; progress_queue := progress_queue w;
     req := req w; trace := trace w |}.

Definition set_next_handle (n : Z) (w : World) : World :=
  {| internal_streams := internal_streams w; cur_stream := cur_stream w;
     event_pool := event_pool w; sync_event := sync_event w;
     next_handle := n; pinned_brk := pinned_brk w;
     state_heap := state_heap w; progress_queue := progress_queue w;
     req := req w; trace := trace w |}.

Definition set_pinned_brk (p : ptr) (w : World) : World :=
  {| internal_streams := internal_streams w; cur_stream := cur_stream w;
     event_pool := event_pool w; sync_event := sync_event w;
     next_handle := next_handle w; pinned_brk := p;
     state_heap := state_heap w; progress_queue := progress_queue w;
     req := req w; trace := trace w |}.

Definition set_state_heap (h : list AlState) (w : World) : World :=
  {| internal_streams := internal_streams w; cur_stream := cur_stream w;
     event_pool := event_pool w; sync_event := sync_event w;
     next_handle := next_handle w; pinned_brk := pinned_brk w;
     state_heap := h; progress_queue := progress_queue w;
     req := req w; trace := trace w |}.

Definition set_progress_queue (q : list AlState) (w : World) : World :=
  {| internal_streams := internal_streams w; cur_stream := cur_stream w;
     event_pool := event_pool w; sync_event := sync_event w;
     next_handle := next_handle w; pinned_brk := pinned_brk w;
     state_heap := state_heap w; progress_queue := q;
     req := req w; trace := trace w |}.

Definition set_req (r : req_type) (w : World) : World :=
  {| internal_streams := internal_streams w; cur_stream := cur_stream w;
     event_pool := event_pool w; sync_event := sync_event w;
     next_handle := next_handle w; pinned_brk := pinned_brk w;
     state_heap := state_heap w; progress_queue := progress_queue w;
     req := r; trace := trace w |}.

Definition set_trace (t : list Call) (w : World) : World :=
  {| internal_streams := internal_streams w; cur_stream := cur_stream w;
     event_pool := event_pool w; sync_event := sync_event w;
     next_handle := next_handle w; pinned_brk := pinned_brk w;
     state_heap := state_heap w; progress_queue := progress_queue w;
     req := req w; trace := t |}.

(** ** Computations: state with exceptions *)

Inductive exn :=
| al_exception (msg : string)
| cuda_failure (c : Call) (status : cudaError_t).

Inductive outcome (A : Type) :=
| Returned (a : A)
| Thrown (e : exn).
Arguments Returned {A} a.
Arguments Thrown {A} e.

(** A computation runs in a world and leaves one, also when it throws. *)
Definition M (A : Type) : Type := World -> outcome A * World.

Definition ret {A} (a : A) : M A := fun w => (Returned a, w).

Definition bind {A B} (m : M A) (k : A -> M B) : M B :=
  fun w => match m w with
           | (Returned a, w') => k a w'
           | (Thrown e, w') => (Thrown e, w')
           end.

Definition throw {A} (e : exn) : M A := fun w => (Thrown e, w).

Declare Scope comp_scope.
Delimit Scope comp_scope with comp.
Notation "x <- m ;; k" := (bind m (fun x => k))
  (at level 61, m at next level, right associativity) : comp_scope.
Notation "m ;; k" := (bind m (fun _ => k))
  (at level 61, right associativity) : comp_scope.
Local Open Scope comp_scope.

Definition gets {A} (f : World -> A) : M A := fun w => (Returned (f w), w).
Definition modify (f : World -> World) : M unit :=
  fun w => (Returned tt, f w).

(** The calls a computation added to the trace. *)
Definition issued (w w' : World) : list Call :=
  skipn (length (trace w)) (trace w').

(** What [throw_al_exception(msg)] raises. *)
Definition throw_al_exception {A} (msg : string) : M A :=
  throw (al_exception msg).

(** ** Algorithm enumerations *)

(** [enum class HostTransferAllreduceAlgorithm], by underlying value: a
    variable of the type can hold values that name no enumerator. *)
Module HostTransferAllreduceAlgorithm.
Definition t := Z.
Definition automatic : t := 0.
Definition host_transfer : t := 1.
End HostTransferAllreduceAlgorithm.

(** [enum class HostTransferCollectiveAlgorithm]. *)
Module HostTransferCollectiveAlgorithm.
Definition t := Z.
Definition automatic : t := 0.
End HostTransferCollectiveAlgorithm.

Definition algorithm_name_allreduce
    (algo : HostTransferAllreduceAlgorithm.t) : string :=
  if algo =? HostTransferAllreduceAlgorithm.automatic then "automatic"
  else if algo =? HostTransferAllreduceAlgorithm.host_transfer
       then "host-transfer"
       else "unknown".

Definition algorithm_name_collective
    (algo : HostTransferCollectiveAlgorithm.t) : string :=
  if algo =? HostTransferCollectiveAlgorithm.automatic then "automatic"
  else "unknown".

(** [ReductionOperator], by underlying value. *)
Definition ReductionOperator := Z.

(** ** src/cuda/cuda.cpp: internal streams *)

Definition num_internal_streams : Z := 5.

(** [internal_streams[i]] *)
Definition stream_at (w : World) (i : Z) : cudaStream_t :=
  nth (Z.to_nat i) (internal_streams w) (Stream 0).

(** [return internal_streams[cur_stream++ % num_internal_streams];] *)
Definition get_internal_stream : M cudaStream_t :=
  fun w =>
    (Returned (stream_at w (cur_stream w mod num_internal_streams)),
     set_cur_stream (size_t_succ (cur_stream w)) w).

(** [get_internal_stream(size_t id)] *)
Definition get_internal_stream_id (id : Z) : M cudaStream_t :=
  fun w => (Returned (stream_at w id), w).

(** [n] successive calls of [get_internal_stream], with what each
    returned. *)
Fixpoint get_internal_stream_calls (n : nat) (w : World)
    : list cudaStream_t * World :=
  match n with
  | O => ([], w)
  | S k =>
    match get_internal_stream w with
    | (Returned s, w') =>
      let '(l, w'') := get_internal_stream_calls k w' in (s :: l, w'')
    | (Thrown _, w') => ([], w')
    end
  end.

(** ** The backend *)

Section Backend.

(** [sizeof(T)] of the element type the templates are instantiated at. *)
Variable sizeofT : Z.

(** The status the CUDA runtime returns for a call, given the calls
    issued before it. *)
Variable cuda_status : list Call -> Call -> cudaError_t.

(** Issue a CUDA call and read its status. *)
Definition cuda_call (c : Call) : M cudaError_t :=
  fun w => (Returned (cuda_status (trace w) c),
            set_trace (trace w ++ [c]) w).

(** Modelled from the spec: the macro [AL_CHECK_CUDA] is not in the
    sources; "any failure from a device call is fatal; the library raises
    an exception-like failure carrying the failing call's identifier". *)
Definition AL_CHECK_CUDA (c : Call) : M unit :=
  status <- cuda_call c ;;
  if status =? cudaSuccess then ret tt else throw (cuda_failure c status).

(** A call on an event or sync-flag member, or into MPI. *)
Definition member_call (c : Call) : M unit :=
  modify (fun w => set_trace (trace w ++ [c]) w).

(** [p + n] for [T* p]. *)
Definition ptr_add (p : ptr) (n : Z) : ptr := p + sizeofT * n.

(** Modelled from the spec: [get_cuda_event] is declared in cuda.hpp,
    which is not in the sources; it "returns an event object suitable for
    recording on any stream", and "events are created lazily". *)
Definition get_cuda_event : M cudaEvent_t :=
  fun w =>
    match event_pool w with
    | e :: rest => (Returned e, set_event_pool rest w)
    | [] => (Returned (Event (next_handle w)),
             set_next_handle (next_handle w + 1) w)
    end.

(** Modelled from the spec: [mempool.allocate<CUDA_PINNED_HOST, T>(n)]
    of mempool.hpp, which is not in the sources; it hands out "a
    contiguous region of page-locked host memory" for [n] elements. *)
Definition mempool_allocate (n : Z) : M ptr :=
  fun w => (Returned (pinned_brk w),
            set_pinned_brk (pinned_brk w + size_t_mul sizeofT n) w).

(** Modelled from the spec: the base classes of base_state.hpp are not
    in the sources; a state has "a start-side device event; an end-side
    device event; a sync flag instance" and remembers its stream. *)
Definition base_ctor (cls : BaseClass) (is_root_ : bool)
    (stream_ : cudaStream_t) : M BaseState :=
  fun w =>
    let h := next_handle w in
    (Returned {| base_class := cls; is_root := is_root_;
                 base_stream := stream_;
                 start_event := Event h; end_event := Event (h + 1);
                 gpu_wait := Flag (h + 2) |},
     set_next_handle (h + 3) w).

(** *** The gather state *)

(** [GatherAlState::GatherAlState] *)
Definition GatherAlState_ctor (sendbuf recvbuf : ptr) (count_ root_ : Z)
    (comm_ : comm_type) (stream_ : cudaStream_t) : M GatherState :=
  b <- base_ctor HostTransferCollectiveSignalNonRootEarlyState
                 (rank comm_ =? root_) stream_ ;;
  host_mem <- mempool_allocate (if rank comm_ =? root_
                                then size_t_mul (size comm_) count_
                                else count_) ;;
  let count := count_ in
  (if is_root b then
     AL_CHECK_CUDA (cudaMemcpyAsync
       (ptr_add host_mem (size_t_mul (rank comm_) count))
       (if sendbuf =? recvbuf
        then ptr_add sendbuf (size_t_mul (rank comm_) count)
        else sendbuf)
       (size_t_mul sizeofT count) cudaMemcpyDeviceToHost stream_)
   else
     AL_CHECK_CUDA (cudaMemcpyAsync host_mem sendbuf
       (size_t_mul sizeofT count) cudaMemcpyDeviceToHost stream_)) ;;
  member_call (event_record (start_event b) stream_) ;;
  member_call (gpu_wait_wait (gpu_wait b) stream_) ;;
  (if is_root b then
     AL_CHECK_CUDA (cudaMemcpyAsync recvbuf host_mem
       (size_t_mul (size_t_mul sizeofT count) (size comm_))
       cudaMemcpyHostToDevice stream_) ;;
     member_call (event_record (end_event b) stream_)
   else ret tt) ;;
  ret {| g_base := b; g_host_mem := host_mem; g_count := count;
         g_root := root_; g_comm := get_comm comm_ |}.

(** [GatherAlState::start_mpi_op] *)
Definition GatherAlState_start_mpi_op (g : GatherState) : M unit :=
  if is_root (g_base g) then
    member_call (MPI_Igather MPI_IN_PLACE (int_of_size_t (g_count g))
                   (g_host_mem g) (int_of_size_t (g_count g))
                   (g_root g) (g_comm g))
  else
    member_call (MPI_Igather (mpi_ptr (g_host_mem g))
                   (int_of_size_t (g_count g))
                   (g_host_mem g) (int_of_size_t (g_count g))
                   (g_root g) (g_comm g)).

(** *** The barrier state *)

(** [BarrierAlState::BarrierAlState] *)
Definition BarrierAlState_ctor (comm_ : comm_type)
    (stream_ : cudaStream_t) : M BarrierState :=
  b <- base_ctor HostTransferCollectiveSignalAtEndState true stream_ ;;
  member_call (event_record (start_event b) stream_) ;;
  member_call (gpu_wait_wait (gpu_wait b) stream_) ;;
  ret {| bar_base := b; bar_comm := get_comm comm_ |}.

(** [BarrierAlState::start_mpi_op] *)
Definition BarrierAlState_start_mpi_op (b : BarrierState) : M unit :=
  member_call (MPI_Ibarrier (bar_comm b)).

(** *** States of the other classes *)

(** Modelled from the spec: which base a class derives from, for the
    classes of allreduce.hpp, allgather.hpp, alltoall.hpp, bcast.hpp,
    reduce.hpp, reduce_scatter.hpp, scatter.hpp and pt2pt.hpp, none of
    which is in the sources (sec. 4.4: signal-non-root-early for reduce
    and send, signal-at-end for the others). *)
Definition base_class_of (cls : StateClass) : BaseClass :=
  match cls with
  | SendAlState | ReduceAlState | GatherAlState =>
    HostTransferCollectiveSignalNonRootEarlyState
  | _ => HostTransferCollectiveSignalAtEndState
  end.

(** Modelled from the spec: the constructors of those classes.
    "Construction of a state performs, on the user's device stream, the
    following deterministic sequence: (i) copy device->host staging; (ii)
    record start event; (iii) wait on sync flag; (iv) if the variant
    signals at end, copy host->device and record end event." *)
Definition staged_ctor (cls : StateClass) (is_root_ : bool)
    (sendbuf recvbuf : ptr) (send_count recv_count : Z)
    (comm_ : comm_type) (stream_ : cudaStream_t) : M StagedState :=
  b <- base_ctor (base_class_of cls) is_root_ stream_ ;;
  host_mem <- mempool_allocate (Z.max send_count recv_count) ;;
  AL_CHECK_CUDA (cudaMemcpyAsync host_mem sendbuf
    (size_t_mul sizeofT send_count) cudaMemcpyDeviceToHost stream_) ;;
  member_call (event_record (start_event b) stream_) ;;
  member_call (gpu_wait_wait (gpu_wait b) stream_) ;;
  (if signals_at_end b then
     AL_CHECK_CUDA (cudaMemcpyAsync recvbuf host_mem
       (size_t_mul sizeofT recv_count) cudaMemcpyHostToDevice stream_) ;;
     member_call (event_record (end_event b) stream_)
   else ret tt) ;;
  ret {| s_class := cls; s_base := b; s_host_mem := host_mem;
         s_send_count := send_count; s_recv_count := recv_count;
         s_comm := get_comm comm_ |}.

(** *** The progress engine *)

(** [new S(...)]: the constructed object goes on the heap. *)
Definition new_state (st : AlState) : M AlState :=
  fun w => (Returned st, set_state_heap (state_heap w ++ [st]) w).

(** Modelled from the spec: [get_progress_engine()->enqueue(state)] of
    progress.hpp, which is not in the sources; the engine's queue is "a
    multi-producer/single-consumer queue of collective-state pointers". *)
Definition enqueue (st : AlState) : M unit :=
  modify (fun w => set_progress_queue (progress_queue w ++ [st]) w).

(** *** HostTransferBackend: private helpers *)

(** [sync_internal_stream_with_comm] *)
Definition sync_internal_stream_with_comm (internal_stream : cudaStream_t)
    (comm : comm_type) : M unit :=
  ev <- gets sync_event ;;
  AL_CHECK_CUDA (cudaEventRecord ev (get_stream comm)) ;;
  AL_CHECK_CUDA (cudaStreamWaitEvent internal_stream ev 0).

(** [setup_completion_event]; the assignment to [req] is the last
    statement. *)
Definition setup_completion_event (internal_stream : cudaStream_t)
    (comm : comm_type) : M unit :=
  event <- get_cuda_event ;;
  AL_CHECK_CUDA (cudaEventRecord event internal_stream) ;;
  modify (set_req (Some {| op_event := event;
                           orig_stream := get_stream comm |})).

(** The [do_*] functions: [new] state of the operation's class, then
    [enqueue].  [do_staged] is their common shape for the classes whose
    constructor is [staged_ctor]. *)
Definition do_staged (cls : StateClass) (is_root_ : bool)
    (sendbuf recvbuf : ptr) (send_count recv_count : Z)
    (comm : comm_type) (stream : cudaStream_t) : M unit :=
  s <- staged_ctor cls is_root_ sendbuf recvbuf send_count recv_count
                   comm stream ;;
  state <- new_state (St_Staged s) ;;
  enqueue state.

Definition do_allreduce (sendbuf recvbuf : ptr) (count : Z)
    (op : ReductionOperator) (comm : comm_type) (stream : cudaStream_t)
    : M unit :=
  do_staged AllreduceAlState true sendbuf recvbuf count count comm stream.

Definition do_send (sendbuf : ptr) (count dest : Z) (comm : comm_type)
    (stream : cudaStream_t) : M unit :=
  do_staged SendAlState false sendbuf sendbuf count count comm stream.

Definition do_recv (recvbuf : ptr) (count src : Z) (comm : comm_type)
    (stream : cudaStream_t) : M unit :=
  do_staged RecvAlState true recvbuf recvbuf count count comm stream.

Definition do_sendrecv (sendbuf : ptr) (send_count dest : Z)
    (recvbuf : ptr) (recv_count src : Z) (comm : comm_type)
    (stream : cudaStream_t) : M unit :=
  do_staged SendRecvAlState true sendbuf recvbuf send_count recv_count
            comm stream.

Definition do_allgather (sendbuf recvbuf : ptr) (count : Z)
    (comm : comm_type) (stream : cudaStream_t) : M unit :=
  do_staged AllgatherAlState true sendbuf recvbuf count count comm stream.

Definition do_alltoall (sendbuf recvbuf : ptr) (count : Z)
    (comm : comm_type) (stream : cudaStream_t) : M unit :=
  do_staged AlltoallAlState true sendbuf recvbuf count count comm stream.

Definition do_bcast (buf : ptr) (count root : Z) (comm : comm_type)
    (stream : cudaStream_t) : M unit :=
  do_staged BcastAlState true buf buf count count comm stream.

Definition do_gather (sendbuf recvbuf : ptr) (count root : Z)
    (comm : comm_type) (stream : cudaStream_t) : M unit :=
  g <- GatherAlState_ctor sendbuf recvbuf count root comm stream ;;
  state <- new_state (St_Gather g) ;;
  enqueue state.

Definition do_reduce (sendbuf recvbuf : ptr) (count : Z)
    (op : ReductionOperator) (root : Z) (comm : comm_type)
    (stream : cudaStream_t) : M unit :=
  do_staged ReduceAlState (rank comm =? root) sendbuf recvbuf count count
            comm stream.

Definition do_reduce_scatter (sendbuf recvbuf : ptr) (count : Z)
    (op : ReductionOperator) (comm : comm_type) (stream : cudaStream_t)
    : M unit :=
  do_staged ReduceScatterAlState true sendbuf recvbuf count count
            comm stream.

Definition do_scatter (sendbuf recvbuf : ptr) (count root : Z)
    (comm : comm_type) (stream : cudaStream_t) : M unit :=
  do_staged ScatterAlState true sendbuf recvbuf count count comm stream.

(** *** HostTransferBackend: public operations *)

Definition Allreduce (sendbuf recvbuf : ptr) (count : Z)
    (op : ReductionOperator) (comm : comm_type)
    (algo : HostTransferAllreduceAlgorithm.t) : M unit :=
  if count =? 0 then ret tt else
  if (algo =? HostTransferAllreduceAlgorithm.automatic)
     || (algo =? HostTransferAllreduceAlgorithm.host_transfer)
  then do_allreduce sendbuf recvbuf count op comm (get_stream comm)
  else throw_al_exception "Invalid algorithm".

Definition Allreduce_inplace (recvbuf : ptr) (count : Z)
    (op : ReductionOperator) (comm : comm_type)
    (algo : HostTransferAllreduceAlgorithm.t) : M unit :=
  Allreduce recvbuf recvbuf count op comm algo.

Definition NonblockingAllreduce (sendbuf recvbuf : ptr) (count : Z)
    (op : ReductionOperator) (comm : comm_type)
    (algo : HostTransferAllreduceAlgorithm.t) : M unit :=
  if count =? 0 then ret tt else
  internal_stream <- get_internal_stream ;;
  sync_internal_stream_with_comm internal_stream comm ;;
  (if (algo =? HostTransferAllreduceAlgorithm.automatic)
      || (algo =? HostTransferAllreduceAlgorithm.host_transfer)
   then do_allreduce sendbuf recvbuf count op comm internal_stream
   else throw_al_exception "Invalid algorithm") ;;
  setup_completion_event internal_stream comm.

Definition NonblockingAllreduce_inplace (recvbuf : ptr) (count : Z)
    (op : ReductionOperator) (comm : comm_type)
    (algo : HostTransferAllreduceAlgorithm.t) : M unit :=
  NonblockingAllreduce recvbuf recvbuf count op comm algo.

Definition Send (sendbuf : ptr) (count dest : Z) (comm : comm_type)
    : M unit :=
  do_send sendbuf count dest comm (get_stream comm).

Definition NonblockingSend (sendbuf : ptr) (count dest : Z)
    (comm : comm_type) : M unit :=
  internal_stream <- get_internal_stream ;;
  sync_internal_stream_with_comm internal_stream comm ;;
  do_send sendbuf count dest comm internal_stream ;;
  setup_completion_event internal_stream comm.

Definition Recv (recvbuf : ptr) (count src : Z) (comm : comm_type)
    : M unit :=
  do_recv recvbuf count src comm (get_stream comm).

Definition NonblockingRecv (recvbuf : ptr) (count src : Z)
    (comm : comm_type) : M unit :=
  internal_stream <- get_internal_stream ;;
  sync_internal_stream_with_comm internal_stream comm ;;
  do_recv recvbuf count src comm internal_stream ;;
  setup_completion_event internal_stream comm.

Definition SendRecv (sendbuf : ptr) (send_count dest : Z) (recvbuf : ptr)
    (recv_count src : Z) (comm : comm_type) : M unit :=
  do_sendrecv sendbuf send_count dest recvbuf recv_count src comm
              (get_stream comm).

Definition NonblockingSendRecv (sendbuf : ptr) (send_count dest : Z)
    (recvbuf : ptr) (recv_count src : Z) (comm : comm_type) : M unit :=
  internal_stream <- get_internal_stream ;;
  sync_internal_stream_with_comm internal_stream comm ;;
  do_sendrecv sendbuf send_count dest recvbuf recv_count src comm
              internal_stream ;;
  setup_completion_event internal_stream comm.

Definition Allgather (sendbuf recvbuf : ptr) (count : Z)
    (comm : comm_type) (algo : HostTransferCollectiveAlgorithm.t)
    : M unit :=
  if count =? 0 then ret tt else
  if algo =? HostTransferCollectiveAlgorithm.automatic
  then do_allgather sendbuf recvbuf count comm (get_stream comm)
  else throw_al_exception "HostTransferAllgather: Invalid algorithm".

Definition Allgather_inplace (buffer : ptr) (count : Z)
    (comm : comm_type) (algo : HostTransferCollectiveAlgorithm.t)
    : M unit :=
  Allgather buffer buffer count comm algo.

Definition NonblockingAllgather (sendbuf recvbuf : ptr) (count : Z)
    (comm : comm_type) (algo : HostTransferCollectiveAlgorithm.t)
    : M unit :=
  if count =? 0 then ret tt else
  internal_stream <- get_internal_stream ;;
  sync_internal_stream_with_comm internal_stream comm ;;
  (if algo =? HostTransferCollectiveAlgorithm.automatic
   then do_allgather sendbuf recvbuf count comm internal_stream
   else throw_al_exception "HostTransferAllgather: Invalid algorithm") ;;
  setup_completion_event internal_stream comm.

Definition NonblockingAllgather_inplace (buffer : ptr) (count : Z)
    (comm : comm_type) (algo : HostTransferCollectiveAlgorithm.t)
    : M unit :=
  NonblockingAllgather buffer buffer count comm algo.

Definition Alltoall (sendbuf recvbuf : ptr) (count : Z)
    (comm : comm_type) (algo : HostTransferCollectiveAlgorithm.t)
    : M unit :=
  if count =? 0 then ret tt else
  if algo =? HostTransferCollectiveAlgorithm.automatic
  then do_alltoall sendbuf recvbuf count comm (get_stream comm)
  else throw_al_exception "HostTransferAlltoall: Invalid algorithm".

Definition Alltoall_inplace (buffer : ptr) (count : Z)
    (comm : comm_type) (algo : HostTransferCollectiveAlgorithm.t)
    : M unit :=
  Alltoall buffer buffer count comm algo.

Definition NonblockingAlltoall (sendbuf recvbuf : ptr) (count : Z)
    (comm : comm_type) (algo : HostTransferCollectiveAlgorithm.t)
    : M unit :=
  if count =? 0 then ret tt else
  internal_stream <- get_internal_stream ;;
  sync_internal_stream_with_comm internal_stream comm ;;
  (if algo =? HostTransferCollectiveAlgorithm.automatic
   then do_alltoall sendbuf recvbuf count comm internal_stream
   else throw_al_exception "Invalid algorithm") ;;
  setup_completion_event internal_stream comm.

Definition NonblockingAlltoall_inplace (buffer : ptr) (count : Z)
    (comm : comm_type) (algo : HostTransferCollectiveAlgorithm.t)
    : M unit :=
  NonblockingAlltoall buffer buffer count comm algo.

Definition Bcast (buf : ptr) (count root : Z)
    (comm : comm_type) (algo : HostTransferCollectiveAlgorithm.t)
    : M unit :=
  if count =? 0 then ret tt else
  if algo =? HostTransferCollectiveAlgorithm.automatic
  then do_bcast buf count root comm (get_stream comm)
  else throw_al_exception "HostTransferBcast: Invalid algorithm".

Definition NonblockingBcast (buf : ptr) (count root : Z)
    (comm : comm_type) (algo : HostTransferCollectiveAlgorithm.t)
    : M unit :=
  if count =? 0 then ret tt else
  internal_stream <- get_internal_stream ;;
  sync_internal_stream_with_comm internal_stream comm ;;
  (if algo =? HostTransferCollectiveAlgorithm.automatic
   then do_bcast buf count root comm internal_stream
   else throw_al_exception "HostTransferBcast: Invalid algorithm") ;;
  setup_completion_event internal_stream comm.

Definition Gather (sendbuf recvbuf : ptr) (count root : Z)
    (comm : comm_type) (algo : HostTransferCollectiveAlgorithm.t)
    : M unit :=
  if count =? 0 then ret tt else
  if algo =? HostTransferCollectiveAlgorithm.automatic
  then do_gather sendbuf recvbuf count root comm (get_stream comm)
  else throw_al_exception "HostTransferGather: Invalid algorithm".

Definition Gather_inplace (buffer : ptr) (count root : Z)
    (comm : comm_type) (algo : HostTransferCollectiveAlgorithm.t)
    : M unit :=
  Gather buffer buffer count root comm algo.

Definition NonblockingGather (sendbuf recvbuf : ptr) (count root : Z)
    (comm : comm_type) (algo : HostTransferCollectiveAlgorithm.t)
    : M unit :=
  if count =? 0 then ret tt else
  internal_stream <- get_internal_stream ;;
  sync_internal_stream_with_comm internal_stream comm ;;
  (if algo =? HostTransferCollectiveAlgorithm.automatic
   then do_gather sendbuf recvbuf count root comm internal_stream
   else throw_al_exception "Invalid algorithm") ;;
  setup_completion_event internal_stream comm.

Definition NonblockingGather_inplace (buffer : ptr) (count root : Z)
    (comm : comm_type) (algo : HostTransferCollectiveAlgorithm.t)
    : M unit :=
  NonblockingGather buffer buffer count root comm algo.

Definition Reduce (sendbuf recvbuf : ptr) (count : Z)
    (op : ReductionOperator) (root : Z)
    (comm : comm_type) (algo : HostTransferCollectiveAlgorithm.t)
    : M unit :=
  if count =? 0 then ret tt else
  if algo =? HostTransferCollectiveAlgorithm.automatic
  then do_reduce sendbuf recvbuf count op root comm (get_stream comm)
  else throw_al_exception "HostTransferReduce: Invalid algorithm".

Definition Reduce_inplace (buffer : ptr) (count : Z)
    (op : ReductionOperator) (root : Z)
    (comm : comm_type) (algo : HostTransferCollectiveAlgorithm.t)
    : M unit :=
  Reduce buffer buffer count op root comm algo.

Definition NonblockingReduce (sendbuf recvbuf : ptr) (count : Z)
    (op : ReductionOperator) (root : Z)
    (comm : comm_type) (algo : HostTransferCollectiveAlgorithm.t)
    : M unit :=
  if count =? 0 then ret tt else
  internal_stream <- get_internal_stream ;;
  sync_internal_stream_with_comm internal_stream comm ;;
  (if algo =? HostTransferCollectiveAlgorithm.automatic
   then do_reduce sendbuf recvbuf count op root comm internal_stream
   else throw_al_exception "Invalid algorithm") ;;
  setup_completion_event internal_stream comm.

Definition NonblockingReduce_inplace (buffer : ptr) (count : Z)
    (op : ReductionOperator) (root : Z)
    (comm : comm_type) (algo : HostTransferCollectiveAlgorithm.t)
    : M unit :=
  NonblockingReduce buffer buffer count op root comm algo.

Definition Reduce_scatter (sendbuf recvbuf : ptr) (count : Z)
    (op : ReductionOperator)
    (comm : comm_type) (algo : HostTransferCollectiveAlgorithm.t)
    : M unit :=
  if count =? 0 then ret tt else
  if algo =? HostTransferCollectiveAlgorithm.automatic
  then do_reduce_scatter sendbuf recvbuf count op comm (get_stream comm)
  else throw_al_exception "HostTransferReduce_scatter: Invalid algorithm".

Definition Reduce_scatter_inplace (buffer : ptr) (count : Z)
    (op : ReductionOperator)
    (comm : comm_type) (algo : HostTransferCollectiveAlgorithm.t)
    : M unit :=
  Reduce_scatter buffer buffer count op comm algo.

Definition NonblockingReduce_scatter (sendbuf recvbuf : ptr) (count : Z)
    (op : ReductionOperator)
    (comm : comm_type) (algo : HostTransferCollectiveAlgorithm.t)
    : M unit :=
  if count =? 0 then ret tt else
  internal_stream <- get_internal_stream ;;
  sync_internal_stream_with_comm internal_stream comm ;;
  (if algo =? HostTransferCollectiveAlgorithm.automatic
   then do_reduce_scatter sendbuf recvbuf count op comm internal_stream
   else throw_al_exception "HostTransferReduce_scatter: Invalid algorithm") ;;
  setup_completion_event internal_stream comm.

Definition NonblockingReduce_scatter_inplace (buffer : ptr) (count : Z)
    (op : ReductionOperator)
    (comm : comm_type) (algo : HostTransferCollectiveAlgorithm.t)
    : M unit :=
  NonblockingReduce_scatter buffer buffer count op comm algo.

Definition Scatter (sendbuf recvbuf : ptr) (count root : Z)
    (comm : comm_type) (algo : HostTransferCollectiveAlgorithm.t)
    : M unit :=
  if count =? 0 then ret tt else
  if algo =? HostTransferCollectiveAlgorithm.automatic
  then do_scatter sendbuf recvbuf count root comm (get_stream comm)
  else throw_al_exception "HostTransferScatter: Invalid algorithm".

Definition Scatter_inplace (buffer : ptr) (count root : Z)
    (comm : comm_type) (algo : HostTransferCollectiveAlgorithm.t)
    : M unit :=
  Scatter buffer buffer count root comm algo.

Definition NonblockingScatter (sendbuf recvbuf : ptr) (count root : Z)
    (comm : comm_type) (algo : HostTransferCollectiveAlgorithm.t)
    : M unit :=
  if count =? 0 then ret tt else
  internal_stream <- get_internal_stream ;;
  sync_internal_stream_with_comm internal_stream comm ;;
  (if algo =? HostTransferCollectiveAlgorithm.automatic
   then do_scatter sendbuf recvbuf count root comm internal_stream
   else throw_al_exception "Invalid algorithm") ;;
  setup_completion_event internal_stream comm.

Definition NonblockingScatter_inplace (buffer : ptr) (count root : Z)
    (comm : comm_type) (algo : HostTransferCollectiveAlgorithm.t)
    : M unit :=
  NonblockingScatter buffer buffer count root comm algo.

(** *** Test and Wait *)

(** [Test<HostTransferBackend>]; the query is not checked: any status
    other than [cudaSuccess] counts as not complete. *)
Definition Test : M bool :=
  rq <- gets req ;;
  match rq with
  | None => ret true
  | Some rq =>
    status <- cuda_call (cudaEventQuery (op_event rq)) ;;
    let r := status =? cudaSuccess in
    (if r then modify (set_req null_req) else ret tt) ;;
    ret r
  end.

(** [Wait<HostTransferBackend>] *)
Definition Wait : M unit :=
  rq <- gets req ;;
  match rq with
  | None => ret tt
  | Some rq =>
    AL_CHECK_CUDA (cudaStreamWaitEvent (orig_stream rq) (op_event rq) 0)
  end.

End Backend.

(** ** The operations of the backend, by name *)

Inductive Operation :=
| Op_Allreduce | Op_Allgather | Op_Alltoall | Op_Bcast | Op_Gather
| Op_Reduce | Op_Reduce_scatter | Op_Scatter
| Op_Send | Op_Recv | Op_SendRecv.

(** The arguments of a call; [a_root] is also the destination of a send,
    [a_count] also the count of the send side of a send-receive. *)
Record CallArgs := {
  a_sendbuf : ptr;
  a_recvbuf : ptr;
  a_count : Z;
  a_recv_count : Z;
  a_op : ReductionOperator;
  a_root : Z;
  a_src : Z;
  a_algo : Z
}.

(** The collectives proper: they take an algorithm and test the count. *)
Definition is_collective (o : Operation) : bool :=
  match o with
  | Op_Send | Op_Recv | Op_SendRecv => false
  | _ => true
  end.

(** The algorithm values the [switch] of an operation has a case for. *)
Definition algo_recognized (o : Operation) (algo : Z) : bool :=
  match o with
  | Op_Allreduce =>
    (algo =? HostTransferAllreduceAlgorithm.automatic)
    || (algo =? HostTransferAllreduceAlgorithm.host_transfer)
  | Op_Send | Op_Recv | Op_SendRecv => true
  | _ => algo =? HostTransferCollectiveAlgorithm.automatic
  end.

(** The class of the state an operation creates. *)
Definition state_class (o : Operation) : StateClass :=
  match o with
  | Op_Allreduce => AllreduceAlState
  | Op_Allgather => AllgatherAlState
  | Op_Alltoall => AlltoallAlState
  | Op_Bcast => BcastAlState
  | Op_Gather => GatherAlState
  | Op_Reduce => ReduceAlState
  | Op_Reduce_scatter => ReduceScatterAlState
  | Op_Scatter => ScatterAlState
  | Op_Send => SendAlState
  | Op_Recv => RecvAlState
  | Op_SendRecv => SendRecvAlState
  end.

Section Forms.

Variable sizeofT : Z.
Variable cuda_status : list Call -> Call -> cudaError_t.

(** The blocking form of an operation. *)
Definition blocking_form (o : Operation) (a : CallArgs) (comm : comm_type)
    : M unit :=
  match o with
  | Op_Allreduce =>
    Allreduce sizeofT cuda_status (a_sendbuf a) (a_recvbuf a) (a_count a)
              (a_op a) comm (a_algo a)
  | Op_Allgather =>
    Allgather sizeofT cuda_status (a_sendbuf a) (a_recvbuf a) (a_count a)
              comm (a_algo a)
  | Op_Alltoall =>
    Alltoall sizeofT cuda_status (a_sendbuf a) (a_recvbuf a) (a_count a)
             comm (a_algo a)
  | Op_Bcast =>
    Bcast sizeofT cuda_status (a_sendbuf a) (a_count a) (a_root a)
          comm (a_algo a)
  | Op_Gather =>
    Gather sizeofT cuda_status (a_sendbuf a) (a_recvbuf a) (a_count a)
           (a_root a) comm (a_algo a)
  | Op_Reduce =>
    Reduce sizeofT cuda_status (a_sendbuf a) (a_recvbuf a) (a_count a)
           (a_op a) (a_root a) comm (a_algo a)
  | Op_Reduce_scatter =>
    Reduce_scatter sizeofT cuda_status (a_sendbuf a) (a_recvbuf a)
                   (a_count a) (a_op a) comm (a_algo a)
  | Op_Scatter =>
    Scatter sizeofT cuda_status (a_sendbuf a) (a_recvbuf a) (a_count a)
            (a_root a) comm (a_algo a)
  | Op_Send =>
    Send sizeofT cuda_status (a_sendbuf a) (a_count a) (a_root a) comm
  | Op_Recv =>
    Recv sizeofT cuda_status (a_recvbuf a) (a_count a) (a_src a) comm
  | Op_SendRecv =>
    SendRecv sizeofT cuda_status (a_sendbuf a) (a_count a) (a_root a)
             (a_recvbuf a) (a_recv_count a) (a_src a) comm
  end.

(** The non-blocking form of an operation; its request parameter is the
    [req] of the world. *)
Definition nonblocking_form (o : Operation) (a : CallArgs)
    (comm : comm_type) : M unit :=
  match o with
  | Op_Allreduce =>
    NonblockingAllreduce sizeofT cuda_status (a_sendbuf a) (a_recvbuf a)
                         (a_count a) (a_op a) comm (a_algo a)
  | Op_Allgather =>
    NonblockingAllgather sizeofT cuda_status (a_sendbuf a) (a_recvbuf a)
                         (a_count a) comm (a_algo a)
  | Op_Alltoall =>
    NonblockingAlltoall sizeofT cuda_status (a_sendbuf a) (a_recvbuf a)
                        (a_count a) comm (a_algo a)
  | Op_Bcast =>
    NonblockingBcast sizeofT cuda_status (a_sendbuf a) (a_count a)
                     (a_root a) comm (a_algo a)
  | Op_Gather =>
    NonblockingGather sizeofT cuda_status (a_sendbuf a) (a_recvbuf a)
                      (a_count a) (a_root a) comm (a_algo a)
  | Op_Reduce =>
    NonblockingReduce sizeofT cuda_status (a_sendbuf a) (a_recvbuf a)
                      (a_count a) (a_op a) (a_root a) comm (a_algo a)
  | Op_Reduce_scatter =>
    NonblockingReduce_scatter sizeofT cuda_status (a_sendbuf a)
                              (a_recvbuf a) (a_count a) (a_op a) comm
                              (a_algo a)
  | Op_Scatter =>
    NonblockingScatter sizeofT cuda_status (a_sendbuf a) (a_recvbuf a)
                       (a_count a) (a_root a) comm (a_algo a)
  | Op_Send =>
    NonblockingSend sizeofT cuda_status (a_sendbuf a) (a_count a)
                    (a_root a) comm
  | Op_Recv =>
    NonblockingRecv sizeofT cuda_status (a_recvbuf a) (a_count a)
                    (a_src a) comm
  | Op_SendRecv =>
    NonblockingSendRecv sizeofT cuda_status (a_sendbuf a) (a_count a)
                        (a_root a) (a_recvbuf a) (a_recv_count a)
                        (a_src a) comm
  end.

(** The state an operation constructs on [stream], as its [do_*]
    function does. *)
Definition construct (o : Operation) (a : CallArgs) (comm : comm_type)
    (stream : cudaStream_t) : M AlState :=
  match o with
  | Op_Gather =>
    g <- GatherAlState_ctor sizeofT cuda_status (a_sendbuf a)
           (a_recvbuf a) (a_count a) (a_root a) comm stream ;;
    ret (St_Gather g)
  | Op_Reduce =>
    s <- staged_ctor sizeofT cuda_status ReduceAlState
           (rank comm =? a_root a) (a_sendbuf a) (a_recvbuf a)
           (a_count a) (a_count a) comm stream ;;
    ret (St_Staged s)
  | Op_Bcast =>
    s <- staged_ctor sizeofT cuda_status BcastAlState true (a_sendbuf a)
           (a_sendbuf a) (a_count a) (a_count a) comm stream ;;
    ret (St_Staged s)
  | Op_Send =>
    s <- staged_ctor sizeofT cuda_status SendAlState false (a_sendbuf a)
           (a_sendbuf a) (a_count a) (a_count a) comm stream ;;
    ret (St_Staged s)
  | Op_Recv =>
    s <- staged_ctor sizeofT cuda_status RecvAlState true (a_recvbuf a)
           (a_recvbuf a) (a_count a) (a_count a) comm stream ;;
    ret (St_Staged s)
  | Op_SendRecv =>
    s <- staged_ctor sizeofT cuda_status SendRecvAlState true
           (a_sendbuf a) (a_recvbuf a) (a_count a) (a_recv_count a)
           comm stream ;;
    ret (St_Staged s)
  | _ =>
    s <- staged_ctor sizeofT cuda_status (state_class o) true
           (a_sendbuf a) (a_recvbuf a) (a_count a) (a_count a)
           comm stream ;;
    ret (St_Staged s)
  end.

(** What every [do_*] function does with the state of its operation:
    construct it on [stream], keep it on the heap, enqueue it. *)
Definition do_form (o : Operation) (a : CallArgs) (comm : comm_type)
    (stream : cudaStream_t) : M unit :=
  st <- construct o a comm stream ;;
  state <- new_state st ;;
  enqueue state.

(** What every non-blocking operation does once past its count test,
    with an algorithm value its [switch] has a case for. *)
Definition nonblocking_issue (o : Operation) (a : CallArgs)
    (comm : comm_type) : M unit :=
  internal_stream <- get_internal_stream ;;
  sync_internal_stream_with_comm cuda_status internal_stream comm ;;
  do_form o a comm internal_stream ;;
  setup_completion_event cuda_status internal_stream comm.

(** ** Host memory written by a call *)

(** The byte ranges (start, length) of host memory a call writes when
    rank [me] of [n] issues it.  A device-to-host copy writes its
    destination.  A gather stores, at the root only, the block of rank
    [i] at [recvbuf + i * recvcount] elements, for every rank [i], except
    that with [MPI_IN_PLACE] as send buffer the root's own block is left
    as it is. *)
Definition host_writes (me n : Z) (c : Call) : list (ptr * Z) :=
  match c with
  | cudaMemcpyAsync dst _ bytes cudaMemcpyDeviceToHost _ => [(dst, bytes)]
  | MPI_Igather sendbuf _ recvbuf recvcount root _ =>
    if me =? root then
      map (fun i => (recvbuf + sizeofT * (i * recvcount),
                     sizeofT * recvcount))
          (filter (fun i => match sendbuf with
                            | MPI_IN_PLACE => negb (i =? root)
                            | mpi_ptr _ => true
                            end)
                  (map Z.of_nat (seq 0 (Z.to_nat n))))
    else []
  | _ => []
  end.

Definition in_range (a : Z) (r : ptr * Z) : bool :=
  (fst r <=? a) && (a <? fst r + snd r).

Definition writes_byte (me n : Z) (a : Z) (c : Call) : bool :=
  existsb (in_range a) (host_writes me n c).

(** How many of the calls write the byte at address [a]. *)
Definition write_count (me n : Z) (a : Z) (calls : list Call) : nat :=
  List.length (filter (writes_byte me n a) calls).

End Forms.

(** A call a state constructor may issue on [s]: work for the stream [s]
    that is neither a [cudaEventRecord] nor a [cudaStreamWaitEvent]. *)
Definition ctor_call_on (s : cudaStream_t) (c : Call) : bool :=
  match stream_of c with
  | Some s' =>
    stream_eqb s s' && negb (is_cudaEventRecord c)
    && negb (is_cudaStreamWaitEvent c)
  | None => false
  end.

(** What a state constructor leaves alone. *)
Definition ctor_frame (w w' : World) : Prop :=
  internal_streams w' = internal_streams w
  /\ cur_stream w' = cur_stream w
  /\ event_pool w' = event_pool w
  /\ sync_event w' = sync_event w
  /\ state_heap w' = state_heap w
  /\ progress_queue w' = progress_queue w
  /\ req w' = req w.

(** The effect of a state constructor working on stream [s]: it leaves
    [ctor_frame] alone and issues only calls for [s]. *)
Definition effect_on (s : cudaStream_t) (w w' : World) : Prop :=
  ctor_frame w w'
  /\ exists calls, trace w' = trace w ++ calls
                   /\ forallb (ctor_call_on s) calls = true.

(** The effect of issuing operation [o] on stream [s] with outcome [r]:
    only calls for [s]; when it returns, one new state of the operation's
    class, built on [s], on the heap and in the progress queue; when it
    throws, neither. *)
Definition issue_effect (o : Operation) (s : cudaStream_t) (w : World)
    (r : outcome unit) (w' : World) : Prop :=
  internal_streams w' = internal_streams w
  /\ cur_stream w' = cur_stream w
  /\ event_pool w' = event_pool w
  /\ sync_event w' = sync_event w
  /\ req w' = req w
  /\ (exists calls, trace w' = trace w ++ calls
                    /\ forallb (ctor_call_on s) calls = true)
  /\ match r with
     | Returned _ =>
       exists st, state_heap w' = state_heap w ++ [st]
                  /\ progress_queue w' = progress_queue w ++ [st]
                  /\ class_of st = state_class o
                  /\ base_stream (base_of st) = s
     | Thrown _ =>
       state_heap w' = state_heap w
       /\ progress_queue w' = progress_queue w
     end.

(** The states put on the heap, and those enqueued, between two worlds. *)
Definition new_states (w w' : World) : list AlState :=
  skipn (List.length (state_heap w)) (state_heap w').

Definition enqueued (w w' : World) : list AlState :=
  skipn (List.length (progress_queue w)) (progress_queue w').

(** The event [get_cuda_event] hands out in a world. *)
Definition next_cuda_event (w : World) : cudaEvent_t :=
  match event_pool w with
  | e :: _ => e
  | [] => Event (next_handle w)
  end.

(** A runtime that accepts every call. *)
Definition accepts_all (cuda_status : list Call -> Call -> cudaError_t)
    : Prop :=
  forall h c, cuda_status h c = cudaSuccess.

(** ** The calls of an issued operation *)

(** The calls of the construction sequence on [stream], the runtime
    accepting them, for a state whose handles and pinned buffer are the
    next ones of [w]: the copy to the host, the record of the start event,
    the wait on the sync flag and, in a state that signals at end, the
    copy back and the record of the end event. *)
Definition staged_calls (sizeofT : Z) (cls : StateClass) (is_root_ : bool)
    (sendbuf recvbuf : ptr) (send_count recv_count : Z)
    (stream : cudaStream_t) (w : World) : list Call :=
  let h := next_handle w in
  let host_mem := pinned_brk w in
  [cudaMemcpyAsync host_mem sendbuf (size_t_mul sizeofT send_count)
                   cudaMemcpyDeviceToHost stream;
   event_record (Event h) stream;
   gpu_wait_wait (Flag (h + 2)) stream]
  ++ (if match base_class_of cls with
         | HostTransferCollectiveSignalAtEndState => true
         | HostTransferCollectiveSignalNonRootEarlyState => is_root_
         end
      then [cudaMemcpyAsync recvbuf host_mem
                            (size_t_mul sizeofT recv_count)
                            cudaMemcpyHostToDevice stream;
            event_record (Event (h + 1)) stream]
      else []).

(** The calls of the constructor of the gather state on [stream], the
    runtime accepting them: five at the root, three elsewhere. *)
Definition gather_calls (sizeofT : Z) (sendbuf recvbuf : ptr)
    (count root : Z) (comm : comm_type) (stream : cudaStream_t)
    (w : World) : list Call :=
  let h := next_handle w in
  let host_mem := pinned_brk w in
  if rank comm =? root then
    [cudaMemcpyAsync
       (ptr_add sizeofT host_mem (size_t_mul (rank comm) count))
       (if sendbuf =? recvbuf
        then ptr_add sizeofT sendbuf (size_t_mul (rank comm) count)
        else sendbuf)
       (size_t_mul sizeofT count) cudaMemcpyDeviceToHost stream;
     event_record (Event h) stream;
     gpu_wait_wait (Flag (h + 2)) stream;
     cudaMemcpyAsync recvbuf host_mem
       (size_t_mul (size_t_mul sizeofT count) (size comm))
       cudaMemcpyHostToDevice stream;
     event_record (Event (h + 1)) stream]
  else
    [cudaMemcpyAsync host_mem sendbuf (size_t_mul sizeofT count)
                     cudaMemcpyDeviceToHost stream;
     event_record (Event h) stream;
     gpu_wait_wait (Flag (h + 2)) stream].

(** The calls the state of operation [o] is constructed with on
    [stream]. *)
Definition state_calls (sizeofT : Z) (o : Operation) (a : CallArgs)
    (comm : comm_type) (stream : cudaStream_t) (w : World) : list Call :=
  match o with
  | Op_Gather =>
    gather_calls sizeofT (a_sendbuf a) (a_recvbuf a) (a_count a)
                 (a_root a) comm stream w
  | Op_Reduce =>
    staged_calls sizeofT ReduceAlState (rank comm =? a_root a)
                 (a_sendbuf a) (a_recvbuf a) (a_count a) (a_count a)
                 stream w
  | Op_Bcast =>
    staged_calls sizeofT BcastAlState true (a_sendbuf a) (a_sendbuf a)
                 (a_count a) (a_count a) stream w
  | Op_Send =>
    staged_calls sizeofT SendAlState false (a_sendbuf a) (a_sendbuf a)
                 (a_count a) (a_count a) stream w
  | Op_Recv =>
    staged_calls sizeofT RecvAlState true (a_recvbuf a) (a_recvbuf a)
                 (a_count a) (a_count a) stream w
  | Op_SendRecv =>
    staged_calls sizeofT SendRecvAlState true (a_sendbuf a) (a_recvbuf a)
                 (a_count a) (a_recv_count a) stream w
  | _ =>
    staged_calls sizeofT (state_class o) true (a_sendbuf a) (a_recvbuf a)
                 (a_count a) (a_count a) stream w
  end.

(** The arguments of a single-buffer call: the buffer is both the send
    and the receive buffer. *)
Definition in_place (a : CallArgs) : CallArgs :=
  {| a_sendbuf := a_recvbuf a; a_recvbuf := a_recvbuf a;
     a_count := a_count a; a_recv_count := a_recv_count a;
     a_op := a_op a; a_root := a_root a; a_src := a_src a;
     a_algo := a_algo a |}.

(** The single-buffer overload of the blocking form of an operation, for
    the seven operations that have one; the buffer is [a_recvbuf]. *)
Definition blocking_inplace_form (sizeofT : Z)
    (cuda_status : list Call -> Call -> cudaError_t) (o : Operation)
    (a : CallArgs) (comm : comm_type) : option (M unit) :=
  match o with
  | Op_Allreduce =>
    Some (Allreduce_inplace sizeofT cuda_status (a_recvbuf a) (a_count a)
                            (a_op a) comm (a_algo a))
  | Op_Allgather =>
    Some (Allgather_inplace sizeofT cuda_status (a_recvbuf a) (a_count a)
                            comm (a_algo a))
  | Op_Alltoall =>
    Some (Alltoall_inplace sizeofT cuda_status (a_recvbuf a) (a_count a)
                           comm (a_algo a))
  | Op_Gather =>
    Some (Gather_inplace sizeofT cuda_status (a_recvbuf a) (a_count a)
                         (a_root a) comm (a_algo a))
  | Op_Reduce =>
    Some (Reduce_inplace sizeofT cuda_status (a_recvbuf a) (a_count a)
                         (a_op a) (a_root a) comm (a_algo a))
  | Op_Reduce_scatter =>
    Some (Reduce_scatter_inplace sizeofT cuda_status (a_recvbuf a)
                                 (a_count a) (a_op a) comm (a_algo a))
  | Op_Scatter =>
    Some (Scatter_inplace sizeofT cuda_status (a_recvbuf a) (a_count a)
                          (a_root a) comm (a_algo a))
  | Op_Bcast | Op_Send | Op_Recv | Op_SendRecv => None
  end.

(** The same for the non-blocking form. *)
Definition nonblocking_inplace_form (sizeofT : Z)
    (cuda_status : list Call -> Call -> cudaError_t) (o : Operation)
    (a : CallArgs) (comm : comm_type) : option (M unit) :=
  match o with
  | Op_Allreduce =>
    Some (NonblockingAllreduce_inplace sizeofT cuda_status (a_recvbuf a)
                                       (a_count a) (a_op a) comm (a_algo a))
  | Op_Allgather =>
    Some (NonblockingAllgather_inplace sizeofT cuda_status (a_recvbuf a)
                                       (a_count a) comm (a_algo a))
  | Op_Alltoall =>
    Some (NonblockingAlltoall_inplace sizeofT cuda_status (a_recvbuf a)
                                      (a_count a) comm (a_algo a))
  | Op_Gather =>
    Some (NonblockingGather_inplace sizeofT cuda_status (a_recvbuf a)
                                    (a_count a) (a_root a) comm (a_algo a))
  | Op_Reduce =>
    Some (NonblockingReduce_inplace sizeofT cuda_status (a_recvbuf a)
                                    (a_count a) (a_op a) (a_root a) comm
                                    (a_algo a))
  | Op_Reduce_scatter =>
    Some (NonblockingReduce_scatter_inplace sizeofT cuda_status
                                            (a_recvbuf a) (a_count a)
                                            (a_op a) comm (a_algo a))
  | Op_Scatter =>
    Some (NonblockingScatter_inplace sizeofT cuda_status (a_recvbuf a)
                                     (a_count a) (a_root a) comm
                                     (a_algo a))
  | Op_Bcast | Op_Send | Op_Recv | Op_SendRecv => None
  end.

(** The blocking entry point [m] of [o] issued its operation: it
    returned, having made exactly the calls of the construction of the
    state, on the communicator's stream; the new state, of the
    operation's class and built on that stream, is on the heap and in
    the progress queue; the request variable, the counter and the pool of
    the internal streams are as before. *)
Definition issued_blocking (sizeofT : Z) (m : M unit) (o : Operation)
    (a : CallArgs) (comm : comm_type) (w : World) : Prop :=
  exists (st : AlState) (w' : World),
    m w = (Returned tt, w')
    /\ trace w'
       = trace w ++ state_calls sizeofT o a comm (get_stream comm) w
    /\ state_heap w' = state_heap w ++ [st]
    /\ progress_queue w' = progress_queue w ++ [st]
    /\ class_of st = state_class o
    /\ base_stream (base_of st) = get_stream comm
    /\ req w' = req w
    /\ cur_stream w' = cur_stream w
    /\ internal_streams w' = internal_streams w.

(** The non-blocking entry point [m] of [o] issued its operation: it
    returned, having drawn the next internal stream, recorded the sync
    event on the communicator's stream, made the internal stream wait for
    it, made exactly the calls of the construction of the state, on the
    internal stream, and last recorded an event on the internal stream;
    the new state is on the heap and in the progress queue; the request
    variable now holds that last event and the communicator's stream. *)
Definition issued_nonblocking (sizeofT : Z) (m : M unit) (o : Operation)
    (a : CallArgs) (comm : comm_type) (w : World) : Prop :=
  exists (st : AlState) (ev : cudaEvent_t) (w' : World),
    m w = (Returned tt, w')
    /\ trace w'
       = trace w
         ++ [cudaEventRecord (sync_event w) (get_stream comm);
             cudaStreamWaitEvent
               (stream_at w (cur_stream w mod num_internal_streams))
               (sync_event w) 0]
         ++ state_calls sizeofT o a comm
              (stream_at w (cur_stream w mod num_internal_streams)) w
         ++ [cudaEventRecord ev
               (stream_at w (cur_stream w mod num_internal_streams))]
    /\ state_heap w' = state_heap w ++ [st]
    /\ progress_queue w' = progress_queue w ++ [st]
    /\ class_of st = state_class o
    /\ base_stream (base_of st)
       = stream_at w (cur_stream w mod num_internal_streams)
    /\ req w' = Some {| op_event := ev; orig_stream := get_stream comm |}
    /\ cur_stream w' = size_t_succ (cur_stream w)
    /\ internal_streams w' = internal_streams w.

(** A run of [Test] and [Wait] calls on one request variable. *)
Inductive ReqCall := call_Test | call_Wait.

Fixpoint run_req_calls (cuda_status : list Call -> Call -> cudaError_t)
    (l : list ReqCall) (w : World) : list bool * World :=
  match l with
  | [] => ([], w)
  | call_Test :: l' =>
    match Test cuda_status w with
    | (Returned b, w') =>
      let '(bs, w'') := run_req_calls cuda_status l' w' in (b :: bs, w'')
    | (Thrown _, w') => ([], w')
    end
  | call_Wait :: l' =>
    match Wait cuda_status w with
    | (Returned _, w') => run_req_calls cuda_status l' w'
    | (Thrown _, w') => ([], w')
    end
  end.

Definition is_call_Test (c : ReqCall) : bool :=
  match c with call_Test => true | call_Wait => false end.

(** ** Example worlds *)

Definition world0 : World :=
  {| internal_streams := [Stream 10; Stream 11; Stream 12; Stream 13;
                          Stream 14];
     cur_stream := 0; event_pool := []; sync_event := Event 1;
     next_handle := 100; pinned_brk := 4096; state_heap := [];
     progress_queue := []; req := None; trace := [] |}.

Definition comm0 : comm_type :=
  {| rank := 0; size := 4; get_comm := Comm 7; get_stream := Stream 1 |}.

(** The example world with a pending request in the request variable. *)
Definition world_req : World :=
  set_req (Some {| op_event := Event 5; orig_stream := Stream 1 |}) world0.

(** Rank 2 of 4. *)
Definition comm2 : comm_type :=
  {| rank := 2; size := 4; get_comm := Comm 7; get_stream := Stream 1 |}.

Definition args0 : CallArgs :=
  {| a_sendbuf := 1000; a_recvbuf := 2000; a_count := 3; a_recv_count := 3;
     a_op := 0; a_root := 0; a_src := 1; a_algo := 0 |}.

Definition always_success : list Call -> Call -> cudaError_t :=
  fun _ _ => cudaSuccess.

(** A runtime whose event queries report "not ready". *)
Definition never_ready : list Call -> Call -> cudaError_t :=
  fun _ c => match c with cudaEventQuery _ => 600 | _ => cudaSuccess end.

(** ** The failures of the dispatcher *)

(** The message of the exception the [switch] of the blocking form of an
    operation throws; the point-to-point operations have no [switch]. *)
Definition blocking_message (o : Operation) : option string :=
  match o with
  | Op_Allreduce => Some "Invalid algorithm"%string
  | Op_Allgather => Some "HostTransferAllgather: Invalid algorithm"%string
  | Op_Alltoall => Some "HostTransferAlltoall: Invalid algorithm"%string
  | Op_Bcast => Some "HostTransferBcast: Invalid algorithm"%string
  | Op_Gather => Some "HostTransferGather: Invalid algorithm"%string
  | Op_Reduce => Some "HostTransferReduce: Invalid algorithm"%string
  | Op_Reduce_scatter =>
    Some "HostTransferReduce_scatter: Invalid algorithm"%string
  | Op_Scatter => Some "HostTransferScatter: Invalid algorithm"%string
  | Op_Send | Op_Recv | Op_SendRecv => None
  end.

(** The same for the non-blocking form. *)
Definition nonblocking_message (o : Operation) : option string :=
  match o with
  | Op_Allreduce => Some "Invalid algorithm"%string
  | Op_Allgather => Some "HostTransferAllgather: Invalid algorithm"%string
  | Op_Alltoall => Some "Invalid algorithm"%string
  | Op_Bcast => Some "HostTransferBcast: Invalid algorithm"%string
  | Op_Gather => Some "Invalid algorithm"%string
  | Op_Reduce => Some "Invalid algorithm"%string
  | Op_Reduce_scatter =>
    Some "HostTransferReduce_scatter: Invalid algorithm"%string
  | Op_Scatter => Some "Invalid algorithm"%string
  | Op_Send | Op_Recv | Op_SendRecv => None
  end.

Definition message_text (m : option string) : string :=
  match m with Some s => s | None => EmptyString end.

Section Paths.
Variable sizeofT : Z.
Variable cuda_status : list Call -> Call -> cudaError_t.

(** A non-blocking operation past its count test, whatever the algorithm
    value. *)
Definition nonblocking_path (o : Operation) (a : CallArgs)
    (comm : comm_type) : M unit :=
  internal_stream <- get_internal_stream ;;
  sync_internal_stream_with_comm cuda_status internal_stream comm ;;
  (if algo_recognized o (a_algo a)
   then do_form sizeofT cuda_status o a comm internal_stream
   else throw_al_exception (message_text (nonblocking_message o))) ;;
  setup_completion_event cuda_status internal_stream comm.
End Paths.

(** What a non-blocking operation past its count test leaves behind, with
    outcome [r]: the counter of the internal streams one further, the pool
    as it was, the record of the sync event on the communicator's stream
    issued first; returning, one new state on the heap and in the queue and
    the request assigned; throwing, the request as it was and either no new
    state, or one new state and the failure that of the record of the
    completion event. *)
Definition nonblocking_effect (o : Operation) (comm : comm_type)
    (w : World) (r : outcome unit) (w' : World) : Prop :=
  let s := stream_at w (cur_stream w mod num_internal_streams) in
  cur_stream w' = size_t_succ (cur_stream w)
  /\ internal_streams w' = internal_streams w
  /\ (exists calls,
        trace w' = trace w
                   ++ cudaEventRecord (sync_event w) (get_stream comm)
                      :: calls)
  /\ match r with
     | Returned _ =>
       exists st ev,
         state_heap w' = state_heap w ++ [st]
         /\ progress_queue w' = progress_queue w ++ [st]
         /\ class_of st = state_class o
         /\ base_stream (base_of st) = s
         /\ req w' = Some {| op_event := ev; orig_stream := get_stream comm |}
     | Thrown e =>
       req w' = req w
       /\ ((state_heap w' = state_heap w
            /\ progress_queue w' = progress_queue w)
           \/ exists st ev status,
                state_heap w' = state_heap w ++ [st]
                /\ progress_queue w' = progress_queue w ++ [st]
                /\ class_of st = state_class o
                /\ base_stream (base_of st) = s
                /\ e = cuda_failure (cudaEventRecord ev s) status)
     end.

(** [algorithm_name] at the algorithm type of an operation: the allreduce
    takes a [HostTransferAllreduceAlgorithm], the other collectives a
    [HostTransferCollectiveAlgorithm]. *)
Definition algorithm_name (o : Operation) (algo : Z) : string :=
  match o with
  | Op_Allreduce => algorithm_name_allreduce algo
  | _ => algorithm_name_collective algo
  end.

(** A runtime that accepts every asynchronous copy. *)
Definition accepts_copies (cuda_status : list Call -> Call -> cudaError_t)
    : Prop :=
  forall h c, is_memcpy c = true -> cuda_status h c = cudaSuccess.

(** A runtime that refuses every [cudaEventRecord] on stream 10 and
    accepts every other call. *)
Definition refuses_records_on_10 : list Call -> Call -> cudaError_t :=
  fun _ c =>
    match c with
    | cudaEventRecord _ (Stream 10) => 1
    | _ => cudaSuccess
    end.

(** The example arguments with an algorithm value that names no
    enumerator. *)
Definition args_unknown : CallArgs :=
  {| a_sendbuf := 1000; a_recvbuf := 2000; a_count := 3; a_recv_count := 3;
     a_op := 0; a_root := 0; a_src := 1; a_algo := 7 |}.

(** The example arguments with the host-transfer algorithm of the
    allreduce. *)
Definition args_host_transfer : CallArgs :=
  {| a_sendbuf := 1000; a_recvbuf := 2000; a_count := 3; a_recv_count := 3;
     a_op := 0; a_root := 0; a_src := 1;
     a_algo := HostTransferAllreduceAlgorithm.host_transfer |}.

(** ** Memory a call touches *)

Section Footprint.

Variable sizeofT : Z.

(** The byte ranges (start, length) of host memory a call reads or writes
    when rank [me] of [n] issues it: the destination of a device-to-host
    copy, the source of a host-to-device copy, and for a gather the send
    buffer (unless it is [MPI_IN_PLACE]) and, at the root, the whole
    receive buffer of [n] blocks. *)
Definition host_accesses (me n : Z) (c : Call) : list (ptr * Z) :=
  match c with
  | cudaMemcpyAsync dst _ bytes cudaMemcpyDeviceToHost _ => [(dst, bytes)]
  | cudaMemcpyAsync _ src bytes cudaMemcpyHostToDevice _ => [(src, bytes)]
  | MPI_Igather sendbuf sendcount recvbuf recvcount root _ =>
    match sendbuf with
    | mpi_ptr q => [(q, sizeofT * sendcount)]
    | MPI_IN_PLACE => []
    end
    ++ (if me =? root then [(recvbuf, sizeofT * (n * recvcount))] else [])
  | _ => []
  end.

End Footprint.

(** The byte ranges of device memory a call writes. *)
Definition device_writes (c : Call) : list (ptr * Z) :=
  match c with
  | cudaMemcpyAsync dst _ bytes cudaMemcpyHostToDevice _ => [(dst, bytes)]
  | _ => []
  end.

(** A range that lies between two addresses. *)
Definition within (lo hi : Z) (r : ptr * Z) : Prop :=
  lo <= fst r /\ fst r + snd r <= hi.

(** A runtime that accepts every call but the copies from host to
    device. *)
Definition refuses_copy_back : list Call -> Call -> cudaError_t :=
  fun _ c =>
    match c with
    | cudaMemcpyAsync _ _ _ cudaMemcpyHostToDevice _ => 1
    | _ => cudaSuccess
    end.

(** ** src/cuda/cuda.cpp: init, finalize, replace_internal_streams *)

(** The calls of these three functions into the CUDA runtime and driver,
    the profiling hooks and the resource pools.  A call that creates a
    stream carries the handle the runtime stored on success. *)
Inductive SetupCall :=
| cudaDeviceGetStreamPriorityRange
| cudaStreamCreateWithPriority (s : cudaStream_t) (flags priority : Z)
| cudaStreamCreate (s : cudaStream_t)
| name_stream (s : cudaStream_t) (name : string)
| cuCtxGetDevice
| cuDeviceGetAttribute (dev : Z)
| sync_pool_preallocate (n : Z)
| sync_pool_clear
| event_pool_clear
| cudaStreamDestroy (s : cudaStream_t).

Definition cudaStreamDefault : Z := 0.

(** What the process environment, the build and the device answer. *)
Record Platform := {
  (** whether [std::getenv("AL_USE_PRIORITY_STREAM")] is non-null *)
  AL_USE_PRIORITY_STREAM : bool;
  (** whether the build defines [AL_HAS_ROCM] *)
  AL_HAS_ROCM : bool;
  (** the value of the macro [AL_SYNC_MEM_PREALLOC] *)
  AL_SYNC_MEM_PREALLOC : Z;
  (** the status of a checked call, given the calls made before it *)
  setup_status : list SetupCall -> SetupCall -> cudaError_t;
  least_priority : Z;
  greatest_priority : Z;
  (** what [cuCtxGetDevice] stores *)
  device : Z;
  (** what [cuDeviceGetAttribute] stores for
      [CU_DEVICE_ATTRIBUTE_CAN_USE_STREAM_MEM_OPS] *)
  can_use_stream_mem_ops : Z
}.

(** The file-scope variables of cuda.cpp: those of [World], the two flags
    of the anonymous namespace, and the calls made so far. *)
Record CudaModule := {
  world : World;
  stream_mem_ops_supported : bool;
  using_external_streams : bool;
  setup_trace : list SetupCall
}.

Definition set_world (w : World) (m : CudaModule) : CudaModule :=
  {| world := w; stream_mem_ops_supported := stream_mem_ops_supported m;
     using_external_streams := using_external_streams m;
     setup_trace := setup_trace m |}.

Definition set_stream_mem_ops_supported (b : bool) (m : CudaModule)
    : CudaModule :=
  {| world := world m; stream_mem_ops_supported := b;
     using_external_streams := using_external_streams m;
     setup_trace := setup_trace m |}.

Definition set_using_external_streams (b : bool) (m : CudaModule)
    : CudaModule :=
  {| world := world m; stream_mem_ops_supported := stream_mem_ops_supported m;
     using_external_streams := b; setup_trace := setup_trace m |}.

Definition set_setup_trace (t : list SetupCall) (m : CudaModule)
    : CudaModule :=
  {| world := world m; stream_mem_ops_supported := stream_mem_ops_supported m;
     using_external_streams := using_external_streams m;
     setup_trace := t |}.

Definition set_internal_streams (l : list cudaStream_t) (w : World)
    : World :=
  {| internal_streams := l; cur_stream := cur_stream w;
     event_pool := event_pool w; sync_event := sync_event w;
     next_handle := next_handle w; pinned_brk := pinned_brk w;
     state_heap := state_heap w; progress_queue := progress_queue w;
     req := req w; trace := trace w |}.

(** [a[i] = x] on an array held as a list; nothing happens out of
    range, where the code never writes. *)
Fixpoint array_set {A : Type} (i : nat) (x : A) (l : list A) : list A :=
  match l, i with
  | [], _ => []
  | _ :: t, O => x :: t
  | h :: t, S j => h :: array_set j x t
  end.

(** Computations on the variables of cuda.cpp. *)
Definition CM (A : Type) : Type := CudaModule -> outcome A * CudaModule.

Definition cm_ret {A} (a : A) : CM A := fun m => (Returned a, m).

Definition cm_bind {A B} (c : CM A) (k : A -> CM B) : CM B :=
  fun m => match c m with
           | (Returned a, m') => k a m'
           | (Thrown e, m') => (Thrown e, m')
           end.

Declare Scope cuda_scope.
Delimit Scope cuda_scope with cuda.
Notation "x <- c ;; k" := (cm_bind c (fun x => k))
  (at level 61, c at next level, right associativity) : cuda_scope.
Notation "c ;; k" := (cm_bind c (fun _ => k))
  (at level 61, right associativity) : cuda_scope.

Definition cm_gets {A} (f : CudaModule -> A) : CM A :=
  fun m => (Returned (f m), m).

Definition cm_modify (f : CudaModule -> CudaModule) : CM unit :=
  fun m => (Returned tt, f m).

(** A computation on the world, run on the world of the module. *)
Definition on_world {A} (c : M A) : CM A :=
  fun m => let (r, w') := c (world m) in (r, set_world w' m).

(** The name a failure carries. *)
Definition setup_call_name (c : SetupCall) : string :=
  match c with
  | cudaDeviceGetStreamPriorityRange => "cudaDeviceGetStreamPriorityRange"
  | cudaStreamCreateWithPriority _ _ _ => "cudaStreamCreateWithPriority"
  | cudaStreamCreate _ => "cudaStreamCreate"
  | name_stream _ _ => "name_stream"
  | cuCtxGetDevice => "cuCtxGetDevice"
  | cuDeviceGetAttribute _ => "cuDeviceGetAttribute"
  | sync_pool_preallocate _ => "preallocate"
  | sync_pool_clear => "clear"
  | event_pool_clear => "clear"
  | cudaStreamDestroy _ => "cudaStreamDestroy"
  end.

(** [internal_streams[i]] *)
Definition internal_stream_at (i : nat) (m : CudaModule) : cudaStream_t :=
  stream_at (world m) (Z.of_nat i).

(** [std::to_string(i)] *)
Definition to_string (i : nat) : string :=
  NilEmpty.string_of_uint (Nat.to_uint i).

Section Lifecycle.

Variable p : Platform.

(** A call that is not checked. *)
Definition setup_call (c : SetupCall) : CM unit :=
  cm_modify (fun m => set_setup_trace (setup_trace m ++ [c]) m).

(** Modelled from the spec: the macros [AL_CHECK_CUDA] and
    [AL_CHECK_CUDA_DRV] around a call of these functions; "any failure from
    a device call is fatal; the library raises an exception-like failure
    carrying the failing call's identifier". *)
Definition checked_setup_call (c : SetupCall) : CM unit :=
  fun m =>
    (if setup_status p (setup_trace m) c =? cudaSuccess then Returned tt
     else Thrown (al_exception (setup_call_name c)),
     set_setup_trace (setup_trace m ++ [c]) m).

(** A checked call that creates a stream and stores its handle in
    [internal_streams[i]]; the handle is the runtime's, a new one. *)
Definition create_stream (i : nat) (call : cudaStream_t -> SetupCall)
    : CM unit :=
  fun m =>
    let s := Stream (next_handle (world m)) in
    if setup_status p (setup_trace m) (call s) =? cudaSuccess
    then (Returned tt,
          set_setup_trace (setup_trace m ++ [call s])
            (set_world
               (set_internal_streams
                  (array_set i s (internal_streams (world m)))
                  (set_next_handle (next_handle (world m) + 1) (world m)))
               m))
    else (Thrown (al_exception (setup_call_name (call s))),
          set_setup_trace (setup_trace m ++ [call s]) m).

(** The calls of one iteration of the loop of [init] that succeeds, and
    of [n] of them from index [i], the runtime handing out the handles
    from [h] on. *)
Definition creation_calls (i : nat) (s : cudaStream_t) : list SetupCall :=
  (if AL_USE_PRIORITY_STREAM p
   then [cudaDeviceGetStreamPriorityRange;
         cudaStreamCreateWithPriority s cudaStreamDefault
                                      (greatest_priority p)]
   else [cudaStreamCreate s])
  ++ [name_stream s ("al_internal_" ++ to_string i)].

Fixpoint init_calls (i n : nat) (h : Z) : list SetupCall :=
  match n with
  | O => []
  | S n' => creation_calls i (Stream h) ++ init_calls (S i) n' (h + 1)
  end.

(** The loop of [init], [n] iterations from index [i]. *)
Fixpoint init_streams (i n : nat) : CM unit :=
  match n with
  | O => cm_ret tt
  | S n' =>
    ((if AL_USE_PRIORITY_STREAM p then
        (checked_setup_call cudaDeviceGetStreamPriorityRange ;;
         create_stream i
           (fun s => cudaStreamCreateWithPriority s cudaStreamDefault
                       (greatest_priority p)))%cuda
      else create_stream i cudaStreamCreate) ;;
     s <- cm_gets (internal_stream_at i) ;;
     setup_call (name_stream s ("al_internal_" ++ to_string i)) ;;
     init_streams (S i) n')%cuda
  end.

(** The calls of [init] after its loop. *)
Definition init_tail : list SetupCall :=
  (if AL_HAS_ROCM p then []
   else [cuCtxGetDevice; cuDeviceGetAttribute (device p)])
  ++ [sync_pool_preallocate (AL_SYNC_MEM_PREALLOC p)].

(** [init] *)
Definition init : CM unit :=
  (init_streams 0 (Z.to_nat num_internal_streams) ;;
   (if AL_HAS_ROCM p then
      cm_modify (set_stream_mem_ops_supported false)
    else
      (checked_setup_call cuCtxGetDevice ;;
       checked_setup_call (cuDeviceGetAttribute (device p)) ;;
       cm_modify (set_stream_mem_ops_supported
                    (negb (can_use_stream_mem_ops p =? 0))))) ;;
   setup_call (sync_pool_preallocate (AL_SYNC_MEM_PREALLOC p)))%cuda.

(** The loop that destroys the internal streams. *)
Fixpoint destroy_streams (i n : nat) : CM unit :=
  match n with
  | O => cm_ret tt
  | S n' =>
    (s <- cm_gets (internal_stream_at i) ;;
     checked_setup_call (cudaStreamDestroy s) ;;
     destroy_streams (S i) n')%cuda
  end.

(** [finalize]; what clearing does to the two pools is the business of
    mempool.hpp, which is not in the sources: the calls are recorded. *)
Definition finalize : CM unit :=
  (setup_call sync_pool_clear ;;
   setup_call event_pool_clear ;;
   external <- cm_gets using_external_streams ;;
   if negb external
   then destroy_streams 0 (Z.to_nat num_internal_streams)
   else cm_ret tt)%cuda.

(** The loop of [replace_internal_streams] that stores what
    [stream_getter] returns; [stream_getter k] is what its call number [k]
    returns. *)
Fixpoint assign_streams (stream_getter : nat -> cudaStream_t) (i n : nat)
    : CM unit :=
  match n with
  | O => cm_ret tt
  | S n' =>
    (cm_modify (fun m =>
       set_world (set_internal_streams
                    (array_set i (stream_getter i)
                               (internal_streams (world m)))
                    (world m)) m) ;;
     assign_streams stream_getter (S i) n')%cuda
  end.

(** [replace_internal_streams] *)
Definition replace_internal_streams (stream_getter : nat -> cudaStream_t)
    : CM unit :=
  (external <- cm_gets using_external_streams ;;
   (if negb external
    then destroy_streams 0 (Z.to_nat num_internal_streams)
    else cm_ret tt) ;;
   assign_streams stream_getter 0 (Z.to_nat num_internal_streams) ;;
   cm_modify (set_using_external_streams true))%cuda.

(** [stream_memory_operations_supported] *)
Definition stream_memory_operations_supported : CM bool :=
  cm_gets stream_mem_ops_supported.

End Lifecycle.

(** The calls made between two states of the module. *)
Definition setup_calls (m m' : CudaModule) : list SetupCall :=
  skipn (List.length (setup_trace m)) (setup_trace m').

(** The streams a list of calls created, and those it destroyed. *)
Definition created_streams (l : list SetupCall) : list cudaStream_t :=
  flat_map (fun c => match c with
                     | cudaStreamCreateWithPriority s _ _ => [s]
                     | cudaStreamCreate s => [s]
                     | _ => []
                     end) l.

Definition destroyed_streams (l : list SetupCall) : list cudaStream_t :=
  flat_map (fun c => match c with
                     | cudaStreamDestroy s => [s]
                     | _ => []
                     end) l.

(** The streams a list of calls named, with their names. *)
Definition named_streams (l : list SetupCall)
    : list (cudaStream_t * string) :=
  flat_map (fun c => match c with
                     | name_stream s n => [(s, n)]
                     | _ => []
                     end) l.

(** The priorities the streams were created with; [None] for a stream
    created without one. *)
Definition creation_priorities (l : list SetupCall) : list (option Z) :=
  flat_map (fun c => match c with
                     | cudaStreamCreateWithPriority _ _ pr => [Some pr]
                     | cudaStreamCreate _ => [None]
                     | _ => []
                     end) l.

(** The array after the loop of [init] has run [n] iterations from index
    [i], the runtime handing out the handles from [h] on. *)
Fixpoint created_pool (i n : nat) (h : Z) (l : list cudaStream_t)
    : list cudaStream_t :=
  match n with
  | O => l
  | S n' => created_pool (S i) n' (h + 1) (array_set i (Stream h) l)
  end.

(** The array after the loop of [replace_internal_streams]. *)
Fixpoint assigned_pool (stream_getter : nat -> cudaStream_t) (i n : nat)
    (l : list cudaStream_t) : list cudaStream_t :=
  match n with
  | O => l
  | S n' =>
    assigned_pool stream_getter (S i) n' (array_set i (stream_getter i) l)
  end.

(** A platform all of whose checked calls succeed. *)
Definition setup_accepts (p : Platform) : Prop :=
  forall h c, setup_status p h c = cudaSuccess.

(** Example platform and module: priority streams asked for, a CUDA
    build, a device with stream memory operations. *)
Definition platform0 : Platform :=
  {| AL_USE_PRIORITY_STREAM := true; AL_HAS_ROCM := false;
     AL_SYNC_MEM_PREALLOC := 1024;
     setup_status := fun _ _ => cudaSuccess;
     least_priority := 0; greatest_priority := -1;
     device := 0; can_use_stream_mem_ops := 1 |}.

(** The module before [init]: the array holds five null handles. *)
Definition module0 : CudaModule :=
  {| world := set_internal_streams
                [Stream 0; Stream 0; Stream 0; Stream 0; Stream 0] world0;
     stream_mem_ops_supported := false;
     using_external_streams := false;
     setup_trace := [] |}.

(** * Properties *)

(** ** Traces *)

Lemma issued_app (w : World) (l : list Call) (w' : World) :
  trace w' = trace w ++ l -> issued w w' = l.
Proof.
  intros E. unfold issued. rewrite E.
  rewrite skipn_app, skipn_all, Nat.sub_diag. reflexivity.
Qed.

Lemma issued_same (w w' : World) : trace w' = trace w -> issued w w' = [].
Proof.
  intros E. apply issued_app. rewrite E, app_nil_r. reflexivity.
Qed.

Lemma stream_eqb_refl (s : cudaStream_t) : stream_eqb s s = true.
Proof. destruct s as [i]. apply Z.eqb_refl. Qed.

(** Reduce projections of updated worlds and of base subobjects. *)
Ltac world_simpl :=
  cbn [internal_streams cur_stream event_pool sync_event next_handle
       pinned_brk state_heap progress_queue req trace
       set_cur_stream set_event_pool set_next_handle set_pinned_brk
       set_state_heap set_progress_queue set_req set_trace fst snd
       base_class is_root base_stream start_event end_event gpu_wait].

Tactic Notation "world_simpl" "in" hyp(H) :=
  cbn [internal_streams cur_stream event_pool sync_event next_handle
       pinned_brk state_heap progress_queue req trace
       set_cur_stream set_event_pool set_next_handle set_pinned_brk
       set_state_heap set_progress_queue set_req set_trace fst snd
       base_class is_root base_stream start_event end_event gpu_wait] in H.

(** Split on the status of the checked call the goal has reached. *)
Ltac case_status Q :=
  match goal with
  | |- context [if ?c =? cudaSuccess then _ else _] =>
    destruct (c =? cudaSuccess) eqn:Q
  end.

(** A runtime that accepts every call did not refuse the call of [Q]. *)
Ltac refuse_by Q :=
  let A := fresh "A" in
  intros A; rewrite A in Q; discriminate Q.

Lemma ctor_calls_app (s : cudaStream_t) (l : list Call) (c : Call) :
  forallb (ctor_call_on s) l = true -> ctor_call_on s c = true ->
  forallb (ctor_call_on s) (l ++ [c]) = true.
Proof.
  intros Hl Hc. rewrite forallb_app, Hl. cbn. rewrite Hc. reflexivity.
Qed.

(** ** Running the computations *)

Section Runs.
Variable sizeofT : Z.
Variable cuda_status : list Call -> Call -> cudaError_t.

(** A checked call is always issued; it returns when the runtime accepts
    it and throws otherwise. *)
Lemma AL_CHECK_CUDA_run (c : Call) (w : World) :
  AL_CHECK_CUDA cuda_status c w
  = (if cuda_status (trace w) c =? cudaSuccess then Returned tt
     else Thrown (cuda_failure c (cuda_status (trace w) c)),
     set_trace (trace w ++ [c]) w).
Proof.
  unfold AL_CHECK_CUDA, bind, cuda_call.
  destruct (cuda_status (trace w) c =? cudaSuccess); reflexivity.
Qed.

Lemma bind_run {A B} (m : M A) (k : A -> M B) (w : World) :
  bind m k w = match m w with
               | (Returned a, w') => k a w'
               | (Thrown e, w') => (Thrown e, w')
               end.
Proof. reflexivity. Qed.

(** One more call for the stream keeps the effect that of a constructor. *)
Lemma effect_on_call s w w0 c :
  effect_on s w w0 -> ctor_call_on s c = true ->
  effect_on s w (set_trace (trace w0 ++ [c]) w0).
Proof.
  intros [F (calls & Ht & Hc)] Hcall. split; [exact F|].
  exists (calls ++ [c]). world_simpl. rewrite Ht, app_assoc.
  split; [reflexivity|]. apply ctor_calls_app; assumption.
Qed.

Lemma memcpy_on s dst src n k :
  ctor_call_on s (cudaMemcpyAsync dst src n k s) = true.
Proof. unfold ctor_call_on. cbn. rewrite stream_eqb_refl. reflexivity. Qed.

Lemma event_record_on s e : ctor_call_on s (event_record e s) = true.
Proof. unfold ctor_call_on. cbn. rewrite stream_eqb_refl. reflexivity. Qed.

Lemma gpu_wait_on s f : ctor_call_on s (gpu_wait_wait f s) = true.
Proof. unfold ctor_call_on. cbn. rewrite stream_eqb_refl. reflexivity. Qed.

Lemma effect_on_alloc s w h p :
  effect_on s w (set_pinned_brk p (set_next_handle h w)).
Proof.
  split; [repeat split|]. exists []. world_simpl.
  rewrite app_nil_r. split; reflexivity.
Qed.

(** The constructors, on every path: they stay within [effect_on], a state
    they return is built on the stream given, and they return when the
    runtime accepts their copies. *)
Lemma staged_ctor_effect (cls : StateClass) (is_root_ : bool)
    (sendbuf recvbuf : ptr) (send_count recv_count : Z)
    (comm : comm_type) (s : cudaStream_t) (w : World) :
  exists r w',
    staged_ctor sizeofT cuda_status cls is_root_ sendbuf recvbuf
                send_count recv_count comm s w = (r, w')
    /\ effect_on s w w'
    /\ (forall st, r = Returned st ->
          s_class st = cls /\ base_stream (s_base st) = s)
    /\ (accepts_all cuda_status -> exists st, r = Returned st).
Proof.
  unfold staged_ctor.
  rewrite bind_run. unfold base_ctor at 1. cbv iota beta.
  rewrite bind_run. unfold mempool_allocate at 1. cbv iota beta.
  set (w0 := set_pinned_brk _ _).
  assert (E0 : effect_on s w w0) by apply effect_on_alloc.
  rewrite bind_run, AL_CHECK_CUDA_run.
  case_status Q1.
  2:{ eexists; eexists; split; [reflexivity|].
      split; [apply effect_on_call; [exact E0|apply memcpy_on]|].
      split; [discriminate|refuse_by Q1]. }
  unfold member_call, modify. rewrite !bind_run. cbv iota beta.
  match goal with
  | |- context [signals_at_end ?b] => destruct (signals_at_end b)
  end.
  - rewrite bind_run, AL_CHECK_CUDA_run.
    case_status Q2.
    + eexists; eexists; split; [reflexivity|].
      split.
      { repeat (apply effect_on_call);
          first [ exact E0 | apply memcpy_on | apply event_record_on
                | apply gpu_wait_on ]. }
      split; [|eexists; reflexivity].
      intros st H. injection H as <-. split; reflexivity.
    + eexists; eexists; split; [reflexivity|].
      split.
      { repeat (apply effect_on_call);
          first [ exact E0 | apply memcpy_on | apply event_record_on
                | apply gpu_wait_on ]. }
      split; [discriminate|refuse_by Q2].
  - eexists; eexists; split; [reflexivity|].
    split.
    { repeat (apply effect_on_call);
        first [ exact E0 | apply memcpy_on | apply event_record_on
              | apply gpu_wait_on ]. }
    split; [|eexists; reflexivity].
    intros st H. injection H as <-. split; reflexivity.
Qed.

Lemma GatherAlState_ctor_effect (sendbuf recvbuf : ptr) (count_ root_ : Z)
    (comm : comm_type) (s : cudaStream_t) (w : World) :
  exists r w',
    GatherAlState_ctor sizeofT cuda_status sendbuf recvbuf count_ root_
                       comm s w = (r, w')
    /\ effect_on s w w'
    /\ (forall g, r = Returned g -> base_stream (g_base g) = s)
    /\ (accepts_all cuda_status -> exists g, r = Returned g).
Proof.
  unfold GatherAlState_ctor.
  rewrite bind_run. unfold base_ctor at 1. cbv iota beta.
  rewrite bind_run. unfold mempool_allocate at 1. cbv iota beta.
  set (w0 := set_pinned_brk _ _).
  assert (E0 : effect_on s w w0) by apply effect_on_alloc.
  cbn [is_root].
  destruct (rank comm =? root_).
  - rewrite bind_run, AL_CHECK_CUDA_run.
    case_status Q1.
    2:{ eexists; eexists; split; [reflexivity|].
        split; [apply effect_on_call; [exact E0|apply memcpy_on]|].
        split; [discriminate|refuse_by Q1]. }
    unfold member_call, modify. rewrite !bind_run. cbv iota beta.
    rewrite AL_CHECK_CUDA_run.
    case_status Q2.
    + eexists; eexists; split; [reflexivity|].
      split.
      { repeat (apply effect_on_call);
          first [exact E0 | apply memcpy_on | apply event_record_on
                | apply gpu_wait_on]. }
      split; [|eexists; reflexivity].
      intros g H. injection H as <-. reflexivity.
    + eexists; eexists; split; [reflexivity|].
      split.
      { repeat (apply effect_on_call);
          first [exact E0 | apply memcpy_on | apply event_record_on
                | apply gpu_wait_on]. }
      split; [discriminate|refuse_by Q2].
  - rewrite bind_run, AL_CHECK_CUDA_run.
    case_status Q1.
    2:{ eexists; eexists; split; [reflexivity|].
        split; [apply effect_on_call; [exact E0|apply memcpy_on]|].
        split; [discriminate|refuse_by Q1]. }
    unfold member_call, modify. rewrite !bind_run. cbv iota beta.
    eexists; eexists; split; [reflexivity|].
    split.
    { repeat (apply effect_on_call);
        first [exact E0 | apply memcpy_on | apply event_record_on
              | apply gpu_wait_on]. }
    split; [|eexists; reflexivity].
    intros g H. injection H as <-. reflexivity.
Qed.

Lemma construct_effect (o : Operation) (a : CallArgs) (comm : comm_type)
    (s : cudaStream_t) (w : World) :
  exists r w',
    construct sizeofT cuda_status o a comm s w = (r, w')
    /\ effect_on s w w'
    /\ (forall st, r = Returned st ->
          class_of st = state_class o /\ base_stream (base_of st) = s)
    /\ (accepts_all cuda_status -> exists st, r = Returned st).
Proof.
  destruct o; unfold construct; rewrite bind_run;
    lazymatch goal with
    | |- context [staged_ctor ?z ?c ?cls ?r ?sb ?rb ?sc ?rc ?cm ?st ?w] =>
      destruct (staged_ctor_effect cls r sb rb sc rc cm st w)
        as (r0 & w' & E & Eff & Hst & Hacc)
    | |- context [GatherAlState_ctor ?z ?c ?sb ?rb ?cnt ?rt ?cm ?st ?w] =>
      destruct (GatherAlState_ctor_effect sb rb cnt rt cm st w)
        as (r0 & w' & E & Eff & Hst & Hacc)
    end;
    rewrite E; destruct r0 as [x|e];
    (eexists; eexists; split; [reflexivity|]; split; [exact Eff|]; split;
     [ intros st H; try discriminate H; injection H as <-;
       first [ exact (Hst x eq_refl)
             | split; [reflexivity | exact (Hst x eq_refl)] ]
     | intros A; destruct (Hacc A) as [y Hy]; try discriminate Hy;
       eexists; reflexivity ]).
Qed.

(** Issuing an operation on a stream, on every path. *)
Lemma do_form_effect (o : Operation) (a : CallArgs) (comm : comm_type)
    (s : cudaStream_t) (w : World) :
  exists r w',
    do_form sizeofT cuda_status o a comm s w = (r, w')
    /\ issue_effect o s w r w'
    /\ (accepts_all cuda_status -> r = Returned tt).
Proof.
  unfold do_form. rewrite bind_run.
  destruct (construct_effect o a comm s w)
    as (r0 & w' & E & [F (calls & Ht & Hc)] & Hst & Hacc).
  destruct F as (F1 & F2 & F3 & F4 & F5 & F6 & F7).
  rewrite E. destruct r0 as [st|e].
  - rewrite bind_run. unfold new_state at 1. cbv iota beta.
    unfold enqueue, modify.
    eexists; eexists; split; [reflexivity|]. split; [|reflexivity].
    unfold issue_effect. world_simpl.
    repeat (split; [assumption|]).
    split; [exists calls; split; assumption|].
    exists st. rewrite F5, F6. destruct (Hst st eq_refl) as [Hcl Hs].
    repeat split; assumption.
  - eexists; eexists; split; [reflexivity|]. split.
    + unfold issue_effect.
      repeat (split; [assumption|]).
      split; [exists calls; split; assumption|].
      split; assumption.
    + intros A. destruct (Hacc A) as [y Hy]. discriminate Hy.
Qed.

(** The stream synchronisation: the record always, the wait when the
    record was accepted. *)
Lemma sync_run (s : cudaStream_t) (comm : comm_type) (w : World) :
  let c1 := cudaEventRecord (sync_event w) (get_stream comm) in
  let c2 := cudaStreamWaitEvent s (sync_event w) 0 in
  let st1 := cuda_status (trace w) c1 in
  let st2 := cuda_status (trace w ++ [c1]) c2 in
  sync_internal_stream_with_comm cuda_status s comm w
  = if st1 =? cudaSuccess
    then (if st2 =? cudaSuccess then Returned tt
          else Thrown (cuda_failure c2 st2),
          set_trace (trace w ++ [c1; c2]) w)
    else (Thrown (cuda_failure c1 st1), set_trace (trace w ++ [c1]) w).
Proof.
  intros c1 c2 st1 st2.
  unfold sync_internal_stream_with_comm.
  rewrite bind_run. unfold gets. cbv iota beta.
  rewrite bind_run, AL_CHECK_CUDA_run. fold c1 st1.
  destruct (st1 =? cudaSuccess); [|reflexivity].
  rewrite AL_CHECK_CUDA_run. world_simpl.
  fold c2 st2. rewrite <- app_assoc. reflexivity.
Qed.

(** The completion event: drawn from the pool and recorded on the stream;
    the request is assigned when the record was accepted. *)
Lemma setup_completion_event_run (s : cudaStream_t) (comm : comm_type)
    (w : World) :
  let ev := next_cuda_event w in
  let c := cudaEventRecord ev s in
  exists w1,
    get_cuda_event w = (Returned ev, w1)
    /\ trace w1 = trace w /\ state_heap w1 = state_heap w
    /\ progress_queue w1 = progress_queue w /\ req w1 = req w
    /\ cur_stream w1 = cur_stream w
    /\ internal_streams w1 = internal_streams w
    /\ setup_completion_event cuda_status s comm w
       = if cuda_status (trace w) c =? cudaSuccess
         then (Returned tt,
               set_req (Some {| op_event := ev;
                                orig_stream := get_stream comm |})
                       (set_trace (trace w ++ [c]) w1))
         else (Thrown (cuda_failure c (cuda_status (trace w) c)),
               set_trace (trace w ++ [c]) w1).
Proof.
  intros ev c. subst c ev. unfold setup_completion_event, next_cuda_event.
  rewrite bind_run. unfold get_cuda_event.
  destruct (event_pool w) as [|e rest];
    (eexists; split; [reflexivity|]; world_simpl;
     repeat (split; [reflexivity|]);
     rewrite bind_run, AL_CHECK_CUDA_run; world_simpl;
     case_status Q; reflexivity).
Qed.

(** Each [do_*] function is [do_form] at its operation. *)
Lemma do_staged_form (o : Operation) (a : CallArgs) (comm : comm_type)
    (s : cudaStream_t) (w : World) cls r sb rb sc rc :
  construct sizeofT cuda_status o a comm s
  = (x <- staged_ctor sizeofT cuda_status cls r sb rb sc rc comm s ;;
     ret (St_Staged x)) ->
  do_staged sizeofT cuda_status cls r sb rb sc rc comm s w
  = do_form sizeofT cuda_status o a comm s w.
Proof.
  intros E. unfold do_staged, do_form. rewrite E, !bind_run.
  destruct (staged_ctor _ _ _ _ _ _ _ _ _ _ w) as [[x|e] w']; reflexivity.
Qed.

Lemma do_gather_form (a : CallArgs) (comm : comm_type)
    (s : cudaStream_t) (w : World) :
  do_gather sizeofT cuda_status (a_sendbuf a) (a_recvbuf a) (a_count a)
            (a_root a) comm s w
  = do_form sizeofT cuda_status Op_Gather a comm s w.
Proof.
  unfold do_gather, do_form, construct. rewrite !bind_run.
  destruct (GatherAlState_ctor _ _ _ _ _ _ _ _ w) as [[x|e] w']; reflexivity.
Qed.

(** The three ways a blocking form goes: back at once on a zero count,
    on to [do_form] with the communicator's stream, or out of the [switch]
    with an exception and the world untouched. *)
Lemma blocking_form_cases (o : Operation) (a : CallArgs)
    (comm : comm_type) (w : World) :
  blocking_form sizeofT cuda_status o a comm w
  = if is_collective o && (a_count a =? 0) then (Returned tt, w)
    else if algo_recognized o (a_algo a)
         then do_form sizeofT cuda_status o a comm (get_stream comm) w
         else (fst (blocking_form sizeofT cuda_status o a comm w), w).
Proof.
  destruct o; cbn [blocking_form is_collective algo_recognized andb];
    unfold Allreduce, Allgather, Alltoall, Bcast, Gather, Reduce,
      Reduce_scatter, Scatter, Send, Recv, SendRecv,
      do_allreduce, do_allgather, do_alltoall, do_bcast, do_reduce,
      do_reduce_scatter, do_scatter, do_send, do_recv, do_sendrecv;
    try (destruct (a_count a =? 0); [reflexivity|]);
    try match goal with
        | |- context [if ?b then _ else throw_al_exception _] =>
          destruct b; [|reflexivity]
        end;
    first [ apply do_gather_form | apply do_staged_form; reflexivity ].
Qed.

(** Past its count test and with a case for its algorithm, a
    non-blocking form is [nonblocking_issue]. *)
Lemma nonblocking_form_cases (o : Operation) (a : CallArgs)
    (comm : comm_type) (w : World) :
  (is_collective o = true -> a_count a <> 0) ->
  algo_recognized o (a_algo a) = true ->
  nonblocking_form sizeofT cuda_status o a comm w
  = nonblocking_issue sizeofT cuda_status o a comm w.
Proof.
  intros C R. unfold nonblocking_issue.
  destruct o; cbn [nonblocking_form is_collective algo_recognized] in *;
    unfold NonblockingAllreduce, NonblockingAllgather, NonblockingAlltoall,
      NonblockingBcast, NonblockingGather, NonblockingReduce,
      NonblockingReduce_scatter, NonblockingScatter, NonblockingSend,
      NonblockingRecv, NonblockingSendRecv,
      do_allreduce, do_allgather, do_alltoall, do_bcast, do_reduce,
      do_reduce_scatter, do_scatter, do_send, do_recv, do_sendrecv;
    try (rewrite (proj2 (Z.eqb_neq (a_count a) 0) (C eq_refl)));
    try rewrite R;
    rewrite !(bind_run get_internal_stream); unfold get_internal_stream.
    all: rewrite !(bind_run (sync_internal_stream_with_comm _ _ _)).
    all: destruct (sync_internal_stream_with_comm _ _ _ _) as [[[]|e] w1];
    try reflexivity.
    all: rewrite !bind_run.
    all: match goal with
         | |- (let (_, _) := ?X in _) = (let (_, _) := ?Y in _) =>
           replace X with Y;
             [ reflexivity
             | symmetry;
               first [ apply do_gather_form
                     | apply do_staged_form; reflexivity ] ]
         end.
Qed.

Lemma new_states_app (w w' : World) (l : list AlState) :
  state_heap w' = state_heap w ++ l -> new_states w w' = l.
Proof.
  intros E. unfold new_states. rewrite E.
  rewrite skipn_app, skipn_all, Nat.sub_diag. reflexivity.
Qed.

Lemma enqueued_app (w w' : World) (l : list AlState) :
  progress_queue w' = progress_queue w ++ l -> enqueued w w' = l.
Proof.
  intros E. unfold enqueued. rewrite E.
  rewrite skipn_app, skipn_all, Nat.sub_diag. reflexivity.
Qed.

(** A blocking form, whatever its arguments and whatever the runtime
    answers. *)
Lemma blocking_form_effect (o : Operation) (a : CallArgs)
    (comm : comm_type) (w : World) :
  exists r w',
    blocking_form sizeofT cuda_status o a comm w = (r, w')
    /\ internal_streams w' = internal_streams w
    /\ cur_stream w' = cur_stream w
    /\ event_pool w' = event_pool w
    /\ req w' = req w
    /\ (exists calls, trace w' = trace w ++ calls
           /\ forallb (ctor_call_on (get_stream comm)) calls = true)
    /\ (forall st, In st (new_states w w') ->
           base_stream (base_of st) = get_stream comm)
    /\ enqueued w w' = new_states w w'.
Proof.
  assert (N : forall r, exists (r0 : outcome unit) (w' : World),
              (r, w) = (r0, w')
              /\ internal_streams w' = internal_streams w
              /\ cur_stream w' = cur_stream w
              /\ event_pool w' = event_pool w
              /\ req w' = req w
              /\ (exists calls, trace w' = trace w ++ calls
                     /\ forallb (ctor_call_on (get_stream comm)) calls
                        = true)
              /\ (forall st, In st (new_states w w') ->
                     base_stream (base_of st) = get_stream comm)
              /\ enqueued w w' = new_states w w').
  { intros r. exists r, w. repeat (split; [reflexivity|]).
    split; [exists []; rewrite app_nil_r; split; reflexivity|].
    unfold new_states, enqueued. rewrite !skipn_all.
    split; [intros st []|reflexivity]. }
  rewrite blocking_form_cases.
  destruct (is_collective o && (a_count a =? 0)); [apply N|].
  destruct (algo_recognized o (a_algo a)); [|apply N].
  destruct (do_form_effect o a comm (get_stream comm) w)
    as (r & w' & E & Eff & _).
  destruct Eff as (F1 & F2 & F3 & F4 & F5 & Hc & Hr).
  exists r, w'. split; [exact E|].
  repeat (split; [assumption|]).
  destruct r as [[]|e].
  - destruct Hr as (st & Hh & Hq & _ & Hs).
    rewrite (new_states_app w w' [st] Hh), (enqueued_app w w' [st] Hq).
    split; [|reflexivity].
    intros st' [<-|[]]. exact Hs.
  - destruct Hr as [Hh Hq]. unfold new_states, enqueued.
    rewrite Hh, Hq, !skipn_all. split; [intros st []|reflexivity].
Qed.

(** A blocking form that gets to issue its operation. *)
Lemma blocking_form_issues (o : Operation) (a : CallArgs)
    (comm : comm_type) (w : World) :
  accepts_all cuda_status ->
  (is_collective o = true -> a_count a <> 0) ->
  algo_recognized o (a_algo a) = true ->
  exists st calls w',
    blocking_form sizeofT cuda_status o a comm w = (Returned tt, w')
    /\ trace w' = trace w ++ calls
    /\ forallb (ctor_call_on (get_stream comm)) calls = true
    /\ state_heap w' = state_heap w ++ [st]
    /\ progress_queue w' = progress_queue w ++ [st]
    /\ class_of st = state_class o
    /\ base_stream (base_of st) = get_stream comm
    /\ req w' = req w
    /\ cur_stream w' = cur_stream w
    /\ event_pool w' = event_pool w.
Proof.
  intros A C R. rewrite blocking_form_cases, R.
  replace (is_collective o && (a_count a =? 0)) with false.
  2:{ destruct (is_collective o); [|reflexivity].
      symmetry. apply Z.eqb_neq. apply C. reflexivity. }
  destruct (do_form_effect o a comm (get_stream comm) w)
    as (r & w' & E & Eff & Hacc).
  rewrite (Hacc A) in *.
  destruct Eff as (F1 & F2 & F3 & F4 & F5 & (calls & Ht & Hc) & Hr).
  destruct Hr as (st & Hh & Hq & Hcl & Hs).
  exists st, calls, w'. repeat (split; [assumption|]). assumption.
Qed.

(** A non-blocking form that gets to issue its operation. *)
Lemma nonblocking_form_issues (o : Operation) (a : CallArgs)
    (comm : comm_type) (w : World) :
  accepts_all cuda_status ->
  (is_collective o = true -> a_count a <> 0) ->
  algo_recognized o (a_algo a) = true ->
  exists st ev calls w',
    nonblocking_form sizeofT cuda_status o a comm w = (Returned tt, w')
    /\ trace w'
       = trace w
         ++ [cudaEventRecord (sync_event w) (get_stream comm);
             cudaStreamWaitEvent
               (stream_at w (cur_stream w mod num_internal_streams))
               (sync_event w) 0]
         ++ calls
         ++ [cudaEventRecord ev
               (stream_at w (cur_stream w mod num_internal_streams))]
    /\ forallb (ctor_call_on
                  (stream_at w (cur_stream w mod num_internal_streams)))
               calls = true
    /\ state_heap w' = state_heap w ++ [st]
    /\ progress_queue w' = progress_queue w ++ [st]
    /\ class_of st = state_class o
    /\ base_stream (base_of st)
       = stream_at w (cur_stream w mod num_internal_streams)
    /\ req w' = Some {| op_event := ev; orig_stream := get_stream comm |}
    /\ cur_stream w' = size_t_succ (cur_stream w)
    /\ internal_streams w' = internal_streams w.
Proof.
  intros A C R. rewrite (nonblocking_form_cases o a comm w C R).
  unfold nonblocking_issue.
  rewrite bind_run. unfold get_internal_stream at 1. cbv iota beta.
  set (s := stream_at w _).
  rewrite bind_run, sync_run. cbv zeta. rewrite !A. cbn [Z.eqb cudaSuccess].
  world_simpl.
  set (w1 := set_trace _ _).
  rewrite bind_run.
  destruct (do_form_effect o a comm s w1) as (r & w2 & E & Eff & Hacc).
  rewrite (Hacc A) in *. rewrite E.
  destruct Eff as (F1 & F2 & F3 & F4 & F5 & (calls & Ht & Hc) & Hr).
  destruct Hr as (st & Hh & Hq & Hcl & Hs).
  destruct (setup_completion_event_run s comm w2)
    as (w3 & _ & G1 & G2 & G3 & G4 & G5 & G6 & G).
  rewrite G, A. cbn [Z.eqb cudaSuccess].
  exists st, (next_cuda_event w2), calls. eexists.
  split; [reflexivity|]. world_simpl.
  subst w1. world_simpl in Ht. world_simpl in Hh. world_simpl in Hq.
  world_simpl in F1. world_simpl in F2.
  rewrite Ht, <- !app_assoc. split; [reflexivity|].
  split; [exact Hc|]. rewrite G2, G3, G5, G6, Hh, Hq, F1, F2.
  repeat (split; [first [reflexivity | assumption]|]). reflexivity.
Qed.
End Runs.

(** ** Requests: Test and Wait *)

Section RequestProperties.

Variable cuda_status : list Call -> Call -> cudaError_t.

Lemma Wait_null (w : World) :
  req w = null_req -> Wait cuda_status w = (Returned tt, w).
Proof. intros E. unfold Wait, bind, gets. rewrite E. reflexivity. Qed.

Lemma Test_null (w : World) :
  req w = null_req -> Test cuda_status w = (Returned true, w).
Proof. intros E. unfold Test, bind, gets. rewrite E. reflexivity. Qed.

Lemma Test_some (w : World) (rq : HostTransferRequest) :
  req w = Some rq ->
  let c := cudaEventQuery (op_event rq) in
  Test cuda_status w =
    if cuda_status (trace w) c =? cudaSuccess
    then (Returned true, set_req null_req (set_trace (trace w ++ [c]) w))
    else (Returned false, set_trace (trace w ++ [c]) w).
Proof.
  intros E c. unfold Test, bind, gets, cuda_call. rewrite E. cbn.
  fold c. destruct (cuda_status (trace w) c =? cudaSuccess); reflexivity.
Qed.

(** C1: [Wait] on a null request does nothing at all.  On a non-null
    request it issues exactly one call, a [cudaStreamWaitEvent] of the
    request's event on the request's original stream; that call puts a
    wait on the stream and is none of the calls in which the host waits
    for the device; [Wait] then returns (the runtime having accepted the
    call; a refused call is raised as a failure), leaving the request as
    it was. *)
Theorem Wait_orders_stream_without_blocking :
  forall (w : World) (rq : HostTransferRequest),
    let c := cudaStreamWaitEvent (orig_stream rq) (op_event rq) 0 in
    let w0 := set_req null_req w in
    let w1 := set_req (Some rq) w in
    Wait cuda_status w0 = (Returned tt, w0)
    /\ snd (Wait cuda_status w1) = set_trace (trace w ++ [c]) w1
    /\ issued w1 (snd (Wait cuda_status w1)) = [c]
    /\ blocks_host c = false
    /\ stream_of c = Some (orig_stream rq)
    /\ req (snd (Wait cuda_status w1)) = Some rq
    /\ fst (Wait cuda_status w1) =
         (if cuda_status (trace w) c =? cudaSuccess then Returned tt
          else Thrown (cuda_failure c (cuda_status (trace w) c))).
Proof.
  intros w rq c w0 w1.
  assert (R : Wait cuda_status w1 =
              (if cuda_status (trace w) c =? cudaSuccess then Returned tt
               else Thrown (cuda_failure c (cuda_status (trace w) c)),
               set_trace (trace w ++ [c]) w1)).
  { unfold Wait, AL_CHECK_CUDA, bind, gets, cuda_call, w1. cbn. fold c.
    destruct (cuda_status (trace w) c =? cudaSuccess); reflexivity. }
  split; [apply Wait_null; reflexivity|].
  rewrite R. cbn [fst snd].
  repeat split; try reflexivity.
  apply issued_app. reflexivity.
Qed.

(** C2: [Test] always returns, and returns true exactly when the request
    is null or the query of its event reports [cudaSuccess].  Returning
    true it leaves the request null; returning false it leaves the request
    as it was.  On a null request it issues no call; otherwise its one
    call is the query, in which the host does not wait. *)
Theorem Test_result_and_reset :
  forall (w : World),
  exists (b : bool) (w' : World),
    Test cuda_status w = (Returned b, w')
    /\ (b = true <->
         req w = null_req \/
         exists rq, req w = Some rq /\
           cuda_status (trace w) (cudaEventQuery (op_event rq))
           = cudaSuccess)
    /\ (b = true -> req w' = null_req)
    /\ (b = false -> req w' = req w)
    /\ (req w = null_req -> w' = w)
    /\ (forall rq, req w = Some rq ->
           issued w w' = [cudaEventQuery (op_event rq)] /\
           blocks_host (cudaEventQuery (op_event rq)) = false).
Proof.
  intros w. destruct (req w) as [rq|] eqn:E.
  - pose proof (Test_some w rq E) as T. cbv zeta in T.
    assert (I : forall w' rq',
               trace w' = trace w ++ [cudaEventQuery (op_event rq)] ->
               Some rq = Some rq' ->
               issued w w' = [cudaEventQuery (op_event rq')] /\
               blocks_host (cudaEventQuery (op_event rq')) = false).
    { intros w' rq' Ht Hr. injection Hr as <-.
      split; [apply issued_app; exact Ht | reflexivity]. }
    destruct (cuda_status (trace w) (cudaEventQuery (op_event rq))
              =? cudaSuccess) eqn:Q.
    + eexists; eexists; split; [exact T|].
      apply Z.eqb_eq in Q.
      split; [|split; [|split; [|split]]].
      * split; [|reflexivity].
        intros _. right. exists rq. split; [reflexivity | exact Q].
      * reflexivity.
      * discriminate.
      * discriminate.
      * intros rq'. apply I. reflexivity.
    + eexists; eexists; split; [exact T|].
      apply Z.eqb_neq in Q.
      split; [|split; [|split; [|split]]].
      * split; [discriminate|].
        intros [Hn | [rq' [Hs Q']]]; [discriminate|].
        injection Hs as <-. contradiction.
      * discriminate.
      * intros _. exact E.
      * discriminate.
      * intros rq'. apply I. reflexivity.
  - exists true, w. split; [apply Test_null; exact E|].
    split; [|split; [|split; [|split]]].
    + split; [|reflexivity]. intros _. left. reflexivity.
    + intros _. exact E.
    + discriminate.
    + reflexivity.
    + discriminate.
Qed.

Lemma run_req_calls_null (l : list ReqCall) (w : World) :
  req w = null_req ->
  run_req_calls cuda_status l w
  = (map (fun _ => true) (filter is_call_Test l), w).
Proof.
  intros E. induction l as [|c l IH]; [reflexivity|].
  destruct c; cbn [run_req_calls filter is_call_Test map].
  - rewrite (Test_null w E), IH. reflexivity.
  - rewrite (Wait_null w E), IH. reflexivity.
Qed.

(** C3: once [Test] has returned true the request variable is null, and
    as long as it holds that value every run of [Test] and [Wait] calls
    on it, in any order, returns true from each [Test] and leaves the
    whole world, hence the trace, as it was: no call is issued. *)
Theorem Test_true_is_sticky :
  forall (w w1 : World),
    Test cuda_status w = (Returned true, w1) ->
    req w1 = null_req /\
    forall (w2 : World) (l : list ReqCall),
      req w2 = req w1 ->
      run_req_calls cuda_status l w2
      = (map (fun _ => true) (filter is_call_Test l), w2)
      /\ issued w2 (snd (run_req_calls cuda_status l w2)) = [].
Proof.
  intros w w1 T.
  assert (N : req w1 = null_req).
  { destruct (req w) as [rq|] eqn:E.
    - rewrite (Test_some w rq E) in T. cbv zeta in T.
      destruct (_ =? _) in T; [|discriminate].
      injection T as <-. reflexivity.
    - rewrite (Test_null w E) in T. injection T as <-. exact E. }
  split; [exact N|].
  intros w2 l E. rewrite N in E.
  rewrite (run_req_calls_null l w2 E). split; [reflexivity|].
  apply issued_same. reflexivity.
Qed.

End RequestProperties.

(** [Test_true_is_sticky] at a request whose event has completed. *)
Lemma Test_true_is_sticky_witness :
  req (snd (Test always_success world_req)) = null_req /\
  forall (w2 : World) (l : list ReqCall),
    req w2 = req (snd (Test always_success world_req)) ->
    run_req_calls always_success l w2
    = (map (fun _ => true) (filter is_call_Test l), w2)
    /\ issued w2 (snd (run_req_calls always_success l w2)) = [].
Proof.
  apply (Test_true_is_sticky always_success world_req
           (snd (Test always_success world_req))).
  reflexivity.
Defined.

(** A completed request: [Test] queries, returns true and resets; the
    calls that follow return true and issue nothing more. *)
Example Test_then_Test_Wait_Test :
  run_req_calls always_success [call_Test; call_Test; call_Wait; call_Test]
                world_req
  = ([true; true; true],
     set_req null_req (set_trace [cudaEventQuery (Event 5)] world_req)).
Proof. reflexivity. Qed.

(** A pending request: [Test] returns false and keeps the request, and
    [Wait] puts the wait on the request's stream. *)
Example Test_pending_then_Wait :
  run_req_calls never_ready [call_Test; call_Wait] world_req
  = ([false],
     set_trace [cudaEventQuery (Event 5);
                cudaStreamWaitEvent (Stream 1) (Event 5) 0] world_req).
Proof. reflexivity. Qed.

(** ** The pool of internal streams *)

Lemma get_internal_stream_calls_state (n : nat) :
  forall w : World,
    cur_stream (snd (get_internal_stream_calls n w))
    = (if Nat.eqb n 0 then cur_stream w
       else (cur_stream w + Z.of_nat n) mod size_t_modulus)
    /\ internal_streams (snd (get_internal_stream_calls n w))
       = internal_streams w.
Proof.
  induction n as [|k IH]; intros w; [split; reflexivity|].
  cbn [get_internal_stream_calls get_internal_stream Nat.eqb].
  specialize (IH (set_cur_stream (size_t_succ (cur_stream w)) w)).
  destruct (get_internal_stream_calls k _) as [l w''].
  cbn [snd] in *. destruct IH as [IHc IHs]. split; [|exact IHs].
  rewrite IHc. destruct k as [|k']; cbn [Nat.eqb set_cur_stream cur_stream].
  - reflexivity.
  - unfold size_t_succ, size_t_wrap.
    rewrite Z.add_mod_idemp_l by (unfold size_t_modulus; lia).
    f_equal. lia.
Qed.

(** The call made after [n] earlier ones, whatever [n]: the counter has
    wrapped at the width of [size_t]. *)
Lemma get_internal_stream_nth_wrapping (w : World) (n : nat) :
  cur_stream w = 0 ->
  fst (get_internal_stream (snd (get_internal_stream_calls n w)))
  = Returned (stream_at w ((Z.of_nat n mod size_t_modulus)
                           mod num_internal_streams)).
Proof.
  intros C0.
  destruct (get_internal_stream_calls_state n w) as [Hc Hs].
  unfold get_internal_stream, stream_at. cbn [fst].
  rewrite Hs, Hc, C0. destruct n as [|k]; [reflexivity|].
  cbn [Nat.eqb]. rewrite Z.add_0_l. reflexivity.
Qed.

(** C8: the pool holds exactly [num_internal_streams] = 5 streams, and
    the call of [get_internal_stream] that [n] earlier calls precede (the
    counter starting at 0, and [n] within the range of the [size_t]
    counter) returns the stream at index [n mod 5] of the pool; the calls
    leave the pool itself alone. *)
Theorem get_internal_stream_round_robin :
  forall (w : World) (n : nat),
    cur_stream w = 0 ->
    List.length (internal_streams w) = Z.to_nat num_internal_streams ->
    Z.of_nat n < size_t_modulus ->
    num_internal_streams = 5
    /\ internal_streams (snd (get_internal_stream_calls n w))
       = internal_streams w
    /\ exists s : cudaStream_t,
         nth_error (internal_streams w) (Z.to_nat (Z.of_nat n mod 5))
         = Some s
         /\ fst (get_internal_stream (snd (get_internal_stream_calls n w)))
            = Returned s.
Proof.
  intros w n C0 L B.
  split; [reflexivity|].
  split; [apply get_internal_stream_calls_state|].
  assert (I : (Z.to_nat (Z.of_nat n mod 5)
               < List.length (internal_streams w))%nat).
  { rewrite L. unfold num_internal_streams.
    pose proof (Z.mod_pos_bound (Z.of_nat n) 5 ltac:(lia)). lia. }
  exists (stream_at w (Z.of_nat n mod 5)). split.
  - unfold stream_at. apply nth_error_nth'. exact I.
  - rewrite (get_internal_stream_nth_wrapping w n C0).
    rewrite (Z.mod_small (Z.of_nat n) size_t_modulus) by lia.
    reflexivity.
Qed.

(** [get_internal_stream_round_robin] at the eighth call on the example
    pool. *)
Lemma get_internal_stream_round_robin_witness :
  num_internal_streams = 5
  /\ internal_streams (snd (get_internal_stream_calls 7 world0))
     = internal_streams world0
  /\ exists s : cudaStream_t,
       nth_error (internal_streams world0) (Z.to_nat (Z.of_nat 7 mod 5))
       = Some s
       /\ fst (get_internal_stream (snd (get_internal_stream_calls 7 world0)))
          = Returned s.
Proof.
  apply (get_internal_stream_round_robin world0 7).
  - reflexivity.
  - reflexivity.
  - vm_compute. reflexivity.
Defined.

(** The eighth call on the example pool returns its third stream. *)
Example get_internal_stream_eighth :
  fst (get_internal_stream (snd (get_internal_stream_calls 7 world0)))
  = Returned (Stream 12).
Proof. reflexivity. Qed.

(** ** Zero count *)

Section ZeroCount.

Variable sizeofT : Z.
Variable cuda_status : list Call -> Call -> cudaError_t.

(** C4: each of the eight non-blocking collectives, called with count
    zero, returns at once and leaves the whole world as it was: no state
    on the heap, nothing in the progress queue, no call issued (so no
    buffer touched), the request variable not assigned.  The same holds
    for the single-buffer overloads, which forward to them. *)
Theorem nonblocking_zero_count_is_noop :
  forall (sendbuf recvbuf : ptr) (op : ReductionOperator) (root : Z)
         (comm : comm_type) (algo : Z) (w : World),
    NonblockingAllreduce sizeofT cuda_status sendbuf recvbuf 0 op comm
                         algo w = (Returned tt, w)
    /\ NonblockingAllgather sizeofT cuda_status sendbuf recvbuf 0 comm
                            algo w = (Returned tt, w)
    /\ NonblockingAlltoall sizeofT cuda_status sendbuf recvbuf 0 comm
                           algo w = (Returned tt, w)
    /\ NonblockingBcast sizeofT cuda_status sendbuf 0 root comm algo w
       = (Returned tt, w)
    /\ NonblockingGather sizeofT cuda_status sendbuf recvbuf 0 root comm
                         algo w = (Returned tt, w)
    /\ NonblockingReduce sizeofT cuda_status sendbuf recvbuf 0 op root
                         comm algo w = (Returned tt, w)
    /\ NonblockingReduce_scatter sizeofT cuda_status sendbuf recvbuf 0 op
                                 comm algo w = (Returned tt, w)
    /\ NonblockingScatter sizeofT cuda_status sendbuf recvbuf 0 root comm
                          algo w = (Returned tt, w)
    /\ NonblockingAllreduce_inplace sizeofT cuda_status recvbuf 0 op comm
                                    algo w = (Returned tt, w)
    /\ NonblockingAllgather_inplace sizeofT cuda_status recvbuf 0 comm
                                    algo w = (Returned tt, w)
    /\ NonblockingAlltoall_inplace sizeofT cuda_status recvbuf 0 comm
                                   algo w = (Returned tt, w)
    /\ NonblockingGather_inplace sizeofT cuda_status recvbuf 0 root comm
                                 algo w = (Returned tt, w)
    /\ NonblockingReduce_inplace sizeofT cuda_status recvbuf 0 op root
                                 comm algo w = (Returned tt, w)
    /\ NonblockingReduce_scatter_inplace sizeofT cuda_status recvbuf 0 op
                                         comm algo w = (Returned tt, w)
    /\ NonblockingScatter_inplace sizeofT cuda_status recvbuf 0 root comm
                                  algo w = (Returned tt, w).
Proof.
  intros. repeat split; reflexivity.
Qed.

End ZeroCount.

(** ** Algorithm selection of allreduce *)

Section AllreduceAlgorithm.

Variable sizeofT : Z.
Variable cuda_status : list Call -> Call -> cudaError_t.

Lemma count_nonzero (count : Z) : count <> 0 -> (count =? 0) = false.
Proof. intros H. apply Z.eqb_neq. exact H. Qed.

(** What the non-blocking allreduce does before its [switch], with an
    algorithm value the [switch] has no case for. *)
Lemma NonblockingAllreduce_unrecognized
    (sendbuf recvbuf : ptr) (count : Z) (op : ReductionOperator)
    (comm : comm_type) (algo : Z) (w : World) :
  algo_recognized Op_Allreduce algo = false ->
  count <> 0 ->
  exists (e : exn) (w' : World),
    NonblockingAllreduce sizeofT cuda_status sendbuf recvbuf count op
                         comm algo w = (Thrown e, w')
    /\ state_heap w' = state_heap w
    /\ progress_queue w' = progress_queue w
    /\ req w' = req w
    /\ next_handle w' = next_handle w
    /\ pinned_brk w' = pinned_brk w
    /\ existsb is_memcpy (issued w w') = false
    /\ (accepts_all cuda_status -> e = al_exception "Invalid algorithm").
Proof.
  intros U C. cbn [algo_recognized] in U.
  unfold NonblockingAllreduce. rewrite (count_nonzero count C), U.
  rewrite bind_run. unfold get_internal_stream.
  rewrite bind_run, sync_run. world_simpl.
  set (s := stream_at w _).
  set (c1 := cudaEventRecord (sync_event w) (get_stream comm)).
  set (c2 := cudaStreamWaitEvent s (sync_event w) 0).
  destruct (cuda_status (trace w) c1 =? cudaSuccess) eqn:Q1.
  - destruct (cuda_status (trace w ++ [c1]) c2 =? cudaSuccess) eqn:Q2.
    + eexists; eexists; split; [reflexivity|].
      repeat (split; [reflexivity|]). split.
      * rewrite (issued_app w [c1; c2]); reflexivity.
      * reflexivity.
    + eexists; eexists; split; [reflexivity|].
      repeat (split; [reflexivity|]). split.
      * rewrite (issued_app w [c1; c2]); reflexivity.
      * refuse_by Q2.
  - eexists; eexists; split; [reflexivity|].
    repeat (split; [reflexivity|]). split.
    + rewrite (issued_app w [c1]); reflexivity.
    + refuse_by Q1.
Qed.

(** C7, as the code has it: the values [automatic] and [host_transfer]
    make both forms of allreduce the same computation.  With a count
    other than zero, any other value makes the blocking form raise
    "Invalid algorithm" with the world untouched, and makes the
    non-blocking form raise a failure ("Invalid algorithm" when the
    runtime accepted the two calls of the stream synchronisation that
    precede the [switch]) with no state created or enqueued, no staging
    copy issued and the request not assigned.  With count zero both forms
    return without a failure, whatever the algorithm value. *)
Theorem allreduce_algorithm_dispatch :
  forall (sendbuf recvbuf : ptr) (count : Z) (op : ReductionOperator)
         (comm : comm_type) (algo : Z) (w : World),
    algo_recognized Op_Allreduce algo = false ->
    count <> 0 ->
    Allreduce sizeofT cuda_status sendbuf recvbuf count op comm
              HostTransferAllreduceAlgorithm.automatic
    = Allreduce sizeofT cuda_status sendbuf recvbuf count op comm
                HostTransferAllreduceAlgorithm.host_transfer
    /\ NonblockingAllreduce sizeofT cuda_status sendbuf recvbuf count op
                            comm HostTransferAllreduceAlgorithm.automatic
       = NonblockingAllreduce sizeofT cuda_status sendbuf recvbuf count op
           comm HostTransferAllreduceAlgorithm.host_transfer
    /\ Allreduce sizeofT cuda_status sendbuf recvbuf count op comm algo w
       = (Thrown (al_exception "Invalid algorithm"), w)
    /\ (exists (e : exn) (w' : World),
          NonblockingAllreduce sizeofT cuda_status sendbuf recvbuf count
                               op comm algo w = (Thrown e, w')
          /\ state_heap w' = state_heap w
          /\ progress_queue w' = progress_queue w
          /\ req w' = req w
          /\ next_handle w' = next_handle w
          /\ pinned_brk w' = pinned_brk w
          /\ existsb is_memcpy (issued w w') = false
          /\ (accepts_all cuda_status ->
              e = al_exception "Invalid algorithm"))
    /\ Allreduce sizeofT cuda_status sendbuf recvbuf 0 op comm algo w
       = (Returned tt, w)
    /\ NonblockingAllreduce sizeofT cuda_status sendbuf recvbuf 0 op comm
                            algo w = (Returned tt, w).
Proof.
  intros sendbuf recvbuf count op comm algo w U C.
  split; [reflexivity|]. split; [reflexivity|].
  split.
  { cbn [algo_recognized] in U. unfold Allreduce.
    rewrite (count_nonzero count C), U. reflexivity. }
  split; [apply NonblockingAllreduce_unrecognized; assumption|].
  split; reflexivity.
Qed.

End AllreduceAlgorithm.

(** [allreduce_algorithm_dispatch] at the algorithm value 2 and three
    elements. *)
Lemma allreduce_algorithm_dispatch_witness :
  Allreduce 4 always_success 1000 2000 3 0 comm0
            HostTransferAllreduceAlgorithm.automatic
  = Allreduce 4 always_success 1000 2000 3 0 comm0
              HostTransferAllreduceAlgorithm.host_transfer
  /\ NonblockingAllreduce 4 always_success 1000 2000 3 0 comm0
                          HostTransferAllreduceAlgorithm.automatic
     = NonblockingAllreduce 4 always_success 1000 2000 3 0 comm0
                            HostTransferAllreduceAlgorithm.host_transfer
  /\ Allreduce 4 always_success 1000 2000 3 0 comm0 2 world0
     = (Thrown (al_exception "Invalid algorithm"), world0)
  /\ (exists (e : exn) (w' : World),
        NonblockingAllreduce 4 always_success 1000 2000 3 0 comm0 2 world0
        = (Thrown e, w')
        /\ state_heap w' = state_heap world0
        /\ progress_queue w' = progress_queue world0
        /\ req w' = req world0
        /\ next_handle w' = next_handle world0
        /\ pinned_brk w' = pinned_brk world0
        /\ existsb is_memcpy (issued world0 w') = false
        /\ (accepts_all always_success ->
            e = al_exception "Invalid algorithm"))
  /\ Allreduce 4 always_success 1000 2000 0 0 comm0 2 world0
     = (Returned tt, world0)
  /\ NonblockingAllreduce 4 always_success 1000 2000 0 0 comm0 2 world0
     = (Returned tt, world0).
Proof.
  apply (allreduce_algorithm_dispatch 4 always_success 1000 2000 3 0 comm0
                                      2 world0).
  - reflexivity.
  - lia.
Defined.

(** The non-blocking allreduce of three elements with the value 2 for
    algorithm: an internal stream is drawn and synchronised, then the
    [switch] throws; nothing was created, the request is still empty. *)
Example NonblockingAllreduce_unrecognized_run :
  NonblockingAllreduce 4 always_success 1000 2000 3 0 comm0 2 world0
  = (Thrown (al_exception "Invalid algorithm"),
     set_trace [cudaEventRecord (Event 1) (Stream 1);
                cudaStreamWaitEvent (Stream 10) (Event 1) 0]
               (set_cur_stream 1 world0)).
Proof. vm_compute. reflexivity. Qed.

(** C7, as stated, fails: the value 2 names neither [automatic] nor
    [host_transfer], yet with count zero both forms of allreduce return
    normally and raise nothing. *)
Lemma allreduce_unrecognized_zero_count_returns :
  algo_recognized Op_Allreduce 2 = false
  /\ Allreduce 4 always_success 1000 2000 0 0 comm0 2 world0
     = (Returned tt, world0)
  /\ NonblockingAllreduce 4 always_success 1000 2000 0 0 comm0 2 world0
     = (Returned tt, world0).
Proof. repeat split. Qed.

(** ** Blocking and non-blocking issue *)

Lemma ctor_call_on_spec (s : cudaStream_t) (c : Call) :
  ctor_call_on s c = true ->
  stream_of c = Some s
  /\ is_cudaEventRecord c = false
  /\ is_cudaStreamWaitEvent c = false.
Proof.
  unfold ctor_call_on. destruct (stream_of c) as [s'|]; [|discriminate].
  intros H. apply andb_prop in H. destruct H as [H W].
  apply andb_prop in H. destruct H as [S R].
  destruct s as [x], s' as [y]. cbn in S. apply Z.eqb_eq in S. subst y.
  repeat split.
  - destruct (is_cudaEventRecord c); [discriminate R | reflexivity].
  - destruct (is_cudaStreamWaitEvent c); [discriminate W | reflexivity].
Qed.

(** ** The calls of the constructors *)

Section IssueCalls.

Variable sizeofT : Z.
Variable cuda_status : list Call -> Call -> cudaError_t.
Hypothesis accepted : accepts_all cuda_status.

Lemma staged_ctor_calls (cls : StateClass) (is_root_ : bool)
    (sendbuf recvbuf : ptr) (send_count recv_count : Z)
    (comm : comm_type) (s : cudaStream_t) (w : World) :
  trace (snd (staged_ctor sizeofT cuda_status cls is_root_ sendbuf recvbuf
                          send_count recv_count comm s w))
  = trace w ++ staged_calls sizeofT cls is_root_ sendbuf recvbuf
                            send_count recv_count s w.
Proof.
  unfold staged_ctor, staged_calls.
  rewrite bind_run. unfold base_ctor at 1. cbv iota beta zeta.
  rewrite bind_run. unfold mempool_allocate at 1. cbv iota beta.
  rewrite bind_run, AL_CHECK_CUDA_run, accepted.
  cbn [Z.eqb cudaSuccess]. cbv iota beta.
  unfold member_call, modify. rewrite !bind_run. cbv iota beta.
  unfold signals_at_end. cbn [base_class is_root].
  destruct (base_class_of cls); [|destruct is_root_].
  - rewrite bind_run, AL_CHECK_CUDA_run, accepted.
    cbn [Z.eqb cudaSuccess]. world_simpl.
    rewrite <- !app_assoc. reflexivity.
  - rewrite bind_run, AL_CHECK_CUDA_run, accepted.
    cbn [Z.eqb cudaSuccess]. world_simpl.
    rewrite <- !app_assoc. reflexivity.
  - unfold ret. world_simpl. rewrite <- !app_assoc. reflexivity.
Qed.

Lemma GatherAlState_ctor_calls (sendbuf recvbuf : ptr) (count root : Z)
    (comm : comm_type) (s : cudaStream_t) (w : World) :
  trace (snd (GatherAlState_ctor sizeofT cuda_status sendbuf recvbuf count
                                 root comm s w))
  = trace w ++ gather_calls sizeofT sendbuf recvbuf count root comm s w.
Proof.
  unfold GatherAlState_ctor, gather_calls.
  rewrite bind_run. unfold base_ctor at 1. cbv iota beta zeta.
  rewrite bind_run. unfold mempool_allocate at 1. cbv iota beta.
  cbn [is_root].
  destruct (rank comm =? root).
  - rewrite bind_run, AL_CHECK_CUDA_run, accepted.
    cbn [Z.eqb cudaSuccess]. cbv iota beta.
    unfold member_call, modify. rewrite !bind_run. cbv iota beta.
    rewrite AL_CHECK_CUDA_run, accepted. cbn [Z.eqb cudaSuccess].
    world_simpl. rewrite <- !app_assoc. reflexivity.
  - rewrite bind_run, AL_CHECK_CUDA_run, accepted.
    cbn [Z.eqb cudaSuccess]. cbv iota beta.
    unfold member_call, modify. rewrite !bind_run. cbv iota beta.
    unfold ret. world_simpl. rewrite <- !app_assoc. reflexivity.
Qed.

(** The calls of the construction of the state of every operation. *)
Lemma construct_calls (o : Operation) (a : CallArgs) (comm : comm_type)
    (s : cudaStream_t) (w : World) :
  trace (snd (construct sizeofT cuda_status o a comm s w))
  = trace w ++ state_calls sizeofT o a comm s w.
Proof.
  destruct o; unfold construct, state_calls; rewrite bind_run;
    lazymatch goal with
    | |- context [staged_ctor ?z ?c ?cls ?r ?sb ?rb ?sc ?rc ?cm ?st ?w0] =>
      rewrite <- (staged_ctor_calls cls r sb rb sc rc cm st w0);
      destruct (staged_ctor z c cls r sb rb sc rc cm st w0) as [[x|e] w']
    | |- context [GatherAlState_ctor ?z ?c ?sb ?rb ?n ?r ?cm ?st ?w0] =>
      rewrite <- (GatherAlState_ctor_calls sb rb n r cm st w0);
      destruct (GatherAlState_ctor z c sb rb n r cm st w0) as [[x|e] w']
    end; reflexivity.
Qed.

(** Keeping the state and enqueuing it issue nothing. *)
Lemma do_form_trace (o : Operation) (a : CallArgs) (comm : comm_type)
    (s : cudaStream_t) (w : World) :
  trace (snd (do_form sizeofT cuda_status o a comm s w))
  = trace (snd (construct sizeofT cuda_status o a comm s w)).
Proof.
  unfold do_form. rewrite bind_run.
  destruct (construct sizeofT cuda_status o a comm s w) as [[st|e] w'];
    reflexivity.
Qed.

(** The calls depend on the world only through its next handle and the
    start of its free pinned memory. *)
Lemma state_calls_frame (o : Operation) (a : CallArgs) (comm : comm_type)
    (s : cudaStream_t) (w w1 : World) :
  next_handle w1 = next_handle w ->
  pinned_brk w1 = pinned_brk w ->
  state_calls sizeofT o a comm s w1 = state_calls sizeofT o a comm s w.
Proof.
  intros H P.
  destruct o; unfold state_calls, staged_calls, gather_calls;
    cbv zeta; rewrite H, P; reflexivity.
Qed.

(** A blocking form that gets to issue its operation: the calls in
    full. *)
Lemma blocking_form_issues_calls (o : Operation) (a : CallArgs)
    (comm : comm_type) (w : World) :
  (is_collective o = true -> a_count a <> 0) ->
  algo_recognized o (a_algo a) = true ->
  issued_blocking sizeofT (blocking_form sizeofT cuda_status o a comm)
                  o a comm w.
Proof.
  intros C R.
  destruct (blocking_form_issues sizeofT cuda_status o a comm w
              accepted C R)
    as (st & calls & w' & E & Ht & _ & Hh & Hq & Hcl & Hs & Hr & Hc & _).
  destruct (blocking_form_effect sizeofT cuda_status o a comm w)
    as (r0 & w0 & E0 & Hp & _).
  rewrite E in E0. injection E0 as _ <-.
  assert (T : trace w'
              = trace w
                ++ state_calls sizeofT o a comm (get_stream comm) w).
  { rewrite <- construct_calls, <- do_form_trace.
    replace (do_form sizeofT cuda_status o a comm (get_stream comm) w)
      with (blocking_form sizeofT cuda_status o a comm w).
    - rewrite E. reflexivity.
    - rewrite blocking_form_cases, R.
      replace (is_collective o && (a_count a =? 0)) with false;
        [reflexivity|].
      destruct (is_collective o); [|reflexivity].
      symmetry. apply Z.eqb_neq. apply C. reflexivity. }
  exists st, w'. repeat (split; [assumption|]). assumption.
Qed.

(** A non-blocking form that gets to issue its operation: the calls in
    full. *)
Lemma nonblocking_form_issues_calls (o : Operation) (a : CallArgs)
    (comm : comm_type) (w : World) :
  (is_collective o = true -> a_count a <> 0) ->
  algo_recognized o (a_algo a) = true ->
  issued_nonblocking sizeofT
    (nonblocking_form sizeofT cuda_status o a comm) o a comm w.
Proof.
  intros C R. unfold issued_nonblocking.
  rewrite (nonblocking_form_cases sizeofT cuda_status o a comm w C R).
  unfold nonblocking_issue.
  rewrite bind_run. unfold get_internal_stream at 1. cbv iota beta.
  set (s := stream_at w _).
  rewrite bind_run, sync_run. cbv zeta. rewrite !accepted.
  cbn [Z.eqb cudaSuccess]. world_simpl.
  set (w1 := set_trace _ _).
  rewrite bind_run.
  pose proof (do_form_trace o a comm s w1) as T.
  rewrite construct_calls in T.
  rewrite (state_calls_frame o a comm s w w1) in T
    by (subst w1; reflexivity).
  destruct (do_form_effect sizeofT cuda_status o a comm s w1)
    as (r & w2 & E & Eff & Hacc).
  rewrite (Hacc accepted) in *. rewrite E in T |- *. cbn [snd] in T.
  destruct Eff as (F1 & F2 & F3 & F4 & F5 & _ & Hr).
  destruct Hr as (st & Hh & Hq & Hcl & Hs).
  destruct (setup_completion_event_run cuda_status s comm w2)
    as (w3 & _ & G1 & G2 & G3 & G4 & G5 & G6 & G).
  rewrite G, accepted. cbn [Z.eqb cudaSuccess].
  exists st, (next_cuda_event w2). eexists.
  split; [reflexivity|]. world_simpl.
  subst w1. world_simpl in T. world_simpl in Hh. world_simpl in Hq.
  world_simpl in F1. world_simpl in F2.
  rewrite T, <- !app_assoc. split; [reflexivity|].
  rewrite G2, G3, G5, G6, Hh, Hq, F1, F2.
  repeat (split; [first [reflexivity | assumption]|]). reflexivity.
Qed.

End IssueCalls.

(** The calls of a construction are all for its stream, none of them a
    [cudaEventRecord] or a [cudaStreamWaitEvent]. *)
Lemma state_calls_on (sizeofT : Z) (o : Operation) (a : CallArgs)
    (comm : comm_type) (s : cudaStream_t) (w : World) :
  forallb (ctor_call_on s) (state_calls sizeofT o a comm s w) = true.
Proof.
  destruct o; unfold state_calls, staged_calls, gather_calls; cbv zeta;
    repeat match goal with
           | |- context [if ?b then _ else _] => destruct b
           end;
    cbn [forallb app base_class_of state_class];
    rewrite ?memcpy_on, ?event_record_on, ?gpu_wait_on; reflexivity.
Qed.

Section Issue.

Variable sizeofT : Z.
Variable cuda_status : list Call -> Call -> cudaError_t.

(** C5: for each of the eleven operations of the backend.  The blocking
    form, whatever its arguments and the answers of the runtime, draws no
    internal stream, leaves the request variable alone, and issues only
    calls for the communicator's stream, none of them a
    [cudaEventRecord] or a [cudaStreamWaitEvent]; every state it creates
    is built on the communicator's stream.  The single-buffer overloads
    are the two-buffer forms with the buffer in both places.  A
    collective with count zero issues nothing in either form.  When the
    operation is issued (the runtime accepts the calls, the count of a
    collective is not zero, the algorithm is one the [switch] knows),
    every blocking entry point is [issued_blocking], its calls exactly
    those of [state_calls] on the communicator's stream, and every
    non-blocking entry point is [issued_nonblocking]: the sync event
    recorded on the communicator's stream, the internal stream made to
    wait for it, exactly the calls of [state_calls] on the internal
    stream, then the event of the new request recorded on the internal
    stream. *)
Theorem blocking_on_comm_stream_nonblocking_on_internal :
  forall (o : Operation) (a : CallArgs) (comm : comm_type) (w : World),
    (exists (r : outcome unit) (w' : World),
        blocking_form sizeofT cuda_status o a comm w = (r, w')
        /\ internal_streams w' = internal_streams w
        /\ cur_stream w' = cur_stream w
        /\ req w' = req w
        /\ (exists calls, trace w' = trace w ++ calls
               /\ forallb (ctor_call_on (get_stream comm)) calls = true)
        /\ (forall st, In st (new_states w w') ->
               base_stream (base_of st) = get_stream comm)
        /\ enqueued w w' = new_states w w')
    /\ (forall m, blocking_inplace_form sizeofT cuda_status o a comm
                  = Some m ->
                  m = blocking_form sizeofT cuda_status o (in_place a) comm)
    /\ (forall m, nonblocking_inplace_form sizeofT cuda_status o a comm
                  = Some m ->
                  m = nonblocking_form sizeofT cuda_status o (in_place a)
                                       comm)
    /\ (forall s, forallb (ctor_call_on s)
                          (state_calls sizeofT o a comm s w) = true)
    /\ (is_collective o = true -> a_count a = 0 ->
        blocking_form sizeofT cuda_status o a comm w = (Returned tt, w)
        /\ nonblocking_form sizeofT cuda_status o a comm w
           = (Returned tt, w))
    /\ (accepts_all cuda_status ->
        (is_collective o = true -> a_count a <> 0) ->
        algo_recognized o (a_algo a) = true ->
        issued_blocking sizeofT
          (blocking_form sizeofT cuda_status o a comm) o a comm w
        /\ issued_nonblocking sizeofT
             (nonblocking_form sizeofT cuda_status o a comm) o a comm w
        /\ (forall m, blocking_inplace_form sizeofT cuda_status o a comm
                      = Some m ->
                      issued_blocking sizeofT m o (in_place a) comm w)
        /\ (forall m, nonblocking_inplace_form sizeofT cuda_status o a comm
                      = Some m ->
                      issued_nonblocking sizeofT m o (in_place a) comm w)).
Proof.
  intros o a comm w.
  assert (IB : forall m, blocking_inplace_form sizeofT cuda_status o a comm
                         = Some m ->
                         m = blocking_form sizeofT cuda_status o
                                           (in_place a) comm).
  { intros m H. destruct o; try discriminate H; injection H as <-;
      reflexivity. }
  assert (IN : forall m, nonblocking_inplace_form sizeofT cuda_status o a
                           comm = Some m ->
                         m = nonblocking_form sizeofT cuda_status o
                                              (in_place a) comm).
  { intros m H. destruct o; try discriminate H; injection H as <-;
      reflexivity. }
  split.
  { destruct (blocking_form_effect sizeofT cuda_status o a comm w)
      as (r & w' & E & H1 & H2 & _ & H4 & H5 & H6 & H7).
    exists r, w'. repeat (split; [assumption|]). assumption. }
  split; [exact IB|]. split; [exact IN|].
  split; [intros s; apply state_calls_on|].
  split.
  { intros Ho Hz.
    destruct o; try discriminate Ho;
      cbn [blocking_form nonblocking_form];
      unfold Allreduce, Allgather, Alltoall, Bcast, Gather, Reduce,
        Reduce_scatter, Scatter, NonblockingAllreduce,
        NonblockingAllgather, NonblockingAlltoall, NonblockingBcast,
        NonblockingGather, NonblockingReduce, NonblockingReduce_scatter,
        NonblockingScatter;
      rewrite Hz; split; reflexivity. }
  intros A C R.
  split; [apply blocking_form_issues_calls; assumption|].
  split; [apply nonblocking_form_issues_calls; assumption|].
  split.
  - intros m H. rewrite (IB m H).
    apply blocking_form_issues_calls; assumption.
  - intros m H. rewrite (IN m H).
    apply nonblocking_form_issues_calls; assumption.
Qed.

(** C10: the non-blocking send, receive and send-receive, for every
    count and so for count zero, the runtime accepting the calls: each
    returns with one new state of its class on the heap and in the
    progress queue and with the request variable assigned. *)
Theorem point_to_point_has_no_zero_count_shortcut :
  forall (sendbuf recvbuf : ptr) (count recv_count dest src : Z)
         (comm : comm_type) (w : World),
    accepts_all cuda_status ->
    (exists (st : AlState) (ev : cudaEvent_t) (w' : World),
        NonblockingSend sizeofT cuda_status sendbuf count dest comm w
        = (Returned tt, w')
        /\ state_heap w' = state_heap w ++ [st]
        /\ progress_queue w' = progress_queue w ++ [st]
        /\ class_of st = SendAlState
        /\ req w' = Some {| op_event := ev;
                            orig_stream := get_stream comm |})
    /\ (exists (st : AlState) (ev : cudaEvent_t) (w' : World),
          NonblockingRecv sizeofT cuda_status recvbuf count src comm w
          = (Returned tt, w')
          /\ state_heap w' = state_heap w ++ [st]
          /\ progress_queue w' = progress_queue w ++ [st]
          /\ class_of st = RecvAlState
          /\ req w' = Some {| op_event := ev;
                              orig_stream := get_stream comm |})
    /\ (exists (st : AlState) (ev : cudaEvent_t) (w' : World),
          NonblockingSendRecv sizeofT cuda_status sendbuf count dest
                              recvbuf recv_count src comm w
          = (Returned tt, w')
          /\ state_heap w' = state_heap w ++ [st]
          /\ progress_queue w' = progress_queue w ++ [st]
          /\ class_of st = SendRecvAlState
          /\ req w' = Some {| op_event := ev;
                              orig_stream := get_stream comm |}).
Proof.
  intros sendbuf recvbuf count recv_count dest src comm w A.
  pose (a := {| a_sendbuf := sendbuf; a_recvbuf := recvbuf;
                a_count := count; a_recv_count := recv_count;
                a_op := 0; a_root := dest; a_src := src; a_algo := 0 |}).
  assert (P : forall o, is_collective o = false ->
              exists (st : AlState) (ev : cudaEvent_t) (w' : World),
                nonblocking_form sizeofT cuda_status o a comm w
                = (Returned tt, w')
                /\ state_heap w' = state_heap w ++ [st]
                /\ progress_queue w' = progress_queue w ++ [st]
                /\ class_of st = state_class o
                /\ req w' = Some {| op_event := ev;
                                    orig_stream := get_stream comm |}).
  { intros o Ho.
    destruct (nonblocking_form_issues sizeofT cuda_status o a comm w A)
      as (st & ev & calls & w' & E & _ & _ & Hh & Hq & Hc & _ & Hr & _).
    - rewrite Ho. discriminate.
    - destruct o; try discriminate Ho; reflexivity.
    - exists st, ev, w'. repeat (split; [assumption|]). assumption. }
  split; [exact (P Op_Send eq_refl)|].
  split; [exact (P Op_Recv eq_refl) | exact (P Op_SendRecv eq_refl)].
Qed.

End Issue.

(** [blocking_on_comm_stream_nonblocking_on_internal] at a gather of three
    elements. *)
Lemma blocking_on_comm_stream_nonblocking_on_internal_witness :
  issued_blocking 4
    (blocking_form 4 always_success Op_Gather args0 comm0)
    Op_Gather args0 comm0 world0
  /\ issued_nonblocking 4
       (nonblocking_form 4 always_success Op_Gather args0 comm0)
       Op_Gather args0 comm0 world0
  /\ (forall m, blocking_inplace_form 4 always_success Op_Gather args0 comm0
                = Some m ->
                issued_blocking 4 m Op_Gather (in_place args0) comm0 world0)
  /\ (forall m, nonblocking_inplace_form 4 always_success Op_Gather args0
                                         comm0 = Some m ->
                issued_nonblocking 4 m Op_Gather (in_place args0) comm0
                                   world0).
Proof.
  apply (proj2 (proj2 (proj2 (proj2 (proj2
           (blocking_on_comm_stream_nonblocking_on_internal
              4 always_success Op_Gather args0 comm0 world0)))))).
  - intros h c. reflexivity.
  - intros _. discriminate.
  - reflexivity.
Defined.

(** C5, as stated, fails for a collective with count zero: neither form
    of such an allreduce issues anything, on any stream; the non-blocking
    form draws no internal stream, records no event and produces no
    request.  It fails as well for an algorithm value the [switch] has no
    case for: the blocking form throws and has issued nothing. *)
Lemma zero_count_allreduce_issues_nothing :
  Allreduce 4 always_success 1000 2000 0 0 comm0
            HostTransferAllreduceAlgorithm.automatic world0
  = (Returned tt, world0)
  /\ NonblockingAllreduce 4 always_success 1000 2000 0 0 comm0
                          HostTransferAllreduceAlgorithm.automatic world0
     = (Returned tt, world0)
  /\ issued world0
       (snd (NonblockingAllreduce 4 always_success 1000 2000 0 0 comm0
               HostTransferAllreduceAlgorithm.automatic world0)) = []
  /\ cur_stream
       (snd (NonblockingAllreduce 4 always_success 1000 2000 0 0 comm0
               HostTransferAllreduceAlgorithm.automatic world0))
     = cur_stream world0
  /\ req (snd (NonblockingAllreduce 4 always_success 1000 2000 0 0 comm0
                 HostTransferAllreduceAlgorithm.automatic world0))
     = None
  /\ Allreduce 4 always_success 1000 2000 3 0 comm0 2 world0
     = (Thrown (al_exception "Invalid algorithm"), world0).
Proof. repeat split. Qed.

(** [point_to_point_has_no_zero_count_shortcut] at count zero. *)
Lemma point_to_point_has_no_zero_count_shortcut_witness :
  (exists (st : AlState) (ev : cudaEvent_t) (w' : World),
      NonblockingSend 4 always_success 1000 0 1 comm0 world0
      = (Returned tt, w')
      /\ state_heap w' = state_heap world0 ++ [st]
      /\ progress_queue w' = progress_queue world0 ++ [st]
      /\ class_of st = SendAlState
      /\ req w' = Some {| op_event := ev;
                          orig_stream := get_stream comm0 |})
  /\ (exists (st : AlState) (ev : cudaEvent_t) (w' : World),
        NonblockingRecv 4 always_success 2000 0 1 comm0 world0
        = (Returned tt, w')
        /\ state_heap w' = state_heap world0 ++ [st]
        /\ progress_queue w' = progress_queue world0 ++ [st]
        /\ class_of st = RecvAlState
        /\ req w' = Some {| op_event := ev;
                            orig_stream := get_stream comm0 |})
  /\ (exists (st : AlState) (ev : cudaEvent_t) (w' : World),
        NonblockingSendRecv 4 always_success 1000 0 1 2000 0 1 comm0 world0
        = (Returned tt, w')
        /\ state_heap w' = state_heap world0 ++ [st]
        /\ progress_queue w' = progress_queue world0 ++ [st]
        /\ class_of st = SendRecvAlState
        /\ req w' = Some {| op_event := ev;
                            orig_stream := get_stream comm0 |}).
Proof.
  apply (point_to_point_has_no_zero_count_shortcut
           4 always_success 1000 2000 0 0 1 1 comm0 world0).
  intros h c. reflexivity.
Defined.

(** The two forms of a gather of three elements at its root, side by side:
    the blocking form works on the communicator's stream 1; the
    non-blocking form records the sync event on stream 1, makes the internal
    stream 10 wait for it, works on stream 10 and records the request's
    event there. *)
Example Gather_blocking_trace :
  blocking_form 4 always_success Op_Gather args0 comm0 world0
  = (Returned tt,
     snd (blocking_form 4 always_success Op_Gather args0 comm0 world0))
  /\ trace (snd (blocking_form 4 always_success Op_Gather args0 comm0
                                world0))
     = [cudaMemcpyAsync 4096 1000 12 cudaMemcpyDeviceToHost (Stream 1);
        event_record (Event 100) (Stream 1);
        gpu_wait_wait (Flag 102) (Stream 1);
        cudaMemcpyAsync 2000 4096 48 cudaMemcpyHostToDevice (Stream 1);
        event_record (Event 101) (Stream 1)]
  /\ req (snd (blocking_form 4 always_success Op_Gather args0 comm0
                              world0)) = None.
Proof.
  split; [vm_compute; reflexivity|].
  split; vm_compute; reflexivity.
Qed.

Example Gather_nonblocking_trace :
  nonblocking_form 4 always_success Op_Gather args0 comm0 world0
  = (Returned tt,
     snd (nonblocking_form 4 always_success Op_Gather args0 comm0 world0))
  /\ trace (snd (nonblocking_form 4 always_success Op_Gather args0 comm0
                                   world0))
     = [cudaEventRecord (Event 1) (Stream 1);
        cudaStreamWaitEvent (Stream 10) (Event 1) 0;
        cudaMemcpyAsync 4096 1000 12 cudaMemcpyDeviceToHost (Stream 10);
        event_record (Event 100) (Stream 10);
        gpu_wait_wait (Flag 102) (Stream 10);
        cudaMemcpyAsync 2000 4096 48 cudaMemcpyHostToDevice (Stream 10);
        event_record (Event 101) (Stream 10);
        cudaEventRecord (Event 103) (Stream 10)]
  /\ req (snd (nonblocking_form 4 always_success Op_Gather args0 comm0
                                 world0))
     = Some {| op_event := Event 103; orig_stream := Stream 1 |}.
Proof.
  split; [vm_compute; reflexivity|].
  split; vm_compute; reflexivity.
Qed.

(** The non-blocking send of no element on the example world: the two
    calls of the stream synchronisation, the three of the construction of
    the state, the record of the request's event. *)
Example NonblockingSend_zero_count_trace :
  trace (snd (NonblockingSend 4 always_success 1000 0 1 comm0 world0))
  = [cudaEventRecord (Event 1) (Stream 1);
     cudaStreamWaitEvent (Stream 10) (Event 1) 0;
     cudaMemcpyAsync 4096 1000 0 cudaMemcpyDeviceToHost (Stream 10);
     event_record (Event 100) (Stream 10);
     gpu_wait_wait (Flag 102) (Stream 10);
     cudaEventRecord (Event 103) (Stream 10)].
Proof. reflexivity. Qed.

(** ** Construction of the gather and barrier states *)

Section StateConstruction.

Variable sizeofT : Z.
Variable cuda_status : list Call -> Call -> cudaError_t.

(** The gather constructor when the runtime accepts its copies. *)
Lemma GatherAlState_ctor_accepted (sendbuf recvbuf : ptr) (count root : Z)
    (comm : comm_type) (stream : cudaStream_t) (w : World) :
  accepts_all cuda_status ->
  let b := {| base_class := HostTransferCollectiveSignalNonRootEarlyState;
              is_root := rank comm =? root; base_stream := stream;
              start_event := Event (next_handle w);
              end_event := Event (next_handle w + 1);
              gpu_wait := Flag (next_handle w + 2) |} in
  let g := {| g_base := b; g_host_mem := pinned_brk w; g_count := count;
              g_root := root; g_comm := get_comm comm |} in
  exists w',
    GatherAlState_ctor sizeofT cuda_status sendbuf recvbuf count root
                       comm stream w = (Returned g, w')
    /\ trace w'
       = trace w
         ++ [cudaMemcpyAsync
               (if rank comm =? root
                then ptr_add sizeofT (pinned_brk w)
                                     (size_t_mul (rank comm) count)
                else pinned_brk w)
               (if (rank comm =? root) && (sendbuf =? recvbuf)
                then ptr_add sizeofT sendbuf (size_t_mul (rank comm) count)
                else sendbuf)
               (size_t_mul sizeofT count) cudaMemcpyDeviceToHost stream;
             event_record (start_event b) stream;
             gpu_wait_wait (gpu_wait b) stream]
         ++ (if rank comm =? root
             then [cudaMemcpyAsync recvbuf (pinned_brk w)
                     (size_t_mul (size_t_mul sizeofT count) (size comm))
                     cudaMemcpyHostToDevice stream;
                   event_record (end_event b) stream]
             else []).
Proof.
  intros A b g. subst g b. unfold GatherAlState_ctor.
  rewrite bind_run. unfold base_ctor at 1. cbv iota beta.
  rewrite bind_run. unfold mempool_allocate at 1. cbv iota beta.
  cbn [is_root].
  destruct (rank comm =? root).
  - rewrite bind_run, AL_CHECK_CUDA_run, A. cbn [Z.eqb cudaSuccess].
    cbv iota beta.
    unfold member_call, modify. rewrite !bind_run. cbv iota beta.
    rewrite AL_CHECK_CUDA_run, A. cbn [Z.eqb cudaSuccess].
    eexists. split; [reflexivity|]. world_simpl.
    cbn [andb]. rewrite <- !app_assoc. reflexivity.
  - rewrite bind_run, AL_CHECK_CUDA_run, A. cbn [Z.eqb cudaSuccess].
    cbv iota beta.
    unfold member_call, modify. rewrite !bind_run. cbv iota beta.
    eexists. split; [reflexivity|]. world_simpl.
    cbn [andb]. rewrite <- !app_assoc. reflexivity.
Qed.

Lemma BarrierAlState_ctor_run (comm : comm_type) (stream : cudaStream_t)
    (w : World) :
  let b := {| base_class := HostTransferCollectiveSignalAtEndState;
              is_root := true; base_stream := stream;
              start_event := Event (next_handle w);
              end_event := Event (next_handle w + 1);
              gpu_wait := Flag (next_handle w + 2) |} in
  BarrierAlState_ctor comm stream w
  = (Returned {| bar_base := b; bar_comm := get_comm comm |},
     set_trace (trace w ++ [event_record (start_event b) stream;
                            gpu_wait_wait (gpu_wait b) stream])
               (set_next_handle (next_handle w + 3) w)).
Proof.
  intros b. subst b. unfold BarrierAlState_ctor.
  rewrite bind_run. unfold base_ctor at 1. cbv iota beta.
  unfold member_call, modify. rewrite !bind_run. cbv iota beta.
  unfold ret. world_simpl. rewrite <- app_assoc. reflexivity.
Qed.

(** With [MPI_IN_PLACE] the gather leaves the root's own block alone. *)
Lemma igather_in_place_skips_root (me n hm count b : Z) (comm : MPI_Comm) :
  0 < sizeofT -> 0 <= count ->
  hm + sizeofT * (me * count) <= b
    < hm + sizeofT * (me * count) + sizeofT * count ->
  writes_byte sizeofT me n b
    (MPI_Igather MPI_IN_PLACE count hm count me comm) = false.
Proof.
  intros Hs Hc Hb. unfold writes_byte, host_writes.
  rewrite Z.eqb_refl.
  destruct (existsb _ _) eqn:E; [|reflexivity].
  apply existsb_exists in E. destruct E as [[p len] [Hin Hr]].
  apply in_map_iff in Hin. destruct Hin as [i [Hi Hf]].
  apply filter_In in Hf. destruct Hf as [_ Hne].
  injection Hi as <- <-.
  apply negb_true_iff, Z.eqb_neq in Hne.
  unfold in_range in Hr. cbn [fst snd] in Hr.
  apply andb_prop in Hr. destruct Hr as [Hlo Hhi].
  apply Z.leb_le in Hlo. apply Z.ltb_lt in Hhi.
  exfalso.
  assert (i < me \/ me < i) as [L|L] by lia.
  - assert ((i + 1) * count <= me * count) by nia. nia.
  - assert ((me + 1) * count <= i * count) by nia. nia.
Qed.

(** C6, as the code has it: the gather state and the barrier state,
    each on the stream its constructor is given.  Construction of a
    gather state issues exactly (i) the device-to-host copy into the
    pinned buffer, (ii) the record of the start event, (iii) the wait on
    the sync flag, and (iv) the host-to-device copy and the record of the
    end event exactly when the state signals at end, which is at the
    root.  Construction of a barrier state, a signal-at-end state with no
    buffer, issues exactly (ii) and (iii). *)
Theorem gather_and_barrier_construction_sequence :
  forall (sendbuf recvbuf : ptr) (count root : Z) (comm : comm_type)
         (stream : cudaStream_t) (w : World),
    accepts_all cuda_status ->
    (exists (g : GatherState) (w' : World),
        GatherAlState_ctor sizeofT cuda_status sendbuf recvbuf count root
                           comm stream w = (Returned g, w')
        /\ signals_at_end (g_base g) = (rank comm =? root)
        /\ issued w w'
           = [cudaMemcpyAsync
                (if rank comm =? root
                 then ptr_add sizeofT (g_host_mem g)
                                      (size_t_mul (rank comm) count)
                 else g_host_mem g)
                (if (rank comm =? root) && (sendbuf =? recvbuf)
                 then ptr_add sizeofT sendbuf
                                      (size_t_mul (rank comm) count)
                 else sendbuf)
                (size_t_mul sizeofT count) cudaMemcpyDeviceToHost stream;
              event_record (start_event (g_base g)) stream;
              gpu_wait_wait (gpu_wait (g_base g)) stream]
             ++ (if signals_at_end (g_base g)
                 then [cudaMemcpyAsync recvbuf (g_host_mem g)
                         (size_t_mul (size_t_mul sizeofT count)
                                     (size comm))
                         cudaMemcpyHostToDevice stream;
                       event_record (end_event (g_base g)) stream]
                 else []))
    /\ (exists (b : BarrierState) (w' : World),
          BarrierAlState_ctor comm stream w = (Returned b, w')
          /\ signals_at_end (bar_base b) = true
          /\ issued w w'
             = [event_record (start_event (bar_base b)) stream;
                gpu_wait_wait (gpu_wait (bar_base b)) stream]).
Proof.
  intros sendbuf recvbuf count root comm stream w A. split.
  - destruct (GatherAlState_ctor_accepted sendbuf recvbuf count root comm
                stream w A) as (w' & E & T).
    eexists; exists w'. split; [exact E|].
    split; [reflexivity|].
    apply issued_app. rewrite T. reflexivity.
  - rewrite BarrierAlState_ctor_run.
    eexists; eexists. split; [reflexivity|].
    split; [reflexivity|].
    apply issued_app. reflexivity.
Qed.

(** C9: at the root of a gather (the count one MPI can take, the
    staging buffer within the address space), construction first copies
    the root's contribution to element [rank * count] of the pinned
    buffer, from [sendbuf + rank * count] when the send and receive
    buffers are the same and from [sendbuf] otherwise; [start_mpi_op]
    issues the gather with [MPI_IN_PLACE] as send buffer; and of all the
    calls of the two, exactly one writes any given byte of that slot of
    the pinned buffer. *)
Theorem gather_root_slot_written_once :
  forall (sendbuf recvbuf : ptr) (count root : Z) (comm : comm_type)
         (stream : cudaStream_t) (w : World),
    accepts_all cuda_status ->
    rank comm = root ->
    0 <= rank comm < size comm ->
    0 < sizeofT ->
    0 <= count < 2 ^ 31 ->
    sizeofT * (size comm * count) < size_t_modulus ->
    exists (g : GatherState) (w1 w2 : World),
      GatherAlState_ctor sizeofT cuda_status sendbuf recvbuf count root
                         comm stream w = (Returned g, w1)
      /\ GatherAlState_start_mpi_op g w1 = (Returned tt, w2)
      /\ hd_error (issued w w1)
         = Some (cudaMemcpyAsync
                   (g_host_mem g + sizeofT * (rank comm * count))
                   (if sendbuf =? recvbuf
                    then sendbuf + sizeofT * (rank comm * count)
                    else sendbuf)
                   (sizeofT * count) cudaMemcpyDeviceToHost stream)
      /\ issued w1 w2
         = [MPI_Igather MPI_IN_PLACE count (g_host_mem g) count root
                        (get_comm comm)]
      /\ forall b : Z,
           g_host_mem g + sizeofT * (rank comm * count) <= b
             < g_host_mem g + sizeofT * (rank comm * count)
               + sizeofT * count ->
           write_count sizeofT (rank comm) (size comm) b (issued w w2)
           = 1%nat.
Proof.
  intros sendbuf recvbuf count root comm stream w A Hroot Hrank Hs Hc Hfit.
  assert (Rt : (rank comm =? root) = true) by (apply Z.eqb_eq; exact Hroot).
  assert (B1 : 0 <= rank comm * count <= size comm * count) by nia.
  assert (B2 : size comm * count <= sizeofT * (size comm * count)) by nia.
  assert (B3 : 0 <= sizeofT * count <= sizeofT * (size comm * count))
    by nia.
  assert (W1 : size_t_mul (rank comm) count = rank comm * count).
  { unfold size_t_mul, size_t_wrap. apply Z.mod_small. lia. }
  assert (W2 : size_t_mul sizeofT count = sizeofT * count).
  { unfold size_t_mul, size_t_wrap. apply Z.mod_small. lia. }
  assert (W3 : int_of_size_t count = count).
  { unfold int_of_size_t. rewrite Z.mod_small by lia. lia. }
  destruct (GatherAlState_ctor_accepted sendbuf recvbuf count root comm
              stream w A) as (w1 & E & T).
  cbv zeta in E, T. rewrite Rt in T. cbn [andb] in T.
  unfold ptr_add in T. rewrite W1, W2 in T.
  eexists; exists w1; eexists. split; [exact E|].
  unfold GatherAlState_start_mpi_op, member_call, modify.
  cbn [g_base is_root g_count g_host_mem g_root g_comm].
  rewrite Rt, W3. split; [reflexivity|].
  split; [rewrite (issued_app w _ w1 T); reflexivity|].
  split; [apply issued_app; reflexivity|].
  intros b Hb. erewrite issued_app.
  2:{ world_simpl. rewrite T, <- app_assoc. reflexivity. }
  unfold write_count. cbn [app filter].
  assert (D : writes_byte sizeofT (rank comm) (size comm) b
                (cudaMemcpyAsync
                   (pinned_brk w + sizeofT * (rank comm * count))
                   (if sendbuf =? recvbuf
                    then sendbuf + sizeofT * (rank comm * count)
                    else sendbuf)
                   (sizeofT * count) cudaMemcpyDeviceToHost stream)
              = true).
  { unfold writes_byte, host_writes, in_range. cbn [existsb fst snd].
    rewrite orb_false_r. apply andb_true_intro.
    split; [apply Z.leb_le | apply Z.ltb_lt]; lia. }
  rewrite D. subst root.
  rewrite (igather_in_place_skips_root (rank comm) (size comm)
             (pinned_brk w) count b (get_comm comm) Hs (proj1 Hc) Hb).
  reflexivity.
Qed.

End StateConstruction.

(** [gather_and_barrier_construction_sequence] at the root, rank 2 of 4. *)
Lemma gather_and_barrier_construction_sequence_witness :
  (exists (g : GatherState) (w' : World),
      GatherAlState_ctor 4 always_success 1000 2000 3 2 comm2 (Stream 1)
                         world0 = (Returned g, w')
      /\ signals_at_end (g_base g) = (rank comm2 =? 2)
      /\ issued world0 w'
         = [cudaMemcpyAsync
              (if rank comm2 =? 2
               then ptr_add 4 (g_host_mem g) (size_t_mul (rank comm2) 3)
               else g_host_mem g)
              (if (rank comm2 =? 2) && (1000 =? 2000)
               then ptr_add 4 1000 (size_t_mul (rank comm2) 3)
               else 1000)
              (size_t_mul 4 3) cudaMemcpyDeviceToHost (Stream 1);
            event_record (start_event (g_base g)) (Stream 1);
            gpu_wait_wait (gpu_wait (g_base g)) (Stream 1)]
           ++ (if signals_at_end (g_base g)
               then [cudaMemcpyAsync 2000 (g_host_mem g)
                       (size_t_mul (size_t_mul 4 3) (size comm2))
                       cudaMemcpyHostToDevice (Stream 1);
                     event_record (end_event (g_base g)) (Stream 1)]
               else []))
  /\ (exists (b : BarrierState) (w' : World),
        BarrierAlState_ctor comm2 (Stream 1) world0 = (Returned b, w')
        /\ signals_at_end (bar_base b) = true
        /\ issued world0 w'
           = [event_record (start_event (bar_base b)) (Stream 1);
              gpu_wait_wait (gpu_wait (bar_base b)) (Stream 1)]).
Proof.
  apply (gather_and_barrier_construction_sequence
           4 always_success 1000 2000 3 2 comm2 (Stream 1) world0).
  intros h c. reflexivity.
Defined.

(** C6, as stated, fails on the barrier state: a signal-at-end state whose
    construction copies nothing in either direction and records no end
    event; its two calls are the record of the start event and the wait on
    the sync flag. *)
Lemma barrier_construction_copies_nothing :
  fst (BarrierAlState_ctor comm0 (Stream 1) world0)
  = Returned
      {| bar_base :=
           {| base_class := HostTransferCollectiveSignalAtEndState;
              is_root := true; base_stream := Stream 1;
              start_event := Event 100; end_event := Event 101;
              gpu_wait := Flag 102 |};
         bar_comm := Comm 7 |}
  /\ issued world0 (snd (BarrierAlState_ctor comm0 (Stream 1) world0))
     = [event_record (Event 100) (Stream 1);
        gpu_wait_wait (Flag 102) (Stream 1)]
  /\ existsb is_memcpy
       (issued world0 (snd (BarrierAlState_ctor comm0 (Stream 1) world0)))
     = false.
Proof. repeat split. Qed.

(** [gather_root_slot_written_once] at the root, rank 2 of 4, with three
    four-byte elements. *)
Lemma gather_root_slot_written_once_witness :
  exists (g : GatherState) (w1 w2 : World),
    GatherAlState_ctor 4 always_success 1000 2000 3 2 comm2 (Stream 1)
                       world0 = (Returned g, w1)
    /\ GatherAlState_start_mpi_op g w1 = (Returned tt, w2)
    /\ hd_error (issued world0 w1)
       = Some (cudaMemcpyAsync
                 (g_host_mem g + 4 * (rank comm2 * 3))
                 (if 1000 =? 2000 then 1000 + 4 * (rank comm2 * 3)
                  else 1000)
                 (4 * 3) cudaMemcpyDeviceToHost (Stream 1))
    /\ issued w1 w2
       = [MPI_Igather MPI_IN_PLACE 3 (g_host_mem g) 3 2 (get_comm comm2)]
    /\ forall b : Z,
         g_host_mem g + 4 * (rank comm2 * 3) <= b
           < g_host_mem g + 4 * (rank comm2 * 3) + 4 * 3 ->
         write_count 4 (rank comm2) (size comm2) b (issued world0 w2)
         = 1%nat.
Proof.
  apply (gather_root_slot_written_once
           4 always_success 1000 2000 3 2 comm2 (Stream 1) world0).
  - intros h c. reflexivity.
  - reflexivity.
  - cbn. lia.
  - lia.
  - lia.
  - vm_compute. reflexivity.
Defined.

(** C9, as stated, fails for a count that does not fit an [int]: with
    2^32 + 1 one-byte elements at the root, rank 0 of 4, the count reaches
    [MPI_Igather] as 1, the blocks of the ranks 1 to 3 are stored one byte
    apart from the start of the pinned buffer, inside the slot of the
    root, and the byte at 4097 of that slot is written twice: by the copy
    of the constructor and by the gather. *)
Lemma gather_root_slot_written_twice_at_large_count :
  int_of_size_t (2 ^ 32 + 1) = 1
  /\ exists (g : GatherState) (w1 w2 : World),
       GatherAlState_ctor 1 always_success 2000 2000 (2 ^ 32 + 1) 0 comm0
                          (Stream 1) world0 = (Returned g, w1)
       /\ GatherAlState_start_mpi_op g w1 = (Returned tt, w2)
       /\ hd_error (issued world0 w1)
          = Some (cudaMemcpyAsync 4096 2000 (2 ^ 32 + 1)
                                  cudaMemcpyDeviceToHost (Stream 1))
       /\ issued w1 w2
          = [MPI_Igather MPI_IN_PLACE 1 4096 1 0 (Comm 7)]
       /\ g_host_mem g + 1 * (rank comm0 * (2 ^ 32 + 1)) <= 4097
          /\ 4097 < g_host_mem g + 1 * (rank comm0 * (2 ^ 32 + 1))
                    + 1 * (2 ^ 32 + 1)
       /\ write_count 1 (rank comm0) (size comm0) 4097 (issued world0 w2)
          = 2%nat.
Proof.
  split; [vm_compute; reflexivity|].
  eexists; eexists; eexists.
  split; [vm_compute; reflexivity|].
  split; [vm_compute; reflexivity|].
  split; [vm_compute; reflexivity|].
  split; [vm_compute; reflexivity|].
  split; [vm_compute; discriminate|].
  split; vm_compute; reflexivity.
Qed.

(** What the root of a gather of 3 four-byte elements issues at rank 2 of
    4, construction then [start_mpi_op]: the root's slot starts 24 bytes
    into the pinned buffer at 4096. *)
Example gather_root_calls :
  forall g w1,
    GatherAlState_ctor 4 always_success 1000 2000 3 2 comm2 (Stream 1)
                       world0 = (Returned g, w1) ->
    issued world0 (snd (GatherAlState_start_mpi_op g w1))
    = [cudaMemcpyAsync 4120 1000 12 cudaMemcpyDeviceToHost (Stream 1);
       event_record (Event 100) (Stream 1);
       gpu_wait_wait (Flag 102) (Stream 1);
       cudaMemcpyAsync 2000 4096 48 cudaMemcpyHostToDevice (Stream 1);
       event_record (Event 101) (Stream 1);
       MPI_Igather MPI_IN_PLACE 3 4096 3 2 (Comm 7)].
Proof. intros g w1 E. injection E as <- <-. reflexivity. Qed.

(** Had the root passed its slot as send buffer instead of
    [MPI_IN_PLACE], the gather would write the slot a second time. *)
Example gather_not_in_place_writes_twice :
  write_count 4 2 4 4120
    [cudaMemcpyAsync 4120 1000 12 cudaMemcpyDeviceToHost (Stream 1);
     MPI_Igather (mpi_ptr 4120) 3 4096 3 2 (Comm 7)] = 2%nat
  /\ write_count 4 2 4 4120
       [cudaMemcpyAsync 4120 1000 12 cudaMemcpyDeviceToHost (Stream 1);
        MPI_Igather MPI_IN_PLACE 3 4096 3 2 (Comm 7)] = 1%nat.
Proof. split; reflexivity. Qed.

(** ** The two forms on every path *)

Section FacadePaths.
Variable sizeofT : Z.
Variable cuda_status : list Call -> Call -> cudaError_t.

Lemma nonblocking_form_paths (o : Operation) (a : CallArgs)
    (comm : comm_type) (w : World) :
  nonblocking_form sizeofT cuda_status o a comm w
  = if is_collective o && (a_count a =? 0) then (Returned tt, w)
    else nonblocking_path sizeofT cuda_status o a comm w.
Proof.
  unfold nonblocking_path.
  destruct o; cbn [nonblocking_form is_collective algo_recognized andb
                   nonblocking_message message_text];
    unfold NonblockingAllreduce, NonblockingAllgather, NonblockingAlltoall,
      NonblockingBcast, NonblockingGather, NonblockingReduce,
      NonblockingReduce_scatter, NonblockingScatter, NonblockingSend,
      NonblockingRecv, NonblockingSendRecv,
      do_allreduce, do_allgather, do_alltoall, do_bcast, do_reduce,
      do_reduce_scatter, do_scatter, do_send, do_recv, do_sendrecv;
    try (destruct (a_count a =? 0); [reflexivity|]);
    rewrite !(bind_run get_internal_stream); unfold get_internal_stream.
  all: rewrite !(bind_run (sync_internal_stream_with_comm _ _ _)).
  all: destruct (sync_internal_stream_with_comm _ _ _ _) as [[[]|e] w1];
    try reflexivity.
  all: rewrite !bind_run.
  all: try match goal with
           | |- context [if ?b then _ else throw_al_exception _] =>
             destruct b; [|reflexivity]
           end.
  all: match goal with
       | |- (let (_, _) := ?X in _) = (let (_, _) := ?Y in _) =>
         replace X with Y;
           [ reflexivity
           | symmetry;
             first [ apply do_gather_form
                   | apply do_staged_form; reflexivity ] ]
       end.
Qed.

Lemma nonblocking_path_effect (o : Operation) (a : CallArgs)
    (comm : comm_type) (w : World) :
  exists r w',
    nonblocking_path sizeofT cuda_status o a comm w = (r, w')
    /\ nonblocking_effect o comm w r w'.
Proof.
  unfold nonblocking_path, nonblocking_effect.
  rewrite bind_run. unfold get_internal_stream at 1. cbv iota beta zeta.
  set (s := stream_at w _).
  rewrite bind_run, sync_run. cbv zeta. world_simpl.
  set (c1 := cudaEventRecord (sync_event w) (get_stream comm)).
  set (c2 := cudaStreamWaitEvent s (sync_event w) 0).
  destruct (cuda_status (trace w) c1 =? cudaSuccess).
  2:{ eexists; eexists; split; [reflexivity|]. world_simpl.
      repeat (split; [reflexivity|]).
      split; [exists []; reflexivity|].
      split; [reflexivity|]. left. split; reflexivity. }
  destruct (cuda_status (trace w ++ [c1]) c2 =? cudaSuccess).
  2:{ eexists; eexists; split; [reflexivity|]. world_simpl.
      repeat (split; [reflexivity|]).
      split; [exists [c2]; reflexivity|].
      split; [reflexivity|]. left. split; reflexivity. }
  set (w2 := set_trace _ _).
  rewrite bind_run.
  destruct (algo_recognized o (a_algo a)).
  2:{ eexists; eexists; split; [reflexivity|]. subst w2. world_simpl.
      repeat (split; [reflexivity|]).
      split; [exists [c2]; reflexivity|].
      split; [reflexivity|]. left. split; reflexivity. }
  destruct (do_form_effect sizeofT cuda_status o a comm s w2)
    as (r & w3 & E & Eff & _).
  rewrite E.
  destruct Eff as (F1 & F2 & F3 & F4 & F5 & (calls & Ht & Hc) & Hr).
  subst w2. world_simpl in F1. world_simpl in F2. world_simpl in F5.
  world_simpl in Ht. world_simpl in Hr.
  destruct r as [[]|e].
  - destruct Hr as (st & Hh & Hq & Hcl & Hs).
    destruct (setup_completion_event_run cuda_status s comm w3)
      as (w4 & _ & G1 & G2 & G3 & G4 & G5 & G6 & G).
    rewrite G.
    destruct (cuda_status (trace w3) _ =? cudaSuccess).
    + eexists; eexists; split; [reflexivity|]. world_simpl.
      rewrite G5, G6, F1, F2, G2, G3, Hh, Hq, Ht.
      repeat (split; [reflexivity|]).
      split.
      { eexists. rewrite <- !app_assoc. cbn [app]. reflexivity. }
      exists st. eexists. repeat (split; [first [reflexivity|assumption]|]).
      reflexivity.
    + eexists; eexists; split; [reflexivity|]. world_simpl.
      rewrite G5, G6, F1, F2, G2, G3, G4, Hh, Hq, Ht.
      repeat (split; [reflexivity|]).
      split.
      { eexists. rewrite <- !app_assoc. cbn [app]. reflexivity. }
      split; [exact F5|]. right.
      exists st. eexists. eexists.
      repeat (split; [first [reflexivity|assumption]|]).
      reflexivity.
  - destruct Hr as [Hh Hq].
    eexists; eexists; split; [reflexivity|].
    rewrite F1, F2, Hh, Hq, Ht.
    repeat (split; [reflexivity|]).
    split.
    { eexists. rewrite <- !app_assoc. cbn [app]. reflexivity. }
    split; [exact F5|]. left. split; reflexivity.
Qed.

End FacadePaths.

Section FacadeOutcomes.
Variable sizeofT : Z.
Variable cuda_status : list Call -> Call -> cudaError_t.

Lemma nonblocking_form_effect (o : Operation) (a : CallArgs)
    (comm : comm_type) (w : World) :
  exists r w',
    nonblocking_form sizeofT cuda_status o a comm w = (r, w')
    /\ if is_collective o && (a_count a =? 0)
       then r = Returned tt /\ w' = w
       else nonblocking_effect o comm w r w'.
Proof.
  rewrite nonblocking_form_paths.
  destruct (is_collective o && (a_count a =? 0)).
  - exists (Returned tt), w. repeat split.
  - apply nonblocking_path_effect.
Qed.

(** X1: a non-blocking operation assigns the request exactly when it
    returns having enqueued a state.  Throwing, on whatever path, it leaves
    the request variable as it was; returning, it either did nothing at all
    (a collective with count zero) or put one new state on the heap and in
    the progress queue and assigned a request whose stream is the
    communicator's. *)
Theorem nonblocking_request_follows_state :
  forall (o : Operation) (a : CallArgs) (comm : comm_type) (w : World),
  exists (r : outcome unit) (w' : World),
    nonblocking_form sizeofT cuda_status o a comm w = (r, w')
    /\ match r with
       | Thrown _ => req w' = req w
       | Returned _ =>
         (is_collective o && (a_count a =? 0) = true /\ w' = w)
         \/ exists st ev,
              new_states w w' = [st]
              /\ enqueued w w' = [st]
              /\ req w' = Some {| op_event := ev;
                                  orig_stream := get_stream comm |}
       end.
Proof.
  intros o a comm w.
  destruct (nonblocking_form_effect o a comm w) as (r & w' & E & H).
  exists r, w'. split; [exact E|].
  destruct (is_collective o && (a_count a =? 0)).
  - destruct H as [-> ->]. left. split; reflexivity.
  - destruct H as (_ & _ & _ & Hr). destruct r as [[]|e].
    + destruct Hr as (st & ev & Hh & Hq & _ & _ & Hreq).
      right. exists st, ev.
      rewrite (new_states_app w w' [st] Hh), (enqueued_app w w' [st] Hq).
      repeat split. exact Hreq.
    + apply Hr.
Qed.

(** X2: a non-blocking operation takes its turn of the round robin on
    every path that gets past the count test, also when it then throws:
    the counter of the internal streams ends one further, and unchanged
    only for a collective with count zero; the pool is never touched, and
    the first call issued is the record of the sync event on the
    communicator's stream. *)
Theorem nonblocking_always_draws_a_stream :
  forall (o : Operation) (a : CallArgs) (comm : comm_type) (w : World),
    let w' := snd (nonblocking_form sizeofT cuda_status o a comm w) in
    internal_streams w' = internal_streams w
    /\ cur_stream w'
       = (if is_collective o && (a_count a =? 0) then cur_stream w
          else size_t_succ (cur_stream w))
    /\ hd_error (issued w w')
       = (if is_collective o && (a_count a =? 0) then None
          else Some (cudaEventRecord (sync_event w) (get_stream comm))).
Proof.
  intros o a comm w.
  destruct (nonblocking_form_effect o a comm w) as (r & w' & E & H).
  rewrite E. cbn [snd].
  destruct (is_collective o && (a_count a =? 0)).
  - destruct H as [_ ->]. repeat split.
    unfold issued. rewrite skipn_all. reflexivity.
  - destruct H as (Hc & Hs & (calls & Ht) & _).
    split; [exact Hs|]. split; [exact Hc|].
    rewrite (issued_app w _ w' Ht). reflexivity.
Qed.

(** X3: both forms of every operation create at most one state, enqueue
    exactly the states they create, and create only states of the
    operation's own class, so never a barrier state; the state is built on
    the communicator's stream by the blocking form and on the internal
    stream drawn by the non-blocking form.  A blocking form that throws has
    created none. *)
Theorem forms_create_only_their_own_state :
  forall (o : Operation) (a : CallArgs) (comm : comm_type) (w : World),
    (exists (r : outcome unit) (w' : World),
        blocking_form sizeofT cuda_status o a comm w = (r, w')
        /\ enqueued w w' = new_states w w'
        /\ (new_states w w' = [] \/
            exists st, new_states w w' = [st]
                       /\ r = Returned tt
                       /\ class_of st = state_class o
                       /\ class_of st <> BarrierAlState
                       /\ base_stream (base_of st) = get_stream comm))
    /\ (exists (r : outcome unit) (w' : World),
          nonblocking_form sizeofT cuda_status o a comm w = (r, w')
          /\ enqueued w w' = new_states w w'
          /\ (new_states w w' = [] \/
              exists st, new_states w w' = [st]
                         /\ class_of st = state_class o
                         /\ class_of st <> BarrierAlState
                         /\ base_stream (base_of st)
                            = stream_at w (cur_stream w
                                           mod num_internal_streams))).
Proof.
  intros o a comm w.
  assert (NB : forall c, c = state_class o -> c <> BarrierAlState).
  { intros c ->. destruct o; discriminate. }
  assert (Z0 : enqueued w w = new_states w w /\ new_states w w = []).
  { unfold enqueued, new_states. rewrite !skipn_all. split; reflexivity. }
  split.
  - rewrite blocking_form_cases.
    destruct (is_collective o && (a_count a =? 0)).
    { eexists; eexists; split; [reflexivity|].
      split; [apply Z0 | left; apply Z0]. }
    destruct (algo_recognized o (a_algo a)).
    2:{ eexists; eexists; split; [reflexivity|].
        split; [apply Z0 | left; apply Z0]. }
    destruct (do_form_effect sizeofT cuda_status o a comm (get_stream comm) w)
      as (r & w' & E & Eff & _).
    exists r, w'. split; [exact E|].
    destruct Eff as (_ & _ & _ & _ & _ & _ & Hr).
    destruct r as [[]|e].
    + destruct Hr as (st & Hh & Hq & Hcl & Hs).
      rewrite (new_states_app w w' [st] Hh), (enqueued_app w w' [st] Hq).
      split; [reflexivity|]. right. exists st.
      repeat (split; [first [reflexivity|assumption]|]).
      split; [apply NB; exact Hcl | exact Hs].
    + destruct Hr as [Hh Hq]. unfold enqueued, new_states.
      rewrite Hh, Hq, !skipn_all. split; [reflexivity | left; reflexivity].
  - destruct (nonblocking_form_effect o a comm w) as (r & w' & E & H).
    exists r, w'. split; [exact E|].
    destruct (is_collective o && (a_count a =? 0)).
    { destruct H as [_ ->]. split; [apply Z0 | left; apply Z0]. }
    destruct H as (_ & _ & _ & Hr).
    assert (One : forall st,
               state_heap w' = state_heap w ++ [st] ->
               progress_queue w' = progress_queue w ++ [st] ->
               class_of st = state_class o ->
               base_stream (base_of st)
               = stream_at w (cur_stream w mod num_internal_streams) ->
               enqueued w w' = new_states w w'
               /\ (new_states w w' = [] \/
                   exists st0, new_states w w' = [st0]
                     /\ class_of st0 = state_class o
                     /\ class_of st0 <> BarrierAlState
                     /\ base_stream (base_of st0)
                        = stream_at w (cur_stream w
                                       mod num_internal_streams))).
    { intros st Hh Hq Hcl Hs.
      rewrite (new_states_app w w' [st] Hh), (enqueued_app w w' [st] Hq).
      split; [reflexivity|]. right. exists st.
      split; [reflexivity|]. split; [exact Hcl|].
      split; [apply NB; exact Hcl | exact Hs]. }
    destruct r as [[]|e].
    + destruct Hr as (st & ev & Hh & Hq & Hcl & Hs & _).
      apply (One st); assumption.
    + destruct Hr as [_ [[Hh Hq] | (st & ev & status & Hh & Hq & Hcl & Hs & _)]].
      * unfold enqueued, new_states.
        rewrite Hh, Hq, !skipn_all. split; [reflexivity | left; reflexivity].
      * apply (One st); assumption.
Qed.

(** X4: an algorithm value the [switch] of a collective has no case for,
    with a count other than zero.  The blocking form throws the message of
    [blocking_message] and leaves the world untouched.  The non-blocking
    form, the runtime accepting the stream synchronisation, throws the
    message of [nonblocking_message] (for alltoall, gather, reduce and
    scatter not the one of the blocking form) after it has drawn an
    internal stream and issued the two calls of the synchronisation;
    nothing else has changed. *)
Theorem unrecognized_algorithm_throws :
  forall (o : Operation) (a : CallArgs) (comm : comm_type) (w : World),
    algo_recognized o (a_algo a) = false ->
    a_count a <> 0 ->
    accepts_all cuda_status ->
    exists mb mn : string,
      blocking_message o = Some mb
      /\ nonblocking_message o = Some mn
      /\ blocking_form sizeofT cuda_status o a comm w
         = (Thrown (al_exception mb), w)
      /\ nonblocking_form sizeofT cuda_status o a comm w
         = (Thrown (al_exception mn),
            set_trace
              (trace w
               ++ [cudaEventRecord (sync_event w) (get_stream comm);
                   cudaStreamWaitEvent
                     (stream_at w (cur_stream w mod num_internal_streams))
                     (sync_event w) 0])
              (set_cur_stream (size_t_succ (cur_stream w)) w))
      /\ (mb = mn <->
          o = Op_Allreduce \/ o = Op_Allgather \/ o = Op_Bcast
          \/ o = Op_Reduce_scatter).
Proof.
  intros o a comm w U C A.
  assert (Cz : (a_count a =? 0) = false) by (apply Z.eqb_neq; exact C).
  assert (NB : nonblocking_form sizeofT cuda_status o a comm w
               = (Thrown (al_exception
                            (message_text (nonblocking_message o))),
                  set_trace
                    (trace w
                     ++ [cudaEventRecord (sync_event w) (get_stream comm);
                         cudaStreamWaitEvent
                           (stream_at w (cur_stream w
                                         mod num_internal_streams))
                           (sync_event w) 0])
                    (set_cur_stream (size_t_succ (cur_stream w)) w))).
  { rewrite nonblocking_form_paths, Cz, andb_false_r.
    unfold nonblocking_path. rewrite U.
    rewrite bind_run. unfold get_internal_stream at 1. cbv iota beta.
    rewrite bind_run, sync_run. cbv zeta. rewrite !A.
    cbn [Z.eqb cudaSuccess]. reflexivity. }
  destruct o; cbn [algo_recognized] in U; try discriminate U;
    (eexists; eexists; split; [reflexivity|]; split; [reflexivity|];
     split;
     [ cbn [blocking_form];
       unfold Allreduce, Allgather, Alltoall, Bcast, Gather, Reduce,
         Reduce_scatter, Scatter;
       rewrite Cz, U; reflexivity
     | split; [exact NB|] ]).
  all: split;
    [ intros E;
      first [ discriminate E
            | left; reflexivity
            | right; left; reflexivity
            | right; right; left; reflexivity
            | right; right; right; reflexivity ]
    | intros [H|[H|[H|H]]]; first [discriminate H | reflexivity] ].
Qed.

End FacadeOutcomes.

(** [unrecognized_algorithm_throws] at a gather with algorithm value 7. *)
Lemma unrecognized_algorithm_throws_witness :
  exists mb mn : string,
    blocking_message Op_Gather = Some mb
    /\ nonblocking_message Op_Gather = Some mn
    /\ blocking_form 4 always_success Op_Gather args_unknown comm0 world0
       = (Thrown (al_exception mb), world0)
    /\ nonblocking_form 4 always_success Op_Gather args_unknown comm0 world0
       = (Thrown (al_exception mn),
          set_trace
            (trace world0
             ++ [cudaEventRecord (sync_event world0) (get_stream comm0);
                 cudaStreamWaitEvent
                   (stream_at world0 (cur_stream world0
                                      mod num_internal_streams))
                   (sync_event world0) 0])
            (set_cur_stream (size_t_succ (cur_stream world0)) world0))
    /\ (mb = mn <->
        Op_Gather = Op_Allreduce \/ Op_Gather = Op_Allgather
        \/ Op_Gather = Op_Bcast \/ Op_Gather = Op_Reduce_scatter).
Proof.
  apply (unrecognized_algorithm_throws 4 always_success Op_Gather
           args_unknown comm0 world0).
  - reflexivity.
  - intros H. vm_compute in H. discriminate H.
  - intros h c. reflexivity.
Defined.

Section AlgorithmNames.
Variable sizeofT : Z.
Variable cuda_status : list Call -> Call -> cudaError_t.

(** X5: [algorithm_name] and the [switch] of the operations agree.  For
    a collective with a count other than zero, either [algorithm_name]
    calls the algorithm value unknown, and the blocking form throws the
    message of [blocking_message] having done nothing; or it calls it
    automatic (or host-transfer, which only the allreduce has), and the
    blocking form is the [do_] function of the operation on the
    communicator's stream and the non-blocking form the issue on an
    internal stream. *)
Theorem algorithm_name_agrees_with_dispatch :
  forall (o : Operation) (a : CallArgs) (comm : comm_type) (w : World),
    is_collective o = true ->
    a_count a <> 0 ->
    (algorithm_name o (a_algo a) = "unknown"%string
     /\ exists m : string,
          blocking_message o = Some m
          /\ blocking_form sizeofT cuda_status o a comm w
             = (Thrown (al_exception m), w))
    \/ ((algorithm_name o (a_algo a) = "automatic"%string
         \/ (o = Op_Allreduce
             /\ algorithm_name o (a_algo a) = "host-transfer"%string))
        /\ blocking_form sizeofT cuda_status o a comm w
           = do_form sizeofT cuda_status o a comm (get_stream comm) w
        /\ nonblocking_form sizeofT cuda_status o a comm w
           = nonblocking_issue sizeofT cuda_status o a comm w).
Proof.
  intros o a comm w Ho C.
  assert (Cz : (a_count a =? 0) = false) by (apply Z.eqb_neq; exact C).
  destruct (algo_recognized o (a_algo a)) eqn:R.
  - right. split.
    + destruct o; try discriminate Ho;
        cbn [algorithm_name algo_recognized] in *;
        unfold algorithm_name_allreduce, algorithm_name_collective;
        repeat match goal with
               | |- context [?x =? ?y] => destruct (x =? y)
               end;
        cbn [orb] in R;
        first [ discriminate R
              | left; reflexivity
              | right; split; reflexivity ].
    + split.
      * rewrite blocking_form_cases, Ho, Cz, R. reflexivity.
      * apply nonblocking_form_cases; [intros _; exact C | exact R].
  - left. split.
    + destruct o; try discriminate Ho;
        cbn [algorithm_name algo_recognized] in *;
        unfold algorithm_name_allreduce, algorithm_name_collective;
        repeat match goal with
               | |- context [?x =? ?y] => destruct (x =? y)
               end;
        cbn [orb] in R;
        first [ discriminate R | reflexivity ].
    + destruct o; try discriminate Ho;
        (eexists; split; [reflexivity|]);
        cbn [blocking_form];
        unfold Allreduce, Allgather, Alltoall, Bcast, Gather, Reduce,
          Reduce_scatter, Scatter;
        cbn [algo_recognized] in R; rewrite Cz, R; reflexivity.
Qed.

End AlgorithmNames.

(** [algorithm_name_agrees_with_dispatch] at an allreduce with the
    host-transfer algorithm. *)
Lemma algorithm_name_agrees_with_dispatch_witness :
  (algorithm_name Op_Allreduce (a_algo args_host_transfer)
   = "unknown"%string
   /\ exists m : string,
        blocking_message Op_Allreduce = Some m
        /\ blocking_form 4 always_success Op_Allreduce args_host_transfer
                         comm0 world0
           = (Thrown (al_exception m), world0))
  \/ ((algorithm_name Op_Allreduce (a_algo args_host_transfer)
       = "automatic"%string
       \/ (Op_Allreduce = Op_Allreduce
           /\ algorithm_name Op_Allreduce (a_algo args_host_transfer)
              = "host-transfer"%string))
      /\ blocking_form 4 always_success Op_Allreduce args_host_transfer
                       comm0 world0
         = do_form 4 always_success Op_Allreduce args_host_transfer comm0
                   (get_stream comm0) world0
      /\ nonblocking_form 4 always_success Op_Allreduce args_host_transfer
                          comm0 world0
         = nonblocking_issue 4 always_success Op_Allreduce
                             args_host_transfer comm0 world0).
Proof.
  apply (algorithm_name_agrees_with_dispatch 4 always_success Op_Allreduce
           args_host_transfer comm0 world0).
  - reflexivity.
  - intros H. vm_compute in H. discriminate H.
Defined.

Section FacadeComposition.
Variable sizeofT : Z.
Variable cuda_status : list Call -> Call -> cudaError_t.

Lemma construct_returns (o : Operation) (a : CallArgs) (comm : comm_type)
    (s : cudaStream_t) (w : World) :
  accepts_copies cuda_status ->
  exists st w', construct sizeofT cuda_status o a comm s w
                = (Returned st, w').
Proof.
  intros A.
  assert (S : forall cls r sb rb sc rc,
             exists x w',
               staged_ctor sizeofT cuda_status cls r sb rb sc rc comm s w
               = (Returned x, w')).
  { intros. unfold staged_ctor.
    rewrite bind_run. unfold base_ctor at 1. cbv iota beta.
    rewrite bind_run. unfold mempool_allocate at 1. cbv iota beta.
    rewrite bind_run, AL_CHECK_CUDA_run; rewrite A by reflexivity.
    cbn [Z.eqb cudaSuccess]. cbv iota beta.
    unfold member_call, modify. rewrite !bind_run. cbv iota beta.
    match goal with
    | |- context [signals_at_end ?b] => destruct (signals_at_end b)
    end.
    - rewrite bind_run, AL_CHECK_CUDA_run; rewrite A by reflexivity.
      cbn [Z.eqb cudaSuccess]. eexists; eexists; reflexivity.
    - eexists; eexists; reflexivity. }
  assert (G : exists g w',
             GatherAlState_ctor sizeofT cuda_status (a_sendbuf a)
               (a_recvbuf a) (a_count a) (a_root a) comm s w
             = (Returned g, w')).
  { unfold GatherAlState_ctor.
    rewrite bind_run. unfold base_ctor at 1. cbv iota beta.
    rewrite bind_run. unfold mempool_allocate at 1. cbv iota beta.
    cbn [is_root]. destruct (rank comm =? a_root a).
    - rewrite bind_run, AL_CHECK_CUDA_run; rewrite A by reflexivity.
      cbn [Z.eqb cudaSuccess]. cbv iota beta.
      unfold member_call, modify. rewrite !bind_run. cbv iota beta.
      rewrite AL_CHECK_CUDA_run; rewrite A by reflexivity.
      cbn [Z.eqb cudaSuccess]. eexists; eexists; reflexivity.
    - rewrite bind_run, AL_CHECK_CUDA_run; rewrite A by reflexivity.
      cbn [Z.eqb cudaSuccess]. cbv iota beta.
      unfold member_call, modify. rewrite !bind_run. cbv iota beta.
      eexists; eexists; reflexivity. }
  destruct o; unfold construct; rewrite bind_run;
    first [ destruct G as (g & w' & ->)
          | match goal with
            | |- context [staged_ctor _ _ ?cls ?r ?sb ?rb ?sc ?rc _ _ _] =>
              destruct (S cls r sb rb sc rc) as (x & w' & ->)
            end ];
    eexists; eexists; reflexivity.
Qed.

Lemma do_form_returns (o : Operation) (a : CallArgs) (comm : comm_type)
    (s : cudaStream_t) (w : World) :
  accepts_copies cuda_status ->
  exists w', do_form sizeofT cuda_status o a comm s w = (Returned tt, w').
Proof.
  intros A. unfold do_form. rewrite bind_run.
  destruct (construct_returns o a comm s w A) as (st & w' & ->).
  rewrite bind_run. unfold new_state at 1. cbv iota beta.
  eexists. reflexivity.
Qed.

(** X6: a non-blocking operation can throw with its state already in
    flight.  When the runtime accepts the stream synchronisation and the
    copies of the constructor but refuses the record of the completion
    event on the internal stream, the operation throws that failure after
    its state has been put on the heap and into the progress queue, and the
    request variable is as it was: the caller holds no request for the
    enqueued state. *)
Theorem nonblocking_can_throw_after_enqueue :
  forall (o : Operation) (a : CallArgs) (comm : comm_type) (w : World),
    let s := stream_at w (cur_stream w mod num_internal_streams) in
    let c1 := cudaEventRecord (sync_event w) (get_stream comm) in
    let c2 := cudaStreamWaitEvent s (sync_event w) 0 in
    (is_collective o = true -> a_count a <> 0) ->
    algo_recognized o (a_algo a) = true ->
    accepts_copies cuda_status ->
    cuda_status (trace w) c1 = cudaSuccess ->
    cuda_status (trace w ++ [c1]) c2 = cudaSuccess ->
    (forall h e, h <> trace w ->
                 cuda_status h (cudaEventRecord e s) <> cudaSuccess) ->
    exists (st : AlState) (ev : cudaEvent_t) (status : cudaError_t)
           (w' : World),
      nonblocking_form sizeofT cuda_status o a comm w
      = (Thrown (cuda_failure (cudaEventRecord ev s) status), w')
      /\ status <> cudaSuccess
      /\ state_heap w' = state_heap w ++ [st]
      /\ progress_queue w' = progress_queue w ++ [st]
      /\ class_of st = state_class o
      /\ req w' = req w.
Proof.
  intros o a comm w s c1 c2 C R A S1 S2 Ref.
  rewrite (nonblocking_form_cases sizeofT cuda_status o a comm w C R).
  unfold nonblocking_issue.
  rewrite bind_run. unfold get_internal_stream at 1. cbv iota beta.
  fold s.
  rewrite bind_run, sync_run. cbv zeta. world_simpl.
  fold c1 c2. rewrite S1, S2. cbn [Z.eqb cudaSuccess].
  set (w1 := set_trace _ _).
  rewrite bind_run.
  destruct (do_form_effect sizeofT cuda_status o a comm s w1)
    as (r & w2 & E & Eff & _).
  destruct (do_form_returns o a comm s w1 A) as (w2' & E').
  rewrite E in E'. injection E' as -> <-. rewrite E.
  destruct Eff as (F1 & F2 & F3 & F4 & F5 & (calls & Ht & Hc) & Hr).
  destruct Hr as (st & Hh & Hq & Hcl & Hs).
  destruct (setup_completion_event_run cuda_status s comm w2)
    as (w3 & _ & G1 & G2 & G3 & G4 & G5 & G6 & G).
  rewrite G.
  assert (N : cuda_status (trace w2)
                (cudaEventRecord (next_cuda_event w2) s) <> cudaSuccess).
  { apply Ref. rewrite Ht. subst w1. world_simpl.
    rewrite <- app_assoc. intros X.
    rewrite <- (app_nil_r (trace w)) in X at 2.
    apply app_inv_head in X. discriminate X. }
  apply Z.eqb_neq in N. rewrite N.
  exists st, (next_cuda_event w2),
    (cuda_status (trace w2) (cudaEventRecord (next_cuda_event w2) s)).
  eexists. split; [reflexivity|]. world_simpl.
  split; [apply Z.eqb_neq; exact N|].
  subst w1. world_simpl in Hh. world_simpl in Hq. world_simpl in F5.
  rewrite G2, G3, G4, Hh, Hq.
  repeat (split; [first [reflexivity | assumption]|]). exact F5.
Qed.

(** X7: the blocking send, receive and send-receive have no count test
    either: for every count, zero included, the runtime accepting the
    calls, each returns with one new state of its class, built on the
    communicator's stream, on the heap and in the progress queue; no
    request is involved. *)
Theorem blocking_point_to_point_always_enqueues :
  forall (sendbuf recvbuf : ptr) (count recv_count dest src : Z)
         (comm : comm_type) (w : World),
    accepts_all cuda_status ->
    (exists (st : AlState) (w' : World),
        Send sizeofT cuda_status sendbuf count dest comm w
        = (Returned tt, w')
        /\ state_heap w' = state_heap w ++ [st]
        /\ progress_queue w' = progress_queue w ++ [st]
        /\ class_of st = SendAlState
        /\ base_stream (base_of st) = get_stream comm
        /\ req w' = req w)
    /\ (exists (st : AlState) (w' : World),
          Recv sizeofT cuda_status recvbuf count src comm w
          = (Returned tt, w')
          /\ state_heap w' = state_heap w ++ [st]
          /\ progress_queue w' = progress_queue w ++ [st]
          /\ class_of st = RecvAlState
          /\ base_stream (base_of st) = get_stream comm
          /\ req w' = req w)
    /\ (exists (st : AlState) (w' : World),
          SendRecv sizeofT cuda_status sendbuf count dest recvbuf
                   recv_count src comm w
          = (Returned tt, w')
          /\ state_heap w' = state_heap w ++ [st]
          /\ progress_queue w' = progress_queue w ++ [st]
          /\ class_of st = SendRecvAlState
          /\ base_stream (base_of st) = get_stream comm
          /\ req w' = req w).
Proof.
  intros sendbuf recvbuf count recv_count dest src comm w A.
  pose (a := {| a_sendbuf := sendbuf; a_recvbuf := recvbuf;
                a_count := count; a_recv_count := recv_count;
                a_op := 0; a_root := dest; a_src := src; a_algo := 0 |}).
  assert (P : forall o, is_collective o = false ->
              exists (st : AlState) (w' : World),
                blocking_form sizeofT cuda_status o a comm w
                = (Returned tt, w')
                /\ state_heap w' = state_heap w ++ [st]
                /\ progress_queue w' = progress_queue w ++ [st]
                /\ class_of st = state_class o
                /\ base_stream (base_of st) = get_stream comm
                /\ req w' = req w).
  { intros o Ho.
    destruct (blocking_form_issues sizeofT cuda_status o a comm w A)
      as (st & calls & w' & E & _ & _ & Hh & Hq & Hc & Hs & Hr & _).
    - rewrite Ho. discriminate.
    - destruct o; try discriminate Ho; reflexivity.
    - exists st, w'. repeat (split; [assumption|]). assumption. }
  split; [exact (P Op_Send eq_refl)|].
  split; [exact (P Op_Recv eq_refl) | exact (P Op_SendRecv eq_refl)].
Qed.

(** X8: the two stream dependencies of a non-blocking operation that is
    then waited for.  The operation being issued and [Wait] called on its
    request, the calls are, in order: the sync event recorded on the
    communicator's stream; the internal stream made to wait for it; the
    calls of the constructor, all for the internal stream; an event
    recorded on the internal stream; and, by [Wait], the communicator's
    stream made to wait for that same event.  [Test] in place of [Wait]
    queries that same event. *)
Theorem nonblocking_then_Wait_orders_both_ways :
  forall (o : Operation) (a : CallArgs) (comm : comm_type) (w : World),
    accepts_all cuda_status ->
    (is_collective o = true -> a_count a <> 0) ->
    algo_recognized o (a_algo a) = true ->
    let s := stream_at w (cur_stream w mod num_internal_streams) in
    exists (ev : cudaEvent_t) (calls : list Call) (w1 w2 : World),
      nonblocking_form sizeofT cuda_status o a comm w = (Returned tt, w1)
      /\ Wait cuda_status w1 = (Returned tt, w2)
      /\ issued w w2
         = [cudaEventRecord (sync_event w) (get_stream comm);
            cudaStreamWaitEvent s (sync_event w) 0]
           ++ calls
           ++ [cudaEventRecord ev s;
               cudaStreamWaitEvent (get_stream comm) ev 0]
      /\ forallb (ctor_call_on s) calls = true
      /\ issued w1 (snd (Test cuda_status w1)) = [cudaEventQuery ev].
Proof.
  intros o a comm w A C R s.
  destruct (nonblocking_form_issues sizeofT cuda_status o a comm w A C R)
    as (st & ev & calls & w1 & E & Ht & Hc & _ & _ & _ & _ & Hr & _).
  fold s in Ht, Hc.
  exists ev, calls, w1. eexists.
  split; [exact E|].
  unfold Wait. rewrite bind_run. unfold gets. cbv iota beta.
  rewrite Hr, AL_CHECK_CUDA_run, A. cbn [Z.eqb cudaSuccess op_event orig_stream].
  split; [reflexivity|]. split.
  { apply issued_app. world_simpl. rewrite Ht, <- !app_assoc.
    reflexivity. }
  split; [exact Hc|].
  rewrite (Test_some cuda_status w1 _ Hr). cbv zeta. rewrite A.
  cbn [Z.eqb cudaSuccess snd op_event]. apply issued_app. reflexivity.
Qed.

(** X9: two non-blocking operations issued one after the other work on
    two successive internal streams: the state of the second is built on
    the stream at the index following that of the first, and the request
    variable, if the same for both, ends holding the stream of the second
    communicator. *)
Theorem successive_nonblocking_use_successive_streams :
  forall (o1 o2 : Operation) (a1 a2 : CallArgs) (comm1 comm2 : comm_type)
         (w : World),
    accepts_all cuda_status ->
    (is_collective o1 = true -> a_count a1 <> 0) ->
    algo_recognized o1 (a_algo a1) = true ->
    (is_collective o2 = true -> a_count a2 <> 0) ->
    algo_recognized o2 (a_algo a2) = true ->
    exists (st1 st2 : AlState) (ev2 : cudaEvent_t) (w1 w2 : World),
      nonblocking_form sizeofT cuda_status o1 a1 comm1 w = (Returned tt, w1)
      /\ nonblocking_form sizeofT cuda_status o2 a2 comm2 w1
         = (Returned tt, w2)
      /\ progress_queue w2 = progress_queue w ++ [st1; st2]
      /\ base_stream (base_of st1)
         = stream_at w (cur_stream w mod num_internal_streams)
      /\ base_stream (base_of st2)
         = stream_at w (size_t_succ (cur_stream w)
                        mod num_internal_streams)
      /\ req w2 = Some {| op_event := ev2;
                          orig_stream := get_stream comm2 |}.
Proof.
  intros o1 o2 a1 a2 comm1 comm2 w A C1 R1 C2 R2.
  destruct (nonblocking_form_issues sizeofT cuda_status o1 a1 comm1 w
              A C1 R1)
    as (st1 & ev1 & calls1 & w1 & E1 & _ & _ & _ & Hq1 & _ & Hs1 & _
        & Hc1 & Hp1).
  destruct (nonblocking_form_issues sizeofT cuda_status o2 a2 comm2 w1
              A C2 R2)
    as (st2 & ev2 & calls2 & w2 & E2 & _ & _ & _ & Hq2 & _ & Hs2 & Hr2 & _).
  exists st1, st2, ev2, w1, w2.
  split; [exact E1|]. split; [exact E2|].
  split; [rewrite Hq2, Hq1, <- app_assoc; reflexivity|].
  split; [exact Hs1|].
  split; [|exact Hr2].
  rewrite Hs2. unfold stream_at. rewrite Hc1, Hp1. reflexivity.
Qed.

End FacadeComposition.

(** [nonblocking_can_throw_after_enqueue] at a gather, the runtime
    refusing the records on the first internal stream. *)
Lemma nonblocking_can_throw_after_enqueue_witness :
  exists (st : AlState) (ev : cudaEvent_t) (status : cudaError_t)
         (w' : World),
    nonblocking_form 4 refuses_records_on_10 Op_Gather args0 comm0 world0
    = (Thrown (cuda_failure (cudaEventRecord ev (Stream 10)) status), w')
    /\ status <> cudaSuccess
    /\ state_heap w' = state_heap world0 ++ [st]
    /\ progress_queue w' = progress_queue world0 ++ [st]
    /\ class_of st = state_class Op_Gather
    /\ req w' = req world0.
Proof.
  apply (nonblocking_can_throw_after_enqueue 4 refuses_records_on_10
           Op_Gather args0 comm0 world0).
  - intros _ H. vm_compute in H. discriminate H.
  - reflexivity.
  - intros h c H. destruct c; try discriminate H. reflexivity.
  - reflexivity.
  - reflexivity.
  - intros h e _ H. vm_compute in H. discriminate H.
Defined.

(** [blocking_point_to_point_always_enqueues] at count zero. *)
Lemma blocking_point_to_point_always_enqueues_witness :
  (exists (st : AlState) (w' : World),
      Send 4 always_success 1000 0 1 comm0 world0 = (Returned tt, w')
      /\ state_heap w' = state_heap world0 ++ [st]
      /\ progress_queue w' = progress_queue world0 ++ [st]
      /\ class_of st = SendAlState
      /\ base_stream (base_of st) = get_stream comm0
      /\ req w' = req world0)
  /\ (exists (st : AlState) (w' : World),
        Recv 4 always_success 2000 0 1 comm0 world0 = (Returned tt, w')
        /\ state_heap w' = state_heap world0 ++ [st]
        /\ progress_queue w' = progress_queue world0 ++ [st]
        /\ class_of st = RecvAlState
        /\ base_stream (base_of st) = get_stream comm0
        /\ req w' = req world0)
  /\ (exists (st : AlState) (w' : World),
        SendRecv 4 always_success 1000 0 1 2000 0 1 comm0 world0
        = (Returned tt, w')
        /\ state_heap w' = state_heap world0 ++ [st]
        /\ progress_queue w' = progress_queue world0 ++ [st]
        /\ class_of st = SendRecvAlState
        /\ base_stream (base_of st) = get_stream comm0
        /\ req w' = req world0).
Proof.
  apply (blocking_point_to_point_always_enqueues
           4 always_success 1000 2000 0 0 1 1 comm0 world0).
  intros h c. reflexivity.
Defined.

(** [nonblocking_then_Wait_orders_both_ways] at a gather of three
    elements. *)
Lemma nonblocking_then_Wait_orders_both_ways_witness :
  exists (ev : cudaEvent_t) (calls : list Call) (w1 w2 : World),
    nonblocking_form 4 always_success Op_Gather args0 comm0 world0
    = (Returned tt, w1)
    /\ Wait always_success w1 = (Returned tt, w2)
    /\ issued world0 w2
       = [cudaEventRecord (sync_event world0) (get_stream comm0);
          cudaStreamWaitEvent (Stream 10) (sync_event world0) 0]
         ++ calls
         ++ [cudaEventRecord ev (Stream 10);
             cudaStreamWaitEvent (get_stream comm0) ev 0]
    /\ forallb (ctor_call_on (Stream 10)) calls = true
    /\ issued w1 (snd (Test always_success w1)) = [cudaEventQuery ev].
Proof.
  apply (nonblocking_then_Wait_orders_both_ways 4 always_success
           Op_Gather args0 comm0 world0).
  - intros h c. reflexivity.
  - intros _ H. vm_compute in H. discriminate H.
  - reflexivity.
Defined.

(** [successive_nonblocking_use_successive_streams] at a gather followed
    by a send. *)
Lemma successive_nonblocking_use_successive_streams_witness :
  exists (st1 st2 : AlState) (ev2 : cudaEvent_t) (w1 w2 : World),
    nonblocking_form 4 always_success Op_Gather args0 comm0 world0
    = (Returned tt, w1)
    /\ nonblocking_form 4 always_success Op_Send args0 comm2 w1
       = (Returned tt, w2)
    /\ progress_queue w2 = progress_queue world0 ++ [st1; st2]
    /\ base_stream (base_of st1) = Stream 10
    /\ base_stream (base_of st2) = Stream 11
    /\ req w2 = Some {| op_event := ev2;
                        orig_stream := get_stream comm2 |}.
Proof.
  apply (successive_nonblocking_use_successive_streams 4 always_success
           Op_Gather Op_Send args0 args0 comm0 comm2 world0).
  - intros h c. reflexivity.
  - intros _ H. vm_compute in H. discriminate H.
  - reflexivity.
  - intros H. discriminate H.
  - reflexivity.
Defined.

(** ** More on the pool of internal streams *)

Lemma stream_at_set_cur_stream (n : Z) (w : World) (i : Z) :
  stream_at (set_cur_stream n w) i = stream_at w i.
Proof. reflexivity. Qed.

Lemma get_internal_stream_calls_indices (n : nat) :
  forall w : World,
    0 <= cur_stream w ->
    cur_stream w + Z.of_nat n <= size_t_modulus ->
    fst (get_internal_stream_calls n w)
    = map (fun k => stream_at w ((cur_stream w + Z.of_nat k)
                                 mod num_internal_streams))
          (seq 0 n).
Proof.
  induction n as [|n IH]; intros w H0 Hn; [reflexivity|].
  cbn [get_internal_stream_calls get_internal_stream].
  destruct (get_internal_stream_calls n _) as [l w''] eqn:E.
  cbn [fst seq map]. rewrite Z.add_0_r. f_equal.
  destruct n as [|n'].
  { cbn in E. injection E as <- _. reflexivity. }
  assert (S1 : size_t_succ (cur_stream w) = cur_stream w + 1).
  { unfold size_t_succ, size_t_wrap. apply Z.mod_small. lia. }
  specialize (IH (set_cur_stream (size_t_succ (cur_stream w)) w)).
  rewrite E in IH. cbn [fst cur_stream set_cur_stream] in IH.
  rewrite IH by lia.
  rewrite <- seq_shift, map_map. apply map_ext. intros k.
  rewrite stream_at_set_cur_stream, S1. f_equal. f_equal. lia.
Qed.

(** X10: the results of successive calls of [get_internal_stream], from
    any value of the counter and as long as the counter does not wrap: the
    call number [k] returns the pool entry at index [(c + k) mod 5], [c]
    being the counter before the first call; so any five successive calls
    return the five streams of the pool, each once, in the order of the
    pool taken cyclically. *)
Theorem five_calls_return_the_whole_pool :
  forall (w : World),
    List.length (internal_streams w) = Z.to_nat num_internal_streams ->
    0 <= cur_stream w ->
    (forall n : nat,
        cur_stream w + Z.of_nat n <= size_t_modulus ->
        fst (get_internal_stream_calls n w)
        = map (fun k => stream_at w ((cur_stream w + Z.of_nat k)
                                     mod num_internal_streams))
              (seq 0 n))
    /\ (cur_stream w + 5 <= size_t_modulus ->
        (exists l1 l2,
            internal_streams w = l1 ++ l2
            /\ fst (get_internal_stream_calls 5 w) = l2 ++ l1)
        /\ Permutation (fst (get_internal_stream_calls 5 w))
                       (internal_streams w)).
Proof.
  intros w L H0.
  split; [intros n Hn; apply get_internal_stream_calls_indices; assumption|].
  intros Hn.
  assert (R : exists l1 l2,
             internal_streams w = l1 ++ l2
             /\ fst (get_internal_stream_calls 5 w) = l2 ++ l1).
  { rewrite (get_internal_stream_calls_indices 5 w H0 Hn).
    unfold stream_at, num_internal_streams in *.
    destruct (internal_streams w) as [|p0 [|p1 [|p2 [|p3 [|p4 [|p5 l]]]]]];
      try discriminate L.
    cbn [seq map Z.of_nat].
    assert (I : forall k, (cur_stream w + k) mod 5
                          = (cur_stream w mod 5 + k) mod 5).
    { intros k. rewrite Zplus_mod_idemp_l. reflexivity. }
    rewrite !I.
    pose proof (Z.mod_pos_bound (cur_stream w) 5 ltac:(lia)) as B.
    assert (C : cur_stream w mod 5 = 0 \/ cur_stream w mod 5 = 1
                \/ cur_stream w mod 5 = 2 \/ cur_stream w mod 5 = 3
                \/ cur_stream w mod 5 = 4) by lia.
    destruct C as [C|[C|[C|[C|C]]]]; rewrite C; cbn.
    - exists [], [p0; p1; p2; p3; p4]. split; reflexivity.
    - exists [p0], [p1; p2; p3; p4]. split; reflexivity.
    - exists [p0; p1], [p2; p3; p4]. split; reflexivity.
    - exists [p0; p1; p2], [p3; p4]. split; reflexivity.
    - exists [p0; p1; p2; p3], [p4]. split; reflexivity. }
  split; [exact R|].
  destruct R as (l1 & l2 & -> & ->). apply Permutation_app_comm.
Qed.

(** [five_calls_return_the_whole_pool] on the example pool with the
    counter at 7. *)
Lemma five_calls_return_the_whole_pool_witness :
  (forall n : nat,
      cur_stream (set_cur_stream 7 world0) + Z.of_nat n <= size_t_modulus ->
      fst (get_internal_stream_calls n (set_cur_stream 7 world0))
      = map (fun k => stream_at (set_cur_stream 7 world0)
                        ((cur_stream (set_cur_stream 7 world0)
                          + Z.of_nat k) mod num_internal_streams))
            (seq 0 n))
  /\ (cur_stream (set_cur_stream 7 world0) + 5 <= size_t_modulus ->
      (exists l1 l2,
          internal_streams (set_cur_stream 7 world0) = l1 ++ l2
          /\ fst (get_internal_stream_calls 5 (set_cur_stream 7 world0))
             = l2 ++ l1)
      /\ Permutation
           (fst (get_internal_stream_calls 5 (set_cur_stream 7 world0)))
           (internal_streams (set_cur_stream 7 world0))).
Proof.
  apply (five_calls_return_the_whole_pool (set_cur_stream 7 world0)).
  - reflexivity.
  - cbn. lia.
Defined.

(** Five calls with the counter at 7: the pool from its third stream on,
    then its first two. *)
Example five_calls_from_seven :
  fst (get_internal_stream_calls 5 (set_cur_stream 7 world0))
  = [Stream 12; Stream 13; Stream 14; Stream 10; Stream 11].
Proof. reflexivity. Qed.

(** X11: the rotation breaks where the [size_t] counter wraps.  For
    every number [n] of earlier calls, the counter starting at 0, the next
    call returns the pool entry at index [(n mod 2^64) mod 5]; as 2^64 is
    not a multiple of 5, the call after 2^64 - 1 earlier ones and the call
    after it both return the entry at index 0. *)
Theorem get_internal_stream_repeats_at_wrap :
  forall (w : World),
    cur_stream w = 0 ->
    (forall n : nat,
        fst (get_internal_stream (snd (get_internal_stream_calls n w)))
        = Returned (stream_at w ((Z.of_nat n mod size_t_modulus)
                                 mod num_internal_streams)))
    /\ fst (get_internal_stream
              (snd (get_internal_stream_calls
                      (Z.to_nat (size_t_modulus - 1)) w)))
       = Returned (stream_at w 0)
    /\ fst (get_internal_stream
              (snd (get_internal_stream_calls
                      (S (Z.to_nat (size_t_modulus - 1))) w)))
       = Returned (stream_at w 0).
Proof.
  intros w C0.
  split; [intros n; apply get_internal_stream_nth_wrapping; exact C0|].
  split.
  - rewrite (get_internal_stream_nth_wrapping w _ C0).
    rewrite Z2Nat.id by (unfold size_t_modulus; lia).
    reflexivity.
  - rewrite (get_internal_stream_nth_wrapping w _ C0).
    rewrite Nat2Z.inj_succ, Z2Nat.id by (unfold size_t_modulus; lia).
    reflexivity.
Qed.

(** [get_internal_stream_repeats_at_wrap] on the example pool. *)
Lemma get_internal_stream_repeats_at_wrap_witness :
  (forall n : nat,
      fst (get_internal_stream (snd (get_internal_stream_calls n world0)))
      = Returned (stream_at world0 ((Z.of_nat n mod size_t_modulus)
                                    mod num_internal_streams)))
  /\ fst (get_internal_stream
            (snd (get_internal_stream_calls
                    (Z.to_nat (size_t_modulus - 1)) world0)))
     = Returned (stream_at world0 0)
  /\ fst (get_internal_stream
            (snd (get_internal_stream_calls
                    (S (Z.to_nat (size_t_modulus - 1))) world0)))
     = Returned (stream_at world0 0).
Proof.
  apply (get_internal_stream_repeats_at_wrap world0). reflexivity.
Defined.

(** ** The memory a gather touches *)

Section GatherMemory.

Variable sizeofT : Z.
Variable cuda_status : list Call -> Call -> cudaError_t.

(** The gather constructor in full, the runtime accepting its copies. *)
Lemma GatherAlState_ctor_world (sendbuf recvbuf : ptr) (count root : Z)
    (comm : comm_type) (stream : cudaStream_t) (w : World) :
  accepts_all cuda_status ->
  exists g w',
    GatherAlState_ctor sizeofT cuda_status sendbuf recvbuf count root
                       comm stream w = (Returned g, w')
    /\ g_host_mem g = pinned_brk w
    /\ g_count g = count /\ g_root g = root /\ g_comm g = get_comm comm
    /\ is_root (g_base g) = (rank comm =? root)
    /\ pinned_brk w'
       = pinned_brk w
         + size_t_mul sizeofT (if rank comm =? root
                               then size_t_mul (size comm) count
                               else count)
    /\ state_heap w' = state_heap w
    /\ progress_queue w' = progress_queue w.
Proof.
  intros A. unfold GatherAlState_ctor.
  rewrite bind_run. unfold base_ctor at 1. cbv iota beta.
  rewrite bind_run. unfold mempool_allocate at 1. cbv iota beta.
  cbn [is_root].
  destruct (rank comm =? root).
  - rewrite bind_run, AL_CHECK_CUDA_run, A. cbn [Z.eqb cudaSuccess].
    cbv iota beta.
    unfold member_call, modify. rewrite !bind_run. cbv iota beta.
    rewrite AL_CHECK_CUDA_run, A. cbn [Z.eqb cudaSuccess].
    eexists; eexists. split; [reflexivity|]. repeat split.
  - rewrite bind_run, AL_CHECK_CUDA_run, A. cbn [Z.eqb cudaSuccess].
    cbv iota beta.
    unfold member_call, modify. rewrite !bind_run. cbv iota beta.
    eexists; eexists. split; [reflexivity|]. repeat split.
Qed.

(** X12: the gather state stays inside its staging buffer.  At any rank
    of the communicator (the count one MPI can take, the buffer of the
    root within the address space), the constructor takes from the pinned
    pool [size * count] elements at the root and [count] elements
    elsewhere, and every range of host memory that the calls of the
    constructor and of [start_mpi_op] read or write lies inside that
    allocation. *)
Theorem gather_stays_inside_its_staging_buffer :
  forall (sendbuf recvbuf : ptr) (count root : Z) (comm : comm_type)
         (stream : cudaStream_t) (w : World),
    accepts_all cuda_status ->
    0 <= rank comm < size comm ->
    0 < sizeofT ->
    0 <= count < 2 ^ 31 ->
    sizeofT * (size comm * count) < size_t_modulus ->
    exists (g : GatherState) (w1 w2 : World),
      GatherAlState_ctor sizeofT cuda_status sendbuf recvbuf count root
                         comm stream w = (Returned g, w1)
      /\ GatherAlState_start_mpi_op g w1 = (Returned tt, w2)
      /\ g_host_mem g = pinned_brk w
      /\ pinned_brk w1
         = pinned_brk w
           + sizeofT * (if rank comm =? root then size comm * count
                        else count)
      /\ Forall (fun c =>
                   Forall (within (pinned_brk w) (pinned_brk w1))
                          (host_accesses sizeofT (rank comm) (size comm) c))
                (issued w w2).
Proof.
  intros sendbuf recvbuf count root comm stream w A Hrank Hs Hc Hfit.
  assert (B1 : 0 <= rank comm * count <= size comm * count) by nia.
  assert (B2 : size comm * count <= sizeofT * (size comm * count)) by nia.
  assert (B3 : 0 <= sizeofT * count <= sizeofT * (size comm * count))
    by nia.
  assert (W0 : size_t_mul (size comm) count = size comm * count).
  { unfold size_t_mul, size_t_wrap. apply Z.mod_small. lia. }
  assert (W1 : size_t_mul (rank comm) count = rank comm * count).
  { unfold size_t_mul, size_t_wrap. apply Z.mod_small. lia. }
  assert (W2 : size_t_mul sizeofT count = sizeofT * count).
  { unfold size_t_mul, size_t_wrap. apply Z.mod_small. lia. }
  assert (W3 : int_of_size_t count = count).
  { unfold int_of_size_t. rewrite Z.mod_small by lia. lia. }
  assert (W4 : size_t_mul sizeofT (size comm * count)
               = sizeofT * (size comm * count)).
  { unfold size_t_mul, size_t_wrap. apply Z.mod_small. nia. }
  assert (W5 : size_t_mul (sizeofT * count) (size comm)
               = sizeofT * (size comm * count)).
  { unfold size_t_mul, size_t_wrap.
    replace (sizeofT * count * size comm)
      with (sizeofT * (size comm * count)) by lia.
    apply Z.mod_small. nia. }
  destruct (GatherAlState_ctor_accepted sizeofT cuda_status sendbuf recvbuf
              count root comm stream w A) as (w1 & E & T).
  destruct (GatherAlState_ctor_world sendbuf recvbuf count root comm
              stream w A)
    as (g & w1' & E' & Hm & Hcnt & Hrt & Hcm & Hir & Hb & _).
  rewrite E in E'. injection E' as <- <-.
  cbv zeta in T. unfold ptr_add in T.
  unfold GatherAlState_start_mpi_op, member_call, modify.
  destruct (rank comm =? root) eqn:R.
  - rewrite W0, W4 in Hb.
    eexists; exists w1; eexists. split; [exact E|].
    cbn [g_base is_root g_count g_host_mem g_root g_comm].
    split; [reflexivity|]. split; [reflexivity|].
    split; [exact Hb|].
    erewrite issued_app
      by (world_simpl; rewrite T, <- app_assoc; reflexivity).
    rewrite Hb, W1, W2, W3, W5. cbn [app andb].
    repeat constructor; cbn [host_accesses fst snd app];
      try rewrite Z.eqb_refl; try rewrite R; cbn [app];
      repeat constructor; unfold within; cbn [fst snd]; try nia.
  - rewrite W2 in Hb.
    eexists; exists w1; eexists. split; [exact E|].
    cbn [g_base is_root g_count g_host_mem g_root g_comm].
    split; [reflexivity|]. split; [reflexivity|].
    split; [exact Hb|].
    erewrite issued_app
      by (world_simpl; rewrite T, <- app_assoc; reflexivity).
    rewrite Hb, W2, W3. cbn [app andb].
    repeat constructor; cbn [host_accesses fst snd app];
      try rewrite R; cbn [app];
      repeat constructor; unfold within; cbn [fst snd]; try nia.
Qed.


(** The gather constructor away from the root, whatever the runtime
    answers. *)
Lemma GatherAlState_ctor_non_root (sendbuf recvbuf : ptr) (count root : Z)
    (comm : comm_type) (stream : cudaStream_t) (w : World) :
  (rank comm =? root) = false ->
  let c1 := cudaMemcpyAsync (pinned_brk w) sendbuf
              (size_t_mul sizeofT count) cudaMemcpyDeviceToHost stream in
  exists o w',
    GatherAlState_ctor sizeofT cuda_status sendbuf recvbuf count root
                       comm stream w = (o, w')
    /\ ((exists g, o = Returned g
                   /\ is_root (g_base g) = false
                   /\ g_host_mem g = pinned_brk w
                   /\ g_count g = count /\ g_root g = root
                   /\ g_comm g = get_comm comm)
        /\ trace w'
           = trace w ++ [c1; event_record (Event (next_handle w)) stream;
                         gpu_wait_wait (Flag (next_handle w + 2)) stream]
        \/ o = Thrown (cuda_failure c1 (cuda_status (trace w) c1))
           /\ trace w' = trace w ++ [c1]).
Proof.
  intros R c1. unfold GatherAlState_ctor.
  rewrite bind_run. unfold base_ctor at 1. cbv iota beta.
  rewrite bind_run. unfold mempool_allocate at 1. cbv iota beta.
  cbn [is_root]. rewrite R.
  rewrite bind_run, AL_CHECK_CUDA_run. world_simpl. fold c1.
  case_status Q.
  - unfold member_call, modify. rewrite !bind_run. cbv iota beta.
    unfold ret. eexists; eexists. split; [reflexivity|]. left.
    split.
    + eexists. split; [reflexivity|]. cbn. repeat split; reflexivity.
    + world_simpl. rewrite <- !app_assoc. reflexivity.
  - eexists; eexists. split; [reflexivity|]. right.
    split; reflexivity.
Qed.

(** X13: a rank that is not the root of a gather writes no device
    memory.  Whatever the runtime answers, its constructor issues no copy
    from host to device; its first call copies from [sendbuf] itself (also
    when the send and receive buffers are the same, in which case the
    contribution is read from the start of the buffer and not from the
    slot of the rank) to the start of the pinned buffer; and
    [start_mpi_op] of the state issues one gather, with the pinned buffer
    as send buffer and not [MPI_IN_PLACE], which stores nothing at this
    rank. *)
Theorem gather_non_root_writes_no_device_memory :
  forall (sendbuf recvbuf : ptr) (count root : Z) (comm : comm_type)
         (stream : cudaStream_t) (w : World),
    rank comm <> root ->
    let r := GatherAlState_ctor sizeofT cuda_status sendbuf recvbuf count
                                root comm stream w in
    flat_map device_writes (issued w (snd r)) = []
    /\ hd_error (issued w (snd r))
       = Some (cudaMemcpyAsync (pinned_brk w) sendbuf
                               (size_t_mul sizeofT count)
                               cudaMemcpyDeviceToHost stream)
    /\ forall g : GatherState,
         fst r = Returned g ->
         issued (snd r) (snd (GatherAlState_start_mpi_op g (snd r)))
         = [MPI_Igather (mpi_ptr (pinned_brk w)) (int_of_size_t count)
                        (pinned_brk w) (int_of_size_t count) root
                        (get_comm comm)]
         /\ host_writes sizeofT (rank comm) (size comm)
              (MPI_Igather (mpi_ptr (pinned_brk w)) (int_of_size_t count)
                           (pinned_brk w) (int_of_size_t count) root
                           (get_comm comm)) = [].
Proof.
  intros sendbuf recvbuf count root comm stream w N r.
  assert (R : (rank comm =? root) = false) by (apply Z.eqb_neq; exact N).
  destruct (GatherAlState_ctor_non_root sendbuf recvbuf count root comm
              stream w R) as (o & w' & E & H).
  subst r. rewrite E. cbn [fst snd].
  destruct H as [[(g & -> & Hr & Hm & Hc & Hrt & Hcm) T] | [-> T]].
  - rewrite (issued_app _ _ _ T).
    split; [reflexivity|]. split; [reflexivity|].
    intros g' H. injection H as <-.
    unfold GatherAlState_start_mpi_op, member_call, modify.
    rewrite Hr, Hm, Hc, Hrt, Hcm. cbn [fst snd].
    split; [apply issued_app; reflexivity|].
    unfold host_writes. rewrite R. reflexivity.
  - rewrite (issued_app _ _ _ T).
    split; [reflexivity|]. split; [reflexivity|].
    intros g H. discriminate H.
Qed.

(** X14: a copy-back the runtime refuses.  At the root, with a count
    other than zero, when the runtime accepts the copy to the host but
    refuses the copy back to the device, the blocking gather throws that
    failure; the record of the start event and the wait on the sync flag
    are on the communicator's stream by then, and no state has been
    created or enqueued. *)
Theorem refused_copy_back_throws_after_the_wait :
  forall (sendbuf recvbuf : ptr) (count root : Z) (comm : comm_type)
         (w : World),
    let s := get_stream comm in
    let c1 :=
      cudaMemcpyAsync
        (ptr_add sizeofT (pinned_brk w) (size_t_mul (rank comm) count))
        (if sendbuf =? recvbuf
         then ptr_add sizeofT sendbuf (size_t_mul (rank comm) count)
         else sendbuf)
        (size_t_mul sizeofT count) cudaMemcpyDeviceToHost s in
    let rec := event_record (Event (next_handle w)) s in
    let wait := gpu_wait_wait (Flag (next_handle w + 2)) s in
    let c2 :=
      cudaMemcpyAsync recvbuf (pinned_brk w)
        (size_t_mul (size_t_mul sizeofT count) (size comm))
        cudaMemcpyHostToDevice s in
    rank comm = root ->
    count <> 0 ->
    cuda_status (trace w) c1 = cudaSuccess ->
    cuda_status (trace w ++ [c1; rec; wait]) c2 <> cudaSuccess ->
    exists w',
      Gather sizeofT cuda_status sendbuf recvbuf count root comm
             HostTransferCollectiveAlgorithm.automatic w
      = (Thrown (cuda_failure c2
                   (cuda_status (trace w ++ [c1; rec; wait]) c2)), w')
      /\ issued w w' = [c1; rec; wait; c2]
      /\ state_heap w' = state_heap w
      /\ progress_queue w' = progress_queue w.
Proof.
  intros sendbuf recvbuf count root comm w s c1 rec wait c2 Hroot C S1 S2.
  assert (R : (rank comm =? root) = true) by (apply Z.eqb_eq; exact Hroot).
  unfold Gather. rewrite (proj2 (Z.eqb_neq count 0) C).
  cbn [Z.eqb HostTransferCollectiveAlgorithm.automatic].
  unfold do_gather. rewrite bind_run.
  unfold GatherAlState_ctor.
  rewrite bind_run. unfold base_ctor at 1. cbv iota beta.
  rewrite bind_run. unfold mempool_allocate at 1. cbv iota beta.
  cbn [is_root]. rewrite R.
  rewrite bind_run, AL_CHECK_CUDA_run. world_simpl.
  fold s. fold c1. rewrite S1. cbn [Z.eqb cudaSuccess]. cbv iota beta.
  unfold member_call, modify. rewrite !bind_run. cbv iota beta.
  rewrite AL_CHECK_CUDA_run. world_simpl.
  fold rec wait c2. rewrite <- !app_assoc. cbn [app].
  apply Z.eqb_neq in S2. rewrite S2.
  eexists. split; [reflexivity|]. world_simpl.
  split; [apply issued_app; reflexivity|].
  split; reflexivity.
Qed.

End GatherMemory.

(** [gather_stays_inside_its_staging_buffer] at rank 2 of 4, the root,
    with three elements of four bytes. *)
Lemma gather_stays_inside_its_staging_buffer_witness :
  exists (g : GatherState) (w1 w2 : World),
    GatherAlState_ctor 4 always_success 1000 2000 3 2 comm2 (Stream 1)
                       world0 = (Returned g, w1)
    /\ GatherAlState_start_mpi_op g w1 = (Returned tt, w2)
    /\ g_host_mem g = pinned_brk world0
    /\ pinned_brk w1
       = pinned_brk world0
         + 4 * (if rank comm2 =? 2 then size comm2 * 3 else 3)
    /\ Forall (fun c =>
                 Forall (within (pinned_brk world0) (pinned_brk w1))
                        (host_accesses 4 (rank comm2) (size comm2) c))
              (issued world0 w2).
Proof.
  apply (gather_stays_inside_its_staging_buffer 4 always_success
           1000 2000 3 2 comm2 (Stream 1) world0).
  - intros h c. reflexivity.
  - cbn [rank size comm2]. lia.
  - lia.
  - lia.
  - cbn [rank size comm2]. unfold size_t_modulus. lia.
Defined.

(** [gather_non_root_writes_no_device_memory] at rank 0 of 4 with root
    2, the send and receive buffers being the same. *)
Lemma gather_non_root_writes_no_device_memory_witness :
  flat_map device_writes
    (issued world0
       (snd (GatherAlState_ctor 4 always_success 2000 2000 3 2 comm0
                                (Stream 1) world0))) = []
  /\ hd_error
       (issued world0
          (snd (GatherAlState_ctor 4 always_success 2000 2000 3 2 comm0
                                   (Stream 1) world0)))
     = Some (cudaMemcpyAsync (pinned_brk world0) 2000 (size_t_mul 4 3)
                             cudaMemcpyDeviceToHost (Stream 1))
  /\ forall g : GatherState,
       fst (GatherAlState_ctor 4 always_success 2000 2000 3 2 comm0
                               (Stream 1) world0) = Returned g ->
       issued (snd (GatherAlState_ctor 4 always_success 2000 2000 3 2
                                       comm0 (Stream 1) world0))
              (snd (GatherAlState_start_mpi_op g
                      (snd (GatherAlState_ctor 4 always_success 2000 2000
                              3 2 comm0 (Stream 1) world0))))
       = [MPI_Igather (mpi_ptr (pinned_brk world0)) (int_of_size_t 3)
                      (pinned_brk world0) (int_of_size_t 3) 2
                      (get_comm comm0)]
       /\ host_writes 4 (rank comm0) (size comm0)
            (MPI_Igather (mpi_ptr (pinned_brk world0)) (int_of_size_t 3)
                         (pinned_brk world0) (int_of_size_t 3) 2
                         (get_comm comm0)) = [].
Proof.
  apply (gather_non_root_writes_no_device_memory 4 always_success
           2000 2000 3 2 comm0 (Stream 1) world0).
  intros H. vm_compute in H. discriminate H.
Defined.

(** [refused_copy_back_throws_after_the_wait] at rank 2 of 4, the
    root. *)
Lemma refused_copy_back_throws_after_the_wait_witness :
  exists w',
    Gather 4 refuses_copy_back 1000 2000 3 2 comm2
           HostTransferCollectiveAlgorithm.automatic world0
    = (Thrown (cuda_failure
                 (cudaMemcpyAsync 2000 4096 48 cudaMemcpyHostToDevice
                                  (Stream 1)) 1), w')
    /\ issued world0 w'
       = [cudaMemcpyAsync 4120 1000 12 cudaMemcpyDeviceToHost (Stream 1);
          event_record (Event 100) (Stream 1);
          gpu_wait_wait (Flag 102) (Stream 1);
          cudaMemcpyAsync 2000 4096 48 cudaMemcpyHostToDevice (Stream 1)]
    /\ state_heap w' = state_heap world0
    /\ progress_queue w' = progress_queue world0.
Proof.
  apply (refused_copy_back_throws_after_the_wait 4 refuses_copy_back
           1000 2000 3 2 comm2 world0).
  - reflexivity.
  - lia.
  - reflexivity.
  - intros H. vm_compute in H. discriminate H.
Defined.

(** ** The life of the internal streams *)

Lemma setup_calls_app (m m' : CudaModule) (l : list SetupCall) :
  setup_trace m' = setup_trace m ++ l -> setup_calls m m' = l.
Proof.
  intros E. unfold setup_calls. rewrite E.
  rewrite skipn_app, skipn_all, Nat.sub_diag. reflexivity.
Qed.

Lemma cm_bind_run {A B} (c : CM A) (k : A -> CM B) (m : CudaModule) :
  cm_bind c k m = match c m with
                  | (Returned a, m') => k a m'
                  | (Thrown e, m') => (Thrown e, m')
                  end.
Proof. reflexivity. Qed.

Lemma array_set_length {A} (i : nat) (x : A) (l : list A) :
  List.length (array_set i x l) = List.length l.
Proof.
  revert i. induction l as [|h t IH]; intros [|j]; cbn; try reflexivity.
  rewrite IH. reflexivity.
Qed.

Lemma array_set_nth {A} (i : nat) (x d : A) (l : list A) :
  (i < List.length l)%nat -> nth i (array_set i x l) d = x.
Proof.
  revert i. induction l as [|h t IH]; intros [|j] H; cbn in *; try lia.
  - reflexivity.
  - apply IH. lia.
Qed.

(** Reduce projections of updated modules and worlds. *)
Ltac module_simpl :=
  cbn [world stream_mem_ops_supported using_external_streams setup_trace
       set_world set_stream_mem_ops_supported set_using_external_streams
       set_setup_trace set_internal_streams
       internal_streams cur_stream event_pool sync_event next_handle
       pinned_brk state_heap progress_queue req trace
       set_cur_stream set_event_pool set_next_handle set_pinned_brk
       set_state_heap set_progress_queue set_req set_trace fst snd].

Section LifecycleRuns.

Variable p : Platform.
Hypothesis accepted : setup_accepts p.

Lemma checked_setup_call_ok (c : SetupCall) (m : CudaModule) :
  checked_setup_call p c m
  = (Returned tt, set_setup_trace (setup_trace m ++ [c]) m).
Proof. unfold checked_setup_call. rewrite accepted. reflexivity. Qed.

Lemma create_stream_ok (i : nat) (call : cudaStream_t -> SetupCall)
    (m : CudaModule) :
  create_stream p i call m
  = (Returned tt,
     set_setup_trace
       (setup_trace m ++ [call (Stream (next_handle (world m)))])
       (set_world
          (set_internal_streams
             (array_set i (Stream (next_handle (world m)))
                        (internal_streams (world m)))
             (set_next_handle (next_handle (world m) + 1) (world m)))
          m)).
Proof. unfold create_stream. cbv zeta. rewrite accepted. reflexivity. Qed.

Lemma init_streams_run (n : nat) :
  forall (i : nat) (m : CudaModule),
    (i + n <= List.length (internal_streams (world m)))%nat ->
    init_streams p i n m
    = (Returned tt,
       set_setup_trace
         (setup_trace m ++ init_calls p i n (next_handle (world m)))
         (set_world
            (set_internal_streams
               (created_pool i n (next_handle (world m))
                             (internal_streams (world m)))
               (set_next_handle (next_handle (world m) + Z.of_nat n)
                                (world m)))
            m)).
Proof.
  induction n as [|n IH]; intros i m L.
  - cbn [init_streams init_calls created_pool Z.of_nat]. unfold cm_ret.
    rewrite app_nil_r, Z.add_0_r.
    destruct m as [w ? ? ?]; destruct w; reflexivity.
  - cbn [init_streams init_calls created_pool].
    rewrite cm_bind_run.
    assert (S1 : exists calls,
               (if AL_USE_PRIORITY_STREAM p
                then cm_bind (checked_setup_call p
                                cudaDeviceGetStreamPriorityRange)
                       (fun _ => create_stream p i
                          (fun s => cudaStreamCreateWithPriority s
                                      cudaStreamDefault
                                      (greatest_priority p)))
                else create_stream p i cudaStreamCreate) m
               = (Returned tt,
                  set_setup_trace (setup_trace m ++ calls)
                    (set_world
                       (set_internal_streams
                          (array_set i (Stream (next_handle (world m)))
                                     (internal_streams (world m)))
                          (set_next_handle (next_handle (world m) + 1)
                                           (world m)))
                       m))
               /\ creation_calls p i (Stream (next_handle (world m)))
                  = calls
                    ++ [name_stream (Stream (next_handle (world m)))
                          ("al_internal_" ++ to_string i)]).
    { unfold creation_calls. destruct (AL_USE_PRIORITY_STREAM p).
      - eexists. split; [|reflexivity].
        rewrite cm_bind_run, checked_setup_call_ok, create_stream_ok.
        module_simpl. rewrite <- app_assoc. reflexivity.
      - eexists. split; [|reflexivity].
        rewrite create_stream_ok. reflexivity. }
    destruct S1 as (calls & -> & ->).
    rewrite cm_bind_run. unfold cm_gets at 1. cbv iota beta.
    rewrite cm_bind_run. unfold setup_call, cm_modify at 1. cbv iota beta.
    unfold internal_stream_at, stream_at. module_simpl.
    rewrite Nat2Z.id, array_set_nth by lia.
    rewrite IH by (module_simpl; rewrite array_set_length; lia).
    module_simpl. rewrite <- !app_assoc. cbn [app].
    replace (next_handle (world m) + 1 + Z.of_nat n)
      with (next_handle (world m) + Z.of_nat (S n)) by lia.
    reflexivity.
Qed.

Lemma destroy_streams_run (n : nat) :
  forall (i : nat) (m : CudaModule),
    destroy_streams p i n m
    = (Returned tt,
       set_setup_trace
         (setup_trace m
          ++ map (fun k => cudaStreamDestroy (internal_stream_at k m))
                 (seq i n))
         m).
Proof.
  induction n as [|n IH]; intros i m.
  - cbn [destroy_streams seq map]. unfold cm_ret. rewrite app_nil_r.
    destruct m; reflexivity.
  - cbn [destroy_streams seq map].
    rewrite cm_bind_run. unfold cm_gets at 1. cbv iota beta.
    rewrite cm_bind_run, checked_setup_call_ok, IH.
    module_simpl. rewrite <- app_assoc. reflexivity.
Qed.

Lemma assign_streams_run (g : nat -> cudaStream_t) (n : nat) :
  forall (i : nat) (m : CudaModule),
    assign_streams g i n m
    = (Returned tt,
       set_world (set_internal_streams
                    (assigned_pool g i n (internal_streams (world m)))
                    (world m)) m).
Proof.
  induction n as [|n IH]; intros i m.
  - cbn [assign_streams assigned_pool]. unfold cm_ret.
    destruct m as [w ? ? ?]; destruct w; reflexivity.
  - cbn [assign_streams assigned_pool].
    rewrite cm_bind_run. unfold cm_modify at 1. cbv iota beta.
    rewrite IH. reflexivity.
Qed.

End LifecycleRuns.

(** Open a module whose array has its five slots. *)
Ltac open_pool m L :=
  let pool := fresh "pool" in
  let E := fresh "Epool" in
  remember (internal_streams (world m)) as pool eqn:E;
  destruct pool as [|? [|? [|? [|? [|? [|? ?]]]]]]; try discriminate L.

Section LifecycleProperties.

Variable p : Platform.

Lemma init_run (m : CudaModule) :
  setup_accepts p ->
  List.length (internal_streams (world m))
  = Z.to_nat num_internal_streams ->
  exists m',
    init p m = (Returned tt, m')
    /\ setup_calls m m'
       = init_calls p 0 5 (next_handle (world m)) ++ init_tail p
    /\ internal_streams (world m')
       = map (fun k => Stream (next_handle (world m) + k)) [0; 1; 2; 3; 4]
    /\ stream_mem_ops_supported m'
       = (if AL_HAS_ROCM p then false
          else negb (can_use_stream_mem_ops p =? 0))
    /\ using_external_streams m' = using_external_streams m
    /\ cur_stream (world m') = cur_stream (world m).
Proof.
  intros A L.
  unfold init, init_tail.
  change (Z.to_nat num_internal_streams) with 5%nat in *.
  rewrite cm_bind_run, (init_streams_run p A 5 0 m) by (rewrite L; lia).
  open_pool m L.
  cbn [created_pool array_set map].
  rewrite Z.add_0_r, <- !Z.add_assoc. cbn [Z.add Pos.add Pos.succ].
  destruct (AL_HAS_ROCM p);
    repeat first [ rewrite cm_bind_run
                 | rewrite (checked_setup_call_ok p A)
                 | progress unfold setup_call, cm_modify
                 | progress cbv iota beta ];
    (eexists; split; [reflexivity|]; module_simpl;
     split;
     [ apply setup_calls_app; module_simpl; rewrite <- ?app_assoc;
       reflexivity
     | repeat split ]).
Qed.

(** The streams the calls of [init] create. *)
Lemma init_calls_created (h : Z) :
  created_streams (init_calls p 0 5 h ++ init_tail p)
  = map (fun k => Stream (h + k)) [0; 1; 2; 3; 4].
Proof.
  unfold init_tail. cbn [init_calls map]. unfold creation_calls.
  rewrite Z.add_0_r, <- !Z.add_assoc. cbn [Z.add Pos.add Pos.succ].
  destruct (AL_HAS_ROCM p), (AL_USE_PRIORITY_STREAM p); reflexivity.
Qed.

Lemma finalize_run (m : CudaModule) :
  using_external_streams m = true \/ setup_accepts p ->
  exists m',
    finalize p m = (Returned tt, m')
    /\ destroyed_streams (setup_calls m m')
       = (if using_external_streams m then []
          else map (fun k => internal_stream_at k m) (seq 0 5))
    /\ setup_calls m m'
       = [sync_pool_clear; event_pool_clear]
         ++ (if using_external_streams m then []
             else map (fun k => cudaStreamDestroy (internal_stream_at k m))
                      (seq 0 5))
    /\ internal_streams (world m') = internal_streams (world m)
    /\ using_external_streams m' = using_external_streams m.
Proof.
  intros H. unfold finalize.
  change (Z.to_nat num_internal_streams) with 5%nat.
  rewrite cm_bind_run. unfold setup_call at 1, cm_modify at 1.
  cbv iota beta.
  rewrite cm_bind_run. unfold setup_call at 1, cm_modify at 1.
  cbv iota beta.
  rewrite cm_bind_run. unfold cm_gets at 1. cbv iota beta.
  module_simpl.
  destruct (using_external_streams m) eqn:E; cbn [negb].
  - unfold cm_ret. eexists; split; [reflexivity|]. module_simpl.
    erewrite setup_calls_app
      by (module_simpl; rewrite <- ?app_assoc; reflexivity).
    rewrite ?E. repeat split.
  - destruct H as [H|A]; [discriminate H|].
    rewrite (destroy_streams_run p A).
    eexists; split; [reflexivity|]. module_simpl.
    erewrite setup_calls_app
      by (module_simpl; rewrite <- ?app_assoc; reflexivity).
    rewrite ?E. repeat split.
Qed.

Lemma replace_run (g : nat -> cudaStream_t) (m : CudaModule) :
  using_external_streams m = true \/ setup_accepts p ->
  List.length (internal_streams (world m))
  = Z.to_nat num_internal_streams ->
  exists m',
    replace_internal_streams p g m = (Returned tt, m')
    /\ internal_streams (world m') = map g [0; 1; 2; 3; 4]%nat
    /\ using_external_streams m' = true
    /\ destroyed_streams (setup_calls m m')
       = (if using_external_streams m then []
          else internal_streams (world m))
    /\ created_streams (setup_calls m m') = []
    /\ cur_stream (world m') = cur_stream (world m).
Proof.
  intros H L. unfold replace_internal_streams.
  change (Z.to_nat num_internal_streams) with 5%nat in *.
  rewrite cm_bind_run. unfold cm_gets at 1. cbv iota beta.
  rewrite cm_bind_run.
  destruct (using_external_streams m) eqn:E; cbn [negb].
  - unfold cm_ret at 1. cbv iota beta.
    rewrite cm_bind_run, assign_streams_run. unfold cm_modify.
    open_pool m L. cbn [assigned_pool array_set map].
    eexists; split; [reflexivity|]. module_simpl.
    unfold setup_calls. module_simpl. rewrite skipn_all, ?E.
    repeat split.
  - destruct H as [H|A]; [discriminate H|].
    rewrite (destroy_streams_run p A).
    rewrite cm_bind_run, assign_streams_run. unfold cm_modify.
    unfold internal_stream_at, stream_at. module_simpl.
    open_pool m L. cbn [assigned_pool array_set map seq].
    eexists; split; [reflexivity|]. module_simpl.
    erewrite setup_calls_app by (module_simpl; reflexivity).
    rewrite ?E. repeat split.
Qed.

(** X15: [init], its checked calls succeeding, fills the array with five
    streams, the ones its five creation calls made, in that order; each is
    created with the greatest priority when [AL_USE_PRIORITY_STREAM] is
    set and without a priority otherwise, and named [al_internal_0] to
    [al_internal_4]; stream memory operations count as supported exactly
    when the build is not for ROCm and the device attribute is not zero;
    the rotation counter is not touched. *)
Theorem init_creates_the_five_streams :
  forall (m : CudaModule),
    setup_accepts p ->
    List.length (internal_streams (world m))
    = Z.to_nat num_internal_streams ->
    exists m',
      init p m = (Returned tt, m')
      /\ List.length (internal_streams (world m')) = 5%nat
      /\ created_streams (setup_calls m m') = internal_streams (world m')
      /\ creation_priorities (setup_calls m m')
         = repeat (if AL_USE_PRIORITY_STREAM p
                   then Some (greatest_priority p) else None) 5
      /\ named_streams (setup_calls m m')
         = combine (internal_streams (world m'))
                   ["al_internal_0"; "al_internal_1"; "al_internal_2";
                    "al_internal_3"; "al_internal_4"]%string
      /\ stream_mem_ops_supported m'
         = (if AL_HAS_ROCM p then false
            else negb (can_use_stream_mem_ops p =? 0))
      /\ using_external_streams m' = using_external_streams m
      /\ cur_stream (world m') = cur_stream (world m).
Proof.
  intros m A L.
  destruct (init_run m A L) as (m' & I & T & P & S & X & C).
  exists m'. split; [exact I|].
  rewrite T, P, init_calls_created.
  split; [reflexivity|]. split; [reflexivity|].
  split.
  { unfold init_tail. cbn [init_calls]. unfold creation_calls.
    destruct (AL_HAS_ROCM p), (AL_USE_PRIORITY_STREAM p); reflexivity. }
  split.
  { unfold init_tail. cbn [init_calls map]. unfold creation_calls.
    rewrite Z.add_0_r, <- !Z.add_assoc. cbn [Z.add Pos.add Pos.succ].
    destruct (AL_HAS_ROCM p), (AL_USE_PRIORITY_STREAM p); reflexivity. }
  split; [exact S|]. split; [exact X | exact C].
Qed.

(** X16: what [init] creates, [finalize] destroys.  The streams being
    the module's own, [finalize] after [init] destroys exactly the five
    streams [init] created, each once and in the order of their creation,
    after it has cleared the two pools; it makes no other call. *)
Theorem finalize_destroys_what_init_created :
  forall (m : CudaModule),
    setup_accepts p ->
    List.length (internal_streams (world m))
    = Z.to_nat num_internal_streams ->
    using_external_streams m = false ->
    exists m1 m2,
      init p m = (Returned tt, m1)
      /\ finalize p m1 = (Returned tt, m2)
      /\ destroyed_streams (setup_calls m1 m2)
         = created_streams (setup_calls m m1)
      /\ List.length (destroyed_streams (setup_calls m1 m2)) = 5%nat
      /\ setup_calls m1 m2
         = [sync_pool_clear; event_pool_clear]
           ++ map cudaStreamDestroy (created_streams (setup_calls m m1)).
Proof.
  intros m A L E.
  destruct (init_run m A L) as (m1 & I & C & P & _ & X & _).
  destruct (finalize_run m1 (or_intror A)) as (m2 & F & D & T & _).
  exists m1, m2. split; [exact I|]. split; [exact F|].
  rewrite X, E in D, T. rewrite D, T, C, init_calls_created.
  unfold internal_stream_at, stream_at. rewrite P.
  repeat split.
Qed.

(** X17: streams supplied from outside are never destroyed.
    [replace_internal_streams] stores the five streams its getter returns
    and destroys the five it replaces exactly when those were the module's
    own; after it, [finalize] destroys no stream, and a second replacement
    destroys none either; no stream is ever created by a replacement. *)
Theorem external_streams_are_never_destroyed :
  forall (g g' : nat -> cudaStream_t) (m : CudaModule),
    setup_accepts p ->
    List.length (internal_streams (world m))
    = Z.to_nat num_internal_streams ->
    exists m1 m2 m3,
      replace_internal_streams p g m = (Returned tt, m1)
      /\ internal_streams (world m1) = map g [0; 1; 2; 3; 4]%nat
      /\ destroyed_streams (setup_calls m m1)
         = (if using_external_streams m then []
            else internal_streams (world m))
      /\ created_streams (setup_calls m m1) = []
      /\ finalize p m1 = (Returned tt, m2)
      /\ destroyed_streams (setup_calls m1 m2) = []
      /\ replace_internal_streams p g' m1 = (Returned tt, m3)
      /\ destroyed_streams (setup_calls m1 m3) = []
      /\ internal_streams (world m3) = map g' [0; 1; 2; 3; 4]%nat.
Proof.
  intros g g' m A L.
  destruct (replace_run g m (or_intror A) L)
    as (m1 & R & P1 & E1 & D1 & C1 & _).
  destruct (finalize_run m1 (or_introl E1)) as (m2 & F & D2 & _ & _).
  destruct (replace_run g' m1 (or_introl E1))
    as (m3 & R' & P3 & _ & D3 & _); [rewrite P1; reflexivity|].
  rewrite E1 in D2, D3.
  exists m1, m2, m3. repeat (split; [assumption|]). assumption.
Qed.

(** X18: a replacement does not restart the rotation: the counter is not
    reset, so the first stream handed out afterwards is the new stream at
    the index the rotation had reached, not the first one the getter
    returned. *)
Theorem replacement_keeps_the_rotation :
  forall (g : nat -> cudaStream_t) (m : CudaModule),
    setup_accepts p ->
    List.length (internal_streams (world m))
    = Z.to_nat num_internal_streams ->
    0 <= cur_stream (world m) ->
    exists m1,
      replace_internal_streams p g m = (Returned tt, m1)
      /\ cur_stream (world m1) = cur_stream (world m)
      /\ fst (on_world get_internal_stream m1)
         = Returned (g (Z.to_nat (cur_stream (world m)
                                  mod num_internal_streams))).
Proof.
  intros g m A L H0.
  destruct (replace_run g m (or_intror A) L)
    as (m1 & R & P1 & _ & _ & _ & C).
  exists m1. split; [exact R|]. split; [exact C|].
  unfold on_world, get_internal_stream, stream_at. cbn [fst].
  rewrite P1, C. unfold num_internal_streams.
  pose proof (Z.mod_pos_bound (cur_stream (world m)) 5 ltac:(lia)) as B.
  assert (X : cur_stream (world m) mod 5 = 0
              \/ cur_stream (world m) mod 5 = 1
              \/ cur_stream (world m) mod 5 = 2
              \/ cur_stream (world m) mod 5 = 3
              \/ cur_stream (world m) mod 5 = 4) by lia.
  destruct X as [X|[X|[X|[X|X]]]]; rewrite X; reflexivity.
Qed.

End LifecycleProperties.

(** [init] on the example platform, call by call. *)
Example init_module0 :
  setup_trace (snd (init platform0 module0))
  = [cudaDeviceGetStreamPriorityRange;
     cudaStreamCreateWithPriority (Stream 100) 0 (-1);
     name_stream (Stream 100) "al_internal_0";
     cudaDeviceGetStreamPriorityRange;
     cudaStreamCreateWithPriority (Stream 101) 0 (-1);
     name_stream (Stream 101) "al_internal_1";
     cudaDeviceGetStreamPriorityRange;
     cudaStreamCreateWithPriority (Stream 102) 0 (-1);
     name_stream (Stream 102) "al_internal_2";
     cudaDeviceGetStreamPriorityRange;
     cudaStreamCreateWithPriority (Stream 103) 0 (-1);
     name_stream (Stream 103) "al_internal_3";
     cudaDeviceGetStreamPriorityRange;
     cudaStreamCreateWithPriority (Stream 104) 0 (-1);
     name_stream (Stream 104) "al_internal_4";
     cuCtxGetDevice; cuDeviceGetAttribute 0;
     sync_pool_preallocate 1024].
Proof. vm_compute. reflexivity. Qed.

(** [init_creates_the_five_streams] on the example platform. *)
Lemma init_creates_the_five_streams_witness :
  exists m',
    init platform0 module0 = (Returned tt, m')
    /\ List.length (internal_streams (world m')) = 5%nat
    /\ created_streams (setup_calls module0 m')
       = internal_streams (world m')
    /\ creation_priorities (setup_calls module0 m')
       = repeat (if AL_USE_PRIORITY_STREAM platform0
                 then Some (greatest_priority platform0) else None) 5
    /\ named_streams (setup_calls module0 m')
       = combine (internal_streams (world m'))
                 ["al_internal_0"; "al_internal_1"; "al_internal_2";
                  "al_internal_3"; "al_internal_4"]%string
    /\ stream_mem_ops_supported m'
       = (if AL_HAS_ROCM platform0 then false
          else negb (can_use_stream_mem_ops platform0 =? 0))
    /\ using_external_streams m' = using_external_streams module0
    /\ cur_stream (world m') = cur_stream (world module0).
Proof.
  apply (init_creates_the_five_streams platform0 module0).
  - intros h c. reflexivity.
  - reflexivity.
Defined.

(** [finalize_destroys_what_init_created] on the example platform. *)
Lemma finalize_destroys_what_init_created_witness :
  exists m1 m2,
    init platform0 module0 = (Returned tt, m1)
    /\ finalize platform0 m1 = (Returned tt, m2)
    /\ destroyed_streams (setup_calls m1 m2)
       = created_streams (setup_calls module0 m1)
    /\ List.length (destroyed_streams (setup_calls m1 m2)) = 5%nat
    /\ setup_calls m1 m2
       = [sync_pool_clear; event_pool_clear]
         ++ map cudaStreamDestroy
                (created_streams (setup_calls module0 m1)).
Proof.
  apply (finalize_destroys_what_init_created platform0 module0).
  - intros h c. reflexivity.
  - reflexivity.
  - reflexivity.
Defined.

(** [external_streams_are_never_destroyed], the streams 20 to 24 put in
    place of the module's own, then the streams 30 to 34. *)
Lemma external_streams_are_never_destroyed_witness :
  exists m1 m2 m3,
    replace_internal_streams platform0
      (fun k => Stream (20 + Z.of_nat k)) module0 = (Returned tt, m1)
    /\ internal_streams (world m1)
       = map (fun k => Stream (20 + Z.of_nat k)) [0; 1; 2; 3; 4]%nat
    /\ destroyed_streams (setup_calls module0 m1)
       = (if using_external_streams module0 then []
          else internal_streams (world module0))
    /\ created_streams (setup_calls module0 m1) = []
    /\ finalize platform0 m1 = (Returned tt, m2)
    /\ destroyed_streams (setup_calls m1 m2) = []
    /\ replace_internal_streams platform0
         (fun k => Stream (30 + Z.of_nat k)) m1 = (Returned tt, m3)
    /\ destroyed_streams (setup_calls m1 m3) = []
    /\ internal_streams (world m3)
       = map (fun k => Stream (30 + Z.of_nat k)) [0; 1; 2; 3; 4]%nat.
Proof.
  apply (external_streams_are_never_destroyed platform0
           (fun k => Stream (20 + Z.of_nat k))
           (fun k => Stream (30 + Z.of_nat k)) module0).
  - intros h c. reflexivity.
  - reflexivity.
Defined.

(** [replacement_keeps_the_rotation] with the counter at 7. *)
Lemma replacement_keeps_the_rotation_witness :
  exists m1,
    replace_internal_streams platform0
      (fun k => Stream (20 + Z.of_nat k))
      (set_world (set_cur_stream 7 (world module0)) module0)
    = (Returned tt, m1)
    /\ cur_stream (world m1) = 7
    /\ fst (on_world get_internal_stream m1) = Returned (Stream 22).
Proof.
  apply (replacement_keeps_the_rotation platform0
           (fun k => Stream (20 + Z.of_nat k))
           (set_world (set_cur_stream 7 (world module0)) module0)).
  - intros h c. reflexivity.
  - reflexivity.
  - cbn. lia.
Defined.
